(** * Forex Factory calendar scrapers: row classification and time reconstruction

    A shallow embedding of the three scripts of the repository

      - [html_to_csv.py]          (module [HtmlToCsv]),
      - [extract_html_to_csv.py]  (module [ExtractHtmlToCsv]),
      - [loc_scraper.py]          (module [LocScraper]),

    together with the small part of the Python runtime they lean on:
    [str.strip], [str.lower], [int], the backtracking [re] matcher on the
    fragment of regular expressions the scripts use, and the range checks
    of [datetime].

    Modelling conventions.
      - A Python [str] is a list of characters; a character is a code
        point below 256 (the Latin-1 block of Unicode), which is what
        [\d], [\s], [str.isspace] and [str.lower] are defined on below.
      - A Python [int] is a [Z].
      - A raised exception is the [Raise] outcome of the [result] monad;
        [try: ... except Exception:] is a match on that outcome.
      - A BeautifulSoup [<tr>] tag is the record [RawRow] of exactly the
        attributes the scripts read from it. *)

From Stdlib Require Import ZArith Ascii String DecimalString.
From stdpp Require Import base option list gmap strings.

Local Open Scope Z_scope.

(** ** Text *)

Abbreviation text := (list ascii).

Definition str (s : string) : text := list_ascii_of_string s.

(** The double quote character, written by its code. *)
Definition dq : ascii := "034"%char.

Definition code (c : ascii) : Z := Z.of_N (N_of_ascii c).

(** [\d] of [re] and the digits [int] accepts, below code point 256. *)
Definition is_digit (c : ascii) : bool :=
  (48 <=? code c) && (code c <=? 57).

(** [str.isspace], which is also [\s] of [re] on [str] patterns: below
    code point 256 these are TAB..CR, FS..US, SPACE, NEL and NBSP. *)
Definition is_space (c : ascii) : bool :=
  ((9 <=? code c) && (code c <=? 13))
  || ((28 <=? code c) && (code c <=? 32))
  || (code c =? 133) || (code c =? 160).

(** [str.lower] on one character: A-Z and the Latin-1 capitals
    (U+00C0..U+00DE without the multiplication sign) move up by 32. *)
Definition lower_char (c : ascii) : ascii :=
  if ((65 <=? code c) && (code c <=? 90))
     || ((192 <=? code c) && (code c <=? 222) && negb (code c =? 215))
  then ascii_of_N (Z.to_N (code c + 32))
  else c.

Definition lower (s : text) : text := map lower_char s.

Fixpoint lstrip (s : text) : text :=
  match s with
  | c :: s' => if is_space c then lstrip s' else s
  | [] => []
  end.

Definition rstrip (s : text) : text := rev (lstrip (rev s)).

(** [str.strip()] with no argument. *)
Definition strip (s : text) : text := rstrip (lstrip s).

Definition digit_val (c : ascii) : Z := code c - 48.

(** [int(s)] for a string of decimal digits (the scripts call [int] only
    on what [\d] matched). The limit an interpreter may set on the number
    of digits ([sys.set_int_max_str_digits], 4300 by default from Python
    3.11 on) is not modelled: it is out of reach of the one or two digits
    of a day, an hour or a minute, a longer day number of loc_scraper.py
    is rejected by [datetime] in the same [try], and the [dateline] of
    extract_html_to_csv.py is taken to stay below it. *)
Definition int (s : text) : Z :=
  fold_left (fun acc c => 10 * acc + digit_val c) s 0.

Definition text_eqb (a b : text) : bool := bool_decide (a = b).

(** [x in xs] on a Python list of strings. *)
Definition mem (x : text) (xs : list text) : bool := bool_decide (x ∈ xs).

(** ** Exceptions *)

Inductive exn : Type :=
| ValueError (msg : string)
| IndexError (msg : string)
| OverflowError (msg : string)
| OSError (msg : string).

Inductive result (A : Type) : Type :=
| Ok (a : A)
| Raise (e : exn).
Arguments Ok {A} a.
Arguments Raise {A} e.

(** Sequencing: [x ← m; k] runs [k] on the value of [m], and an exception
    raised by [m] propagates. *)
#[global] Instance result_bind : MBind result := λ A B f m,
  match m with
  | Ok a => f a
  | Raise e => Raise e
  end.

#[global] Instance result_ret : MRet result := λ A a, Ok a.

(** ** The [re] fragment

    Every quantifier in the scripts' patterns applies to a single
    character class, so a pattern is a sequence of nodes. The matcher is
    the backtracking one of [re]: a greedy quantifier tries the longest
    repetition first, a lazy one the shortest, alternatives are tried in
    order, and the first complete match wins. *)
Module Re.

Inductive cls : Type :=
| Lit (c : ascii)     (* the character itself *)
| Digit               (* \d *)
| Space               (* \s *)
| Any                 (* .  under re.DOTALL *)
| Not (c : ascii).    (* [^c] *)

Definition cls_ok (k : cls) (c : ascii) : bool :=
  match k with
  | Lit d => bool_decide (c = d)
  | Digit => is_digit c
  | Space => is_space c
  | Any => true
  | Not d => negb (bool_decide (c = d))
  end.

Inductive greed : Type := Greedy | Lazy.

Inductive node : Type :=
| Chr (k : cls)
| Rep (k : cls) (lo : nat) (hi : option nat) (g : greed)
| Open                         (* "("  of a capture group *)
| Close                        (* ")" *)
| Alt (alts : list text).      (* a|b|... of literal words *)

Definition regex := list node.

Definition lits (t : text) : regex := map (fun c => Chr (Lit c)) t.

Definition room (hi : option nat) : bool :=
  match hi with Some O => false | _ => true end.

Section Quantifier.
Context {R : Type} (k : cls) (g : greed).

(** [k{lo,hi}] (greedy) or [k{lo,hi}?] (lazy) followed by [cont]. *)
Fixpoint rep (lo : nat) (hi : option nat) (s : text)
    (cont : text -> option R) : option R :=
  let stop (_ : unit) := match lo with O => cont s | S _ => None end in
  let more (_ : unit) :=
    match s with
    | c :: s' =>
        if cls_ok k c && room hi
        then rep (Nat.pred lo) (Nat.pred <$> hi) s' cont
        else None
    | [] => None
    end in
  match g with
  | Greedy => match more () with Some r => Some r | None => stop () end
  | Lazy => match stop () with Some r => Some r | None => more () end
  end.

Fixpoint alt (alts : list text) (s : text)
    (cont : text -> option R) : option R :=
  match alts with
  | [] => None
  | a :: alts' =>
      let next (_ : unit) := alt alts' s cont in
      if bool_decide (take (length a) s = a)
      then match cont (drop (length a) s) with
           | Some r => Some r
           | None => next ()
           end
      else next ()
  end.
End Quantifier.

(** [exec re s opens caps]: match [re] at the start of [s]. [opens]
    holds the input as it was at each group still open, [caps] the
    groups closed so far; the result is the groups and the unread
    rest of the input. *)
Fixpoint exec (re : regex) (s : text) (opens caps : list text)
    : option (list text * text) :=
  match re with
  | [] => Some (caps, s)
  | Chr k :: re' =>
      match s with
      | c :: s' => if cls_ok k c then exec re' s' opens caps else None
      | [] => None
      end
  | Rep k lo hi g :: re' =>
      rep k g lo hi s (fun rest => exec re' rest opens caps)
  | Open :: re' => exec re' s (s :: opens) caps
  | Close :: re' =>
      match opens with
      | o :: os =>
          exec re' s os (caps ++ [take (length o - length s)%nat o])
      | [] => None
      end
  | Alt alts :: re' =>
      alt alts s (fun rest => exec re' rest opens caps)
  end.

(** [re.match(re, s)]: the groups of a match at position 0. *)
Definition rmatch (re : regex) (s : text) : option (list text) :=
  fst <$> exec re s [] [].

(** [re.search(re, s)]: the groups of the leftmost match. *)
Fixpoint search (re : regex) (s : text) : option (list text) :=
  match exec re s [] [] with
  | Some (caps, _) => Some caps
  | None =>
      match s with
      | [] => None
      | _ :: s' => search re s'
      end
  end.

(** [re.findall(re, s)]: the groups of all non-overlapping matches,
    left to right. [skip] counts the characters of the previous match
    still to be stepped over. *)
Fixpoint findall_from (re : regex) (skip : nat) (s : text)
    : list (list text) :=
  match skip with
  | S n =>
      match s with
      | [] => []
      | _ :: s' => findall_from re n s'
      end
  | O =>
      match exec re s [] [] with
      | Some (caps, rest) =>
          caps ::
            match s with
            | [] => []
            | _ :: s' =>
                findall_from re (length s - length rest - 1)%nat s'
            end
      | None =>
          match s with
          | [] => []
          | _ :: s' => findall_from re O s'
          end
      end
  end.

Definition findall (re : regex) (s : text) : list (list text) :=
  findall_from re O s.

End Re.

Import Re.

(** [r"(\d{1,2}):(\d{2})(am|pm)"], the time pattern of all three scripts. *)
Definition time_re : regex :=
  [Open; Rep Digit 1 (Some 2%nat) Greedy; Close; Chr (Lit ":");
   Open; Rep Digit 2 (Some 2%nat) Greedy; Close;
   Open; Alt [str "am"; str "pm"]; Close].

(** [rf"{month_str}\s+(\d{{1,2}})"], the day-breaker pattern. *)
Definition day_re (month_str : text) : regex :=
  lits month_str ++ [Rep Space 1 None Greedy;
                     Open; Rep Digit 1 (Some 2%nat) Greedy; Close].


(** ** A repeated group

    The day pattern of extract_html_to_csv.py repeats a group,
    [(?:...)*]. The group holds no capture and every iteration of it
    consumes characters, so the number of iterations is bounded by the
    length of the input. *)
Module ReStar.

Inductive item : Type :=
| Node (n : node)
| Star (body : list node).     (* (?:body)*, greedy *)

Section Run.
Context {R : Type}.

(** A sequence of nodes without groups, followed by [cont]. *)
Fixpoint run (re : list node) (s : text) (cont : text -> option R)
    : option R :=
  match re with
  | [] => cont s
  | Chr k :: re' =>
      match s with
      | c :: s' => if cls_ok k c then run re' s' cont else None
      | [] => None
      end
  | Rep k lo hi g :: re' => rep k g lo hi s (fun rest => run re' rest cont)
  | Alt alts :: re' => alt alts s (fun rest => run re' rest cont)
  | Open :: _ => None
  | Close :: _ => None
  end.

(** [(?:body)*] followed by [cont]: one more iteration first, none
    otherwise. [n] bounds the iterations. *)
Fixpoint star (n : nat) (body : list node) (s : text)
    (cont : text -> option R) : option R :=
  match n with
  | O => cont s
  | S n' =>
      match run body s
              (fun rest =>
                 if bool_decide (length rest < length s)%nat
                 then star n' body rest cont
                 else None)
      with
      | Some r => Some r
      | None => cont s
      end
  end.
End Run.

Fixpoint exec (re : list item) (s : text) (opens caps : list text)
    : option (list text * text) :=
  match re with
  | [] => Some (caps, s)
  | Node (Chr k) :: re' =>
      match s with
      | c :: s' => if cls_ok k c then exec re' s' opens caps else None
      | [] => None
      end
  | Node (Rep k lo hi g) :: re' =>
      rep k g lo hi s (fun rest => exec re' rest opens caps)
  | Node Open :: re' => exec re' s (s :: opens) caps
  | Node Close :: re' =>
      match opens with
      | o :: os =>
          exec re' s os (caps ++ [take (length o - length s)%nat o])
      | [] => None
      end
  | Node (Alt alts) :: re' =>
      alt alts s (fun rest => exec re' rest opens caps)
  | Star body :: re' =>
      star (length s) body s (fun rest => exec re' rest opens caps)
  end.

(** [re.finditer(re, s)]: the groups of all non-overlapping matches, left
    to right. *)
Fixpoint finditer_from (re : list item) (skip : nat) (s : text)
    : list (list text) :=
  match skip with
  | S n =>
      match s with
      | [] => []
      | _ :: s' => finditer_from re n s'
      end
  | O =>
      match exec re s [] [] with
      | Some (caps, rest) =>
          caps ::
            match s with
            | [] => []
            | _ :: s' =>
                finditer_from re (length s - length rest - 1)%nat s'
            end
      | None =>
          match s with
          | [] => []
          | _ :: s' => finditer_from re O s'
          end
      end
  end.

Definition finditer (re : list item) (s : text) : list (list text) :=
  finditer_from re O s.

End ReStar.

(** [s.replace(old, new)] for a non-empty [old]: every occurrence, left to
    right, without overlap. [skip] counts the characters of the last
    occurrence still to be stepped over. *)
Fixpoint replace_from (old new : text) (skip : nat) (s : text) : text :=
  match skip with
  | S n =>
      match s with
      | [] => []
      | _ :: s' => replace_from old new n s'
      end
  | O =>
      match s with
      | [] => []
      | c :: s' =>
          if bool_decide (take (length old) s = old)
          then new ++ replace_from old new (length old - 1)%nat s'
          else c :: replace_from old new O s'
      end
  end.

Definition replace (old new s : text) : text := replace_from old new O s.

(** ** [datetime]

    The constructor and [replace] check their arguments and raise
    [ValueError] outside the calendar ranges; [tzinfo] is the fixed UTC
    offset of a [timezone(timedelta(...))], in minutes. *)
Module datetime.

Record t : Type := mk {
  year : Z; month : Z; day : Z;
  hour : Z; minute : Z; second : Z;
  tzinfo : option Z
}.

Definition is_leap (y : Z) : bool :=
  (y mod 4 =? 0) && (negb (y mod 100 =? 0) || (y mod 400 =? 0)).

Definition days_in_month (y m : Z) : Z :=
  if m =? 2 then (if is_leap y then 29 else 28)
  else if (m =? 4) || (m =? 6) || (m =? 9) || (m =? 11) then 30
  else 31.

(** [str(n)] *)
Definition repr (n : Z) : string := NilZero.string_of_int (Z.to_int n).

(** An argument of the constructor is converted to a C [int] (32 bits,
    through a C [long] of 64 bits) before any range is checked. *)
Definition fits_c_int (n : Z) : Prop := - 2 ^ 31 <= n < 2 ^ 31.

Definition as_c_int (n : Z) : result Z :=
  if (n <? - 2 ^ 63) || (2 ^ 63 <=? n)
  then Raise (OverflowError "Python int too large to convert to C long")
  else if 2 ^ 31 <=? n
  then Raise (OverflowError "signed integer is greater than maximum")
  else if n <? - 2 ^ 31
  then Raise (OverflowError "signed integer is less than minimum")
  else Ok n.

(** [datetime(year, month, day)]: the three arguments are converted
    first, then checked in turn. *)
Definition new (y m d : Z) : result t :=
  y ← as_c_int y;
  m ← as_c_int m;
  d ← as_c_int d;
  if negb ((1 <=? y) && (y <=? 9999))
  then Raise (ValueError ("year " +:+ repr y +:+ " is out of range"))
  else if negb ((1 <=? m) && (m <=? 12))
  then Raise (ValueError "month must be in 1..12")
  else if negb ((1 <=? d) && (d <=? days_in_month y m))
  then Raise (ValueError "day is out of range for month")
  else Ok (mk y m d 0 0 0 None).

Definition with_time (dt : t) (hh mm ss : Z) : t :=
  mk (year dt) (month dt) (day dt) hh mm ss (tzinfo dt).

(** [dt.replace(hour=hh, minute=mm, second=ss)]. The scripts pass an
    hour and a minute read from at most two digits (the hour plus 12 at
    most) or carried from an earlier call, so the conversion to a C [int]
    cannot fail here and only the ranges are checked. *)
Definition replace (dt : t) (hh mm ss : Z) : result t :=
  if negb ((0 <=? hh) && (hh <=? 23))
  then Raise (ValueError "hour must be in 0..23")
  else if negb ((0 <=? mm) && (mm <=? 59))
  then Raise (ValueError "minute must be in 0..59")
  else if negb ((0 <=? ss) && (ss <=? 59))
  then Raise (ValueError "second must be in 0..59")
  else Ok (with_time dt hh mm ss).

(** [dt.replace(tzinfo=tz)] *)
Definition replace_tzinfo (dt : t) (tz : Z) : t :=
  mk (year dt) (month dt) (day dt) (hour dt) (minute dt) (second dt)
     (Some tz).

Definition digit_char (n : Z) : ascii := ascii_of_N (Z.to_N (48 + n mod 10)).

(** ["%0{width}d" % n] for [0 <= n < 10^width]. *)
Fixpoint zfill (width : nat) (n : Z) : text :=
  match width with
  | O => []
  | S w => zfill w (n / 10) ++ [digit_char n]
  end.

Definition format_offset (tz : option Z) : text :=
  match tz with
  | None => []
  | Some off =>
      (if off <? 0 then str "-" else str "+")
      ++ zfill 2 (Z.abs off / 60) ++ str ":" ++ zfill 2 (Z.abs off mod 60)
  end.

(** [dt.isoformat()] of a datetime without microseconds. *)
Definition isoformat (dt : t) : text :=
  zfill 4 (year dt) ++ str "-" ++ zfill 2 (month dt) ++ str "-"
  ++ zfill 2 (day dt) ++ str "T" ++ zfill 2 (hour dt) ++ str ":"
  ++ zfill 2 (minute dt) ++ str ":" ++ zfill 2 (second dt)
  ++ format_offset (tzinfo dt).

Definition month_names : list text :=
  [str "Jan"; str "Feb"; str "Mar"; str "Apr"; str "May"; str "Jun";
   str "Jul"; str "Aug"; str "Sep"; str "Oct"; str "Nov"; str "Dec"].

(** [dt.strftime("%b")] in the C locale. *)
Definition strftime_b (dt : t) : text :=
  default [] (month_names !! Z.to_nat (month dt - 1)).

End datetime.

(** [timezone(timedelta(hours=-8))] *)
Definition pst : Z := -8 * 60.

(** ** Rows and records *)

(** What the scripts read from a [<tr>] tag. *)
Record RawRow : Type := {
  row_class : list text;          (* row.get("class", []) *)
  get_text : text;                (* row.get_text(separator=" ") *)
  find_all_td : list text;        (* [c.text for c in row.find_all("td")] *)
  data_event_id : option text     (* the data-event-id attribute, if any *)
}.

(** One entry of [data_list]. *)
Record EventRecord : Type := {
  DateTime : text;
  Currency : text;
  Impact : text;
  Event : text;
  Actual : text;
  Forecast : text;
  Previous : text;
  Detail : text
}.

(** [cells[i]] on a Python list, for a constant [i >= 0]. *)
Definition item (cells : list text) (i : nat) : result text :=
  match cells !! i with
  | Some c => Ok c
  | None => Raise (IndexError "list index out of range")
  end.

(** The 12-hour to 24-hour adjustment shared by the three scripts:
    [if ampm == "pm" and hh < 12: hh += 12] and
    [(el)if ampm == "am" and hh == 12: hh = 0]. *)
Definition to_24h (hh : Z) (ampm : text) : Z :=
  if text_eqb ampm (str "pm") && (hh <? 12) then hh + 12
  else if text_eqb ampm (str "am") && (hh =? 12) then 0
  else hh.

(** The three groups of a [time_re] match as [(int, int, str)]. *)
Definition time_groups (m : option (list text)) : option (Z * Z * text) :=
  match m with
  | Some [g1; g2; g3] => Some (int g1, int g2, g3)
  | _ => None
  end.

(** ** html_to_csv.py *)
Module HtmlToCsv.

(** The assignment the blob is found by, and the two keys of a pair. *)
Definition blob_prefix : text := str "window.calendarComponentStates[1]".

Definition id_key : text := [dq] ++ str "id" ++ [dq] ++ str ":".

Definition impact_key : text :=
  [dq] ++ str "impactTitle" ++ [dq] ++ str ":" ++ [dq].

(** [window\.calendarComponentStates\[1\]\s*=\s*({.*?});] under
    [re.DOTALL]. *)
Definition blob_re : regex :=
  lits blob_prefix
  ++ [Rep Space 0 None Greedy; Chr (Lit "="); Rep Space 0 None Greedy;
      Open; Chr (Lit "{"); Rep Any 0 None Lazy; Chr (Lit "}"); Close;
      Chr (Lit ";")].

(** The pattern of [re.findall], QidQ:(\d+)[^}]*?QimpactTitleQ:Q([^Q]+)Q,
    where Q stands for the double quote character [dq]. *)
Definition pair_re : regex :=
  lits id_key
  ++ [Open; Rep Digit 1 None Greedy; Close; Rep (Not "}") 0 None Lazy]
  ++ lits impact_key
  ++ [Open; Rep (Not dq) 1 None Greedy; Close; Chr (Lit dq)].

Definition add_pair (impact_map : gmap text text) (ev : list text)
    : gmap text text :=
  match ev with
  | [event_id; impact_title] => <[event_id := impact_title]> impact_map
  | _ => impact_map
  end.

Definition extract_json_data (html_content : text) : gmap text text :=
  match search blob_re html_content with
  | Some (js_obj :: _) => foldl add_pair ∅ (findall pair_re js_obj)
  | _ => ∅
  end.

(** The loop variables [current_day] and [last_clock_time]. *)
Record state : Type := {
  current_day : option datetime.t;
  last_clock_time : option (Z * Z)
}.

Definition fresh : state :=
  {| current_day := None; last_clock_time := None |}.

(** The texts read from the cells of a data row, and its impact. *)
Record fields : Type := {
  impact : text;
  time_text : text;
  currency_text : text;
  event_text : text;
  detail_text : text;
  actual_text : text;
  forecast_text : text;
  previous_text : text
}.

Definition has_date_col (row : RawRow) : bool :=
  bool_decide (length (find_all_td row) = 11%nat)
  || mem (str "calendar__row--new-day") (row_class row).

(** [cells[i].text.strip()] for the seven columns, in the order of the
    assignments. *)
Definition read_at (impact : text) (cells : list text)
    (i_time i_currency i_event i_detail i_actual i_forecast i_previous : nat)
    : result fields :=
  time_text ← item cells i_time;
  currency_text ← item cells i_currency;
  event_text ← item cells i_event;
  detail_text ← item cells i_detail;
  actual_text ← item cells i_actual;
  forecast_text ← item cells i_forecast;
  previous_text ← item cells i_previous;
  Ok {| impact := impact;
        time_text := strip time_text;
        currency_text := strip currency_text;
        event_text := strip event_text;
        detail_text := strip detail_text;
        actual_text := strip actual_text;
        forecast_text := strip forecast_text;
        previous_text := strip previous_text |}.

(** The body of the [try:] of lines 100-141; [Ok None] is a
    [continue], [Raise] an exception for the [except] to catch. *)
Definition read_cells (impact_map : gmap text text) (row : RawRow)
    : result (option fields) :=
  let cells := find_all_td row in
  if bool_decide (length cells < 5)%nat then Ok None else
  let event_id := default [] (data_event_id row) in
  let impact := default (str "Low Impact Expected") (impact_map !! event_id) in
  f ← (if has_date_col row
       then read_at impact cells 1 2 4 6 7 8 9
       else read_at impact cells 0 1 3 5 6 7 8);
  if bool_decide (event_text f = []) then Ok None else Ok (Some f).

(** Lines 81-94, a day-breaker row: the new [current_day] and
    [last_clock_time]. Without a match of [day_re] nothing changes; when
    [datetime(year, month, day_num)] raises, the [except] clears
    [current_day]. *)
Definition day_breaker (year month : Z) (month_str : text)
    (st : state) (row : RawRow) : state :=
  let row_text := strip (get_text row) in
  match search (day_re month_str) row_text with
  | Some (g1 :: _) =>
      let day_num := int g1 in
      match datetime.new year month day_num with
      | Ok d => {| current_day := Some d; last_clock_time := None |}
      | Raise _ =>
          {| current_day := None; last_clock_time := last_clock_time st |}
      end
  | _ => st
  end.

(** Lines 146-175: the datetime of the row and the new
    [last_clock_time]. *)
Definition clock (event_dt : datetime.t) (last_clock_time : option (Z * Z))
    (time_text : text) : result (datetime.t * (Z * Z)) :=
  let last_clock_time := default (0, 0) last_clock_time in
  if negb (text_eqb time_text [])
     && negb (mem time_text [str "All Day"; str "Tentative"])
  then
    match time_groups (rmatch time_re (lower time_text)) with
    | Some (hh, mm, ampm) =>
        let hh := to_24h hh ampm in
        event_dt ← datetime.replace event_dt hh mm 0;
        Ok (event_dt, (hh, mm))
    | None =>
        let '(hh, mm) := last_clock_time in
        event_dt ← datetime.replace event_dt hh mm 0;
        Ok (event_dt, last_clock_time)
    end
  else if text_eqb time_text (str "All Day") then
    event_dt ← datetime.replace event_dt 0 0 0;
    Ok (event_dt, (0, 0))
  else
    let '(hh, mm) := last_clock_time in
    event_dt ← datetime.replace event_dt hh mm 0;
    Ok (event_dt, last_clock_time).

Definition record_of (event_dt : datetime.t) (f : fields) : EventRecord :=
  {| DateTime := datetime.isoformat event_dt;
     Currency := currency_text f;
     Impact := impact f;
     Event := event_text f;
     Actual := actual_text f;
     Forecast := forecast_text f;
     Previous := previous_text f;
     Detail := detail_text f |}.

(** One iteration of the loop over [rows]: the new loop variables and
    the record appended to [data_list], if any. A [Raise] leaves the
    loop and the function. *)
Definition body (impact_map : gmap text text) (year month : Z)
    (month_str : text) (st : state) (row : RawRow)
    : result (state * option EventRecord) :=
  if mem (str "calendar__row--day-breaker") (row_class row)
  then Ok (day_breaker year month month_str st row, None)
  else
    match current_day st with
    | None => Ok (st, None)
    | Some event_dt =>
        match read_cells impact_map row with
        | Raise _ => Ok (st, None)
        | Ok None => Ok (st, None)
        | Ok (Some f) =>
            '(event_dt, lct) ← clock event_dt (last_clock_time st) (time_text f);
            let event_dt := datetime.replace_tzinfo event_dt pst in
            Ok ({| current_day := current_day st;
                   last_clock_time := Some lct |},
                Some (record_of event_dt f))
        end
    end.

Fixpoint for_rows (impact_map : gmap text text) (year month : Z)
    (month_str : text) (rows : list RawRow) (st : state)
    (data_list : list EventRecord) : result (state * list EventRecord) :=
  match rows with
  | [] => Ok (st, data_list)
  | row :: rows' =>
      '(st', out) ← body impact_map year month month_str st row;
      for_rows impact_map year month month_str rows' st'
               (data_list ++ option_list out)
  end.

(** [parse_calendar_html], from the text of the file and the rows
    BeautifulSoup finds in it to [data_list]. *)
Definition parse_calendar_html (html_content : text) (rows : list RawRow)
    (year month : Z) : result (list EventRecord) :=
  let impact_map := extract_json_data html_content in
  first ← datetime.new year month 1;
  let month_str := datetime.strftime_b first in
  '(_, data_list) ← for_rows impact_map year month month_str rows fresh [];
  Ok data_list.

(** *** The loop as a step relation

    One rule per path through the loop body: the three ways a
    day-breaker row ends, the three ways a row is skipped, the row that
    appends a record, and the row whose time raises. *)
Inductive outcome : Type :=
| Next (st : state) (out : option EventRecord)
| Abort (e : exn).

(** The outcome of an iteration computed by [body]. *)
Definition outcome_of (r : result (state * option EventRecord)) : outcome :=
  match r with
  | Ok (st', out) => Next st' out
  | Raise e => Abort e
  end.

Definition is_day_breaker (row : RawRow) : bool :=
  mem (str "calendar__row--day-breaker") (row_class row).

Section Step.
Context (impact_map : gmap text text) (year month : Z) (month_str : text).

Definition day_match (row : RawRow) : option (list text) :=
  search (day_re month_str) (strip (get_text row)).

Inductive step (st : state) (row : RawRow) : outcome -> Prop :=
| step_day_set g gs d :
    is_day_breaker row = true ->
    day_match row = Some (g :: gs) ->
    datetime.new year month (int g) = Ok d ->
    step st row
      (Next {| current_day := Some d; last_clock_time := None |} None)
| step_day_clear g gs e :
    is_day_breaker row = true ->
    day_match row = Some (g :: gs) ->
    datetime.new year month (int g) = Raise e ->
    step st row
      (Next {| current_day := None;
               last_clock_time := last_clock_time st |} None)
| step_day_ignored :
    is_day_breaker row = true ->
    (forall g gs, day_match row <> Some (g :: gs)) ->
    step st row (Next st None)
| step_no_day :
    is_day_breaker row = false ->
    current_day st = None ->
    step st row (Next st None)
| step_bad_cells d e :
    is_day_breaker row = false ->
    current_day st = Some d ->
    read_cells impact_map row = Raise e ->
    step st row (Next st None)
| step_blank d :
    is_day_breaker row = false ->
    current_day st = Some d ->
    read_cells impact_map row = Ok None ->
    step st row (Next st None)
| step_event d f dt t :
    is_day_breaker row = false ->
    current_day st = Some d ->
    read_cells impact_map row = Ok (Some f) ->
    clock d (last_clock_time st) (time_text f) = Ok (dt, t) ->
    step st row
      (Next {| current_day := Some d; last_clock_time := Some t |}
            (Some (record_of (datetime.replace_tzinfo dt pst) f)))
| step_raise d f e :
    is_day_breaker row = false ->
    current_day st = Some d ->
    read_cells impact_map row = Ok (Some f) ->
    clock d (last_clock_time st) (time_text f) = Raise e ->
    step st row (Abort e).

Inductive run : state -> list RawRow -> result (list EventRecord) -> Prop :=
| run_done st : run st [] (Ok [])
| run_next st row rows st' out recs :
    step st row (Next st' out) ->
    run st' rows (Ok recs) ->
    run st (row :: rows) (Ok (option_list out ++ recs))
| run_abort_later st row rows st' out e :
    step st row (Next st' out) ->
    run st' rows (Raise e) ->
    run st (row :: rows) (Raise e)
| run_abort st row rows e :
    step st row (Abort e) ->
    run st (row :: rows) (Raise e).
End Step.

(** A run of [parse_calendar_html] from fresh loop variables. *)
Inductive parses (html_content : text) (rows : list RawRow)
    (year month : Z) : result (list EventRecord) -> Prop :=
| parses_rows first res :
    datetime.new year month 1 = Ok first ->
    run (extract_json_data html_content) year month
        (datetime.strftime_b first) fresh rows res ->
    parses html_content rows year month res
| parses_bad_month e :
    datetime.new year month 1 = Raise e ->
    parses html_content rows year month (Raise e).

(** A day-breaker row that sets [current_day]. *)
Definition opens_day (year month : Z) (month_str : text) (row : RawRow)
    : bool :=
  is_day_breaker row
  && match day_match month_str row with
     | Some (g :: _) =>
         match datetime.new year month (int g) with
         | Ok _ => true
         | Raise _ => false
         end
     | _ => false
     end.

(** A day-breaker row whose day number is found and rejected by
    [datetime]. *)
Definition bad_day (year month : Z) (month_str : text) (row : RawRow)
    : bool :=
  is_day_breaker row
  && match day_match month_str row with
     | Some (g :: _) =>
         match datetime.new year month (int g) with
         | Ok _ => false
         | Raise _ => true
         end
     | _ => false
     end.

End HtmlToCsv.

(** ** extract_html_to_csv.py *)
Module ExtractHtmlToCsv.

(** One entry of [events_list], as [extract_events_from_json] builds it. *)
Record event : Type := {
  dateline : Z;
  event_id : text;
  name : text;
  currency : text;
  impact : text;
  time_label : text;
  actual : text;
  previous : text;
  forecast : text
}.

Definition parse_time_label (time_label : text) (base_date : datetime.t)
    : result datetime.t :=
  if text_eqb time_label []
     || mem time_label [str "All Day"; str "Tentative";
                        str "Day 1"; str "Day 2"; str "Day 3"]
  then
    dt ← datetime.replace base_date 0 0 0;
    Ok (datetime.replace_tzinfo dt pst)
  else
    match time_groups (rmatch time_re (lower time_label)) with
    | Some (hh, mm, ampm) =>
        let hh := to_24h hh ampm in
        dt ← datetime.replace base_date hh mm 0;
        Ok (datetime.replace_tzinfo dt pst)
    | None =>
        dt ← datetime.replace base_date 0 0 0;
        Ok (datetime.replace_tzinfo dt pst)
    end.

(** The loop of [parse_calendar_html] over [events_list];
    [fromtimestamp] is [datetime.fromtimestamp] in the zone of the
    host, which raises on a timestamp out of the range of the platform
    or of [datetime]; the call is in no [try]. *)
Fixpoint for_events (fromtimestamp : Z -> result datetime.t)
    (events_list : list event) (data_list : list EventRecord)
    : result (list EventRecord) :=
  match events_list with
  | [] => Ok data_list
  | event :: events' =>
      base_date ← fromtimestamp (dateline event);
      event_dt ← parse_time_label (time_label event) base_date;
      for_events fromtimestamp events'
        (data_list ++ [{| DateTime := datetime.isoformat event_dt;
                          Currency := currency event;
                          Impact := impact event;
                          Event := name event;
                          Actual := actual event;
                          Forecast := forecast event;
                          Previous := previous event;
                          Detail := [] |}])
  end.

(** [QnameQ:] and [QnameQ:Q], with Q the double quote. *)
Definition key (name : string) : text := [dq] ++ str name ++ [dq] ++ str ":".

Definition skey (name : string) : text := key name ++ [dq].

(** The pattern of the blob, as in html_to_csv.py. *)
Definition blob_re : regex := HtmlToCsv.blob_re.

(** The day pattern: the key [date] with its value, the key [dateline]
    with digits (group 1), the empty [add], and the key [events] with a
    bracketed block (group 2): characters other than the closing bracket,
    then any number of closing-to-opening bracket stretches, then
    characters other than the closing bracket, up to a closing bracket. *)
Definition day_pattern : list ReStar.item :=
  (ReStar.Node <$>
     lits (skey "date") ++ [Rep (Not dq) 0 None Greedy]
     ++ lits ([dq] ++ str "," ++ key "dateline")
     ++ [Open; Rep Digit 1 None Greedy; Close]
     ++ lits (str "," ++ skey "add" ++ [dq] ++ str "," ++ key "events"
              ++ str "[")
     ++ [Open; Rep (Not "]") 1 None Greedy])
  ++ [ReStar.Star [Chr (Lit "]"); Rep (Not "]") 0 None Greedy; Chr (Lit "[")]]
  ++ (ReStar.Node <$> [Rep (Not "]") 0 None Greedy; Close; Chr (Lit "]")]).

(** One field of the event pattern: characters other than the closing
    brace, the key, and its value between double quotes (a group). *)
Definition field_re (name : string) : regex :=
  [Rep (Not "}") 0 None Greedy]
  ++ lits (skey name)
  ++ [Open; Rep (Not dq) 0 None Greedy; Close; Chr (Lit dq)].

(** The event pattern: an opening brace, the key [id] with digits, and
    then the fields name, currency, impactTitle, timeLabel, actual,
    previous, revision and forecast. *)
Definition event_pattern : regex :=
  lits (str "{" ++ key "id") ++ [Open; Rep Digit 1 None Greedy; Close]
  ++ field_re "name" ++ field_re "currency" ++ field_re "impactTitle"
  ++ field_re "timeLabel" ++ field_re "actual" ++ field_re "previous"
  ++ field_re "revision" ++ field_re "forecast".

(** The two replacements on the name: backslash-slash becomes slash,
    then two backslashes become one. *)
Definition unescape (name : text) : text :=
  replace (str "\\") (str "\") (replace (str "\/") (str "/") name).

(** The dictionary appended for one match of the event pattern. *)
Definition event_of (dateline : Z) (groups : list text) : list event :=
  match groups with
  | [event_id; name; currency; impact_title; time_label; actual; previous;
     revision; forecast] =>
      [{| dateline := dateline;
          event_id := event_id;
          name := unescape name;
          currency := currency;
          impact := impact_title;
          time_label := time_label;
          actual := actual;
          previous := previous;
          forecast := forecast |}]
  | _ => []
  end.

(** The events of one match of the day pattern. *)
Definition events_of_day (day_match : list text) : list event :=
  match day_match with
  | [g1; events_block] =>
      let dateline := int g1 in
      findall event_pattern events_block ≫= event_of dateline
  | _ => []
  end.

Definition extract_events_from_json (html_content : text) : list event :=
  match search blob_re html_content with
  | Some (js_obj :: _) =>
      ReStar.finditer day_pattern js_obj ≫= events_of_day
  | _ => []
  end.

(** [parse_calendar_html], from the text of the file to [data_list];
    the year and the month of the call are not used. *)
Definition parse_calendar_html (fromtimestamp : Z -> result datetime.t)
    (html_content : text) (year month : Z) : result (list EventRecord) :=
  let events_list := extract_events_from_json html_content in
  for_events fromtimestamp events_list [].

End ExtractHtmlToCsv.

(** ** loc_scraper.py *)
Module LocScraper.

(** One entry of [data_list]: this script writes six columns. *)
Record Row : Type := {
  DateTime : text;
  Currency : text;
  Event : text;
  Actual : text;
  Forecast : text;
  Previous : text
}.

Record state : Type := {
  current_day : option datetime.t;
  last_clock_time : option (Z * Z)
}.

Definition fresh : state :=
  {| current_day := None; last_clock_time := None |}.

(** [p in s] on strings. *)
Fixpoint contains (p s : text) : bool :=
  bool_decide (take (length p) s = p)
  || match s with
     | [] => false
     | _ :: s' => contains p s'
     end.

(** [r"\d+"]; the group stands for the whole match [findall] returns. *)
Definition number_re : regex := [Open; Rep Digit 1 None Greedy; Close].

(** Lines 39-50: the [try:] of a day row. *)
Definition day_num (day_match : option (list text)) (row_text : text)
    : result Z :=
  match day_match with
  | Some (g1 :: _) => Ok (int g1)
  | _ =>
      match last (findall number_re row_text) with
      | Some (n :: _) => Ok (int n)
      | _ => Raise (IndexError "list index out of range")
      end
  end.

Definition day_row (year month : Z) (day_match : option (list text))
    (row_text : text) (st : state) : state :=
  match (n ← day_num day_match row_text; datetime.new year month n) with
  | Ok d => {| current_day := Some d; last_clock_time := None |}
  | Raise _ =>
      {| current_day := None; last_clock_time := last_clock_time st |}
  end.

(** Lines 84-87: two independent [if]s. *)
Definition to_24h (hh : Z) (ampm : text) : Z :=
  let hh := if text_eqb ampm (str "pm") && (hh <? 12) then hh + 12 else hh in
  if text_eqb ampm (str "am") && (hh =? 12) then 0 else hh.

(** Lines 76-95. *)
Definition clock (event_dt : datetime.t) (last_clock_time : option (Z * Z))
    (time_text : text) : result (datetime.t * (Z * Z)) :=
  let last_clock_time := default (0, 0) last_clock_time in
  if negb (text_eqb time_text []) then
    match time_groups (rmatch time_re (lower time_text)) with
    | Some (hh, mm, ampm) =>
        let hh := to_24h hh ampm in
        event_dt ← datetime.replace event_dt hh mm (datetime.second event_dt);
        Ok (event_dt, (hh, mm))
    | None =>
        let '(hh, mm) := last_clock_time in
        event_dt ← datetime.replace event_dt hh mm (datetime.second event_dt);
        Ok (event_dt, last_clock_time)
    end
  else
    let '(hh, mm) := last_clock_time in
    event_dt ← datetime.replace event_dt hh mm (datetime.second event_dt);
    Ok (event_dt, last_clock_time).

(** Lines 58-74: the [try:] around the cells. *)
Definition read_cells (row : RawRow) : result (option (text * Row)) :=
  let cells := find_all_td row in
  if bool_decide (length cells < 5)%nat then Ok None else
  time_text ← item cells 0;
  currency_text ← item cells 1;
  event_text ← item cells 2;
  actual_text ← item cells 3;
  forecast_text ← item cells 4;
  previous_text ← (if bool_decide (5 < length cells)%nat
                   then c ← item cells 5; Ok (strip c)
                   else Ok []);
  Ok (Some (strip time_text,
            {| DateTime := [];
               Currency := strip currency_text;
               Event := strip event_text;
               Actual := strip actual_text;
               Forecast := strip forecast_text;
               Previous := previous_text |})).

Definition body (year month : Z) (month_str : text) (st : state)
    (row : RawRow) : result (state * option Row) :=
  let row_text := strip (get_text row) in
  let day_match := search (day_re month_str) row_text in
  if contains (str "day-breaker") (concat (row_class row))
     || bool_decide (is_Some day_match)
  then Ok (day_row year month day_match row_text st, None)
  else
    match current_day st with
    | None => Ok (st, None)
    | Some event_dt =>
        match read_cells row with
        | Raise _ => Ok (st, None)
        | Ok None => Ok (st, None)
        | Ok (Some (time_text, r)) =>
            '(event_dt, lct) ← clock event_dt (last_clock_time st) time_text;
            Ok ({| current_day := current_day st;
                   last_clock_time := Some lct |},
                Some {| DateTime := datetime.isoformat event_dt;
                        Currency := Currency r;
                        Event := Event r;
                        Actual := Actual r;
                        Forecast := Forecast r;
                        Previous := Previous r |})
        end
    end.

Fixpoint for_rows (year month : Z) (month_str : text)
    (rows : list RawRow) (st : state) (data_list : list Row)
    : result (state * list Row) :=
  match rows with
  | [] => Ok (st, data_list)
  | row :: rows' =>
      '(st', out) ← body year month month_str st row;
      for_rows year month month_str rows' st' (data_list ++ option_list out)
  end.

Definition parse_calendar_month_from_html_debug (rows : list RawRow)
    (year month : Z) : result (list Row) :=
  first ← datetime.new year month 1;
  let month_str := datetime.strftime_b first in
  '(_, data_list) ← for_rows year month month_str rows fresh [];
  Ok data_list.

End LocScraper.

(** ** Vocabulary of the specification *)

Inductive meridiem : Type := AM | PM.

Definition suffix_text (p : meridiem) : text :=
  match p with
  | AM => str "am"
  | PM => str "pm"
  end.

(** The conversion table of the specification: 12am is 0, 1am..11am are
    1..11, 12pm is 12 and 1pm..11pm are 13..23. *)
Definition hour24 (h : Z) (p : meridiem) : Z :=
  match p with
  | AM => if h =? 12 then 0 else h
  | PM => if h =? 12 then 12 else h + 12
  end.

Definition all_digits (s : text) : Prop := Forall (λ c, is_digit c = true) s.

(** [label] is [H:MM] followed by am or pm in any case, for hour [h],
    minute [m] and half of the day [p]. *)
Definition is_time_label (label : text) (h m : Z) (p : meridiem) : Prop :=
  ∃ hd md sfx,
    label = hd ++ str ":" ++ md ++ sfx
    ∧ all_digits hd ∧ (length hd = 1 ∨ length hd = 2)%nat ∧ int hd = h
    ∧ all_digits md ∧ length md = 2%nat ∧ int md = m
    ∧ lower sfx = suffix_text p.

(** The labels without a clock time. *)
Definition untimed_labels : list text :=
  [[]; str "All Day"; str "Tentative"; str "Day 1"; str "Day 2"; str "Day 3"].

(** The two column layouts and their offsets. *)
Inductive layout : Type := LayoutA | LayoutB.

Inductive column : Type :=
| ColTime | ColCurrency | ColEvent | ColDetail
| ColActual | ColForecast | ColPrevious.

Definition offset (l : layout) (c : column) : nat :=
  match l, c with
  | LayoutA, ColTime => 1 | LayoutA, ColCurrency => 2
  | LayoutA, ColEvent => 4 | LayoutA, ColDetail => 6
  | LayoutA, ColActual => 7 | LayoutA, ColForecast => 8
  | LayoutA, ColPrevious => 9
  | LayoutB, ColTime => 0 | LayoutB, ColCurrency => 1
  | LayoutB, ColEvent => 3 | LayoutB, ColDetail => 5
  | LayoutB, ColActual => 6 | LayoutB, ColForecast => 7
  | LayoutB, ColPrevious => 8
  end%nat.

(** Layout A for 11 cells or a new-day tag, Layout B otherwise. *)
Definition layout_of (row : RawRow) : layout :=
  if decide (length (find_all_td row) = 11%nat
             ∨ str "calendar__row--new-day" ∈ row_class row)
  then LayoutA else LayoutB.

(** The trimmed text of column [c] of a row, if the row has that cell. *)
Definition field (row : RawRow) (c : column) : option text :=
  strip <$> find_all_td row !! offset (layout_of row) c.

(** The time a label parses to as [H:MM(am|pm)]. *)
Definition parsed_time (time_text : text) : option (Z * Z) :=
  match time_groups (rmatch time_re (lower time_text)) with
  | Some (hh, mm, ampm) => Some (to_24h hh ampm, mm)
  | None => None
  end.

(** The time a label leaves in [last_clock_time]: a parsed time, or
    midnight for the label All Day. *)
Definition clock_time (time_text : text) : option (Z * Z) :=
  if text_eqb time_text (str "All Day") then Some (0, 0)
  else parsed_time time_text.

Section Nearest.
Context (impact_map : gmap text text) (month_str : text).
Context (sets : text -> option (Z * Z)).

(** The nearest preceding time within the same day. [before] lists the
    preceding rows, nearest first; the scan passes over rows that set
    no time and ends at the day boundary. *)
Fixpoint nearest_time (before : list RawRow) : option (Z * Z) :=
  match before with
  | [] => None
  | row :: before' =>
      if HtmlToCsv.is_day_breaker row then
        match HtmlToCsv.day_match month_str row with
        | Some (_ :: _) => None
        | _ => nearest_time before'
        end
      else
        match HtmlToCsv.read_cells impact_map row with
        | Ok (Some f) =>
            match sets (HtmlToCsv.time_text f) with
            | Some t => Some t
            | None => nearest_time before'
            end
        | _ => nearest_time before'
        end
  end.
End Nearest.

(** [p] occurs in [s]. *)
Definition infix (p s : text) : Prop := ∃ a b, s = a ++ p ++ b.

(** ** Sample rows *)

(** A day-breaker row with the given text. *)
Definition sample_breaker (txt : string) : RawRow :=
  {| row_class := [str "calendar__row"; str "calendar__row--day-breaker"];
     get_text := str txt;
     find_all_td := [str txt];
     data_event_id := None |}.

(** A ten-cell row: time, currency, impact, event, sub, detail, actual,
    forecast, previous, graph. *)
Definition sample_row (time event : string) : RawRow :=
  {| row_class := [str "calendar__row"];
     get_text := str event;
     find_all_td := [str time; str "USD"; []; str event; []; [];
                     str "1.0"; str "2.0"; str "3.0"; []];
     data_event_id := Some (str "140001") |}.

Definition sample_fields (time event : string) : HtmlToCsv.fields :=
  {| HtmlToCsv.impact := str "Low Impact Expected";
     HtmlToCsv.time_text := str time;
     HtmlToCsv.currency_text := str "USD";
     HtmlToCsv.event_text := str event;
     HtmlToCsv.detail_text := [];
     HtmlToCsv.actual_text := str "1.0";
     HtmlToCsv.forecast_text := str "2.0";
     HtmlToCsv.previous_text := str "3.0" |}.

Definition sample_record (stamp event : string) : EventRecord :=
  {| DateTime := str stamp;
     Currency := str "USD";
     Impact := str "Low Impact Expected";
     Event := str event;
     Actual := str "1.0";
     Forecast := str "2.0";
     Previous := str "3.0";
     Detail := [] |}.

(** 5 June 2025, as [datetime(2025, 6, 5)]. *)
Definition june5 : datetime.t := datetime.mk 2025 6 5 0 0 0 None.

Definition on_june5 (last_clock_time : option (Z * Z)) : HtmlToCsv.state :=
  {| HtmlToCsv.current_day := Some june5;
     HtmlToCsv.last_clock_time := last_clock_time |}.

(** ** Further vocabulary *)

(** A time of day. *)
Definition valid_time (t : Z * Z) : Prop := 0 <= t.1 <= 23 ∧ 0 <= t.2 <= 59.

(** A label that is no clock time, or a clock time in range. *)
Definition time_ok (label : text) : bool :=
  match parsed_time label with
  | Some (hh, mm) => (0 <=? hh) && (hh <=? 23) && (0 <=? mm) && (mm <=? 59)
  | None => true
  end.

(** The loop variables as the loop of html_to_csv.py keeps them:
    [current_day] is a day of the month of the call, at midnight and
    without zone, and [last_clock_time] is a time of day. *)
Definition loop_invariant (year month : Z) (st : HtmlToCsv.state) : Prop :=
  (∀ d, HtmlToCsv.current_day st = Some d ->
        ∃ n, d = datetime.mk year month n 0 0 0 None
             ∧ 1 <= n <= datetime.days_in_month year month)
  ∧ (∀ t, HtmlToCsv.last_clock_time st = Some t -> valid_time t).

(** A record stamped on a day of the month, at a time of day, at UTC-8,
    and with an event name. *)
Definition record_of_month (year month : Z) (rec : EventRecord) : Prop :=
  (∃ n hh mm,
     1 <= n <= datetime.days_in_month year month
     ∧ valid_time (hh, mm)
     ∧ DateTime rec
       = datetime.isoformat
           (datetime.mk year month n hh mm 0 (Some (-480))))
  ∧ length (DateTime rec) = 25%nat
  ∧ Event rec <> [].

(** A record with its impact label blanked. *)
Definition without_impact (rec : EventRecord) : EventRecord :=
  {| DateTime := DateTime rec;
     Currency := Currency rec;
     Impact := [];
     Event := Event rec;
     Actual := Actual rec;
     Forecast := Forecast rec;
     Previous := Previous rec;
     Detail := Detail rec |}.

(** Two readings of a row that differ in the impact label at most. *)
Definition same_but_impact (f1 f2 : HtmlToCsv.fields) : Prop :=
  HtmlToCsv.time_text f1 = HtmlToCsv.time_text f2
  ∧ ∀ dt, without_impact (HtmlToCsv.record_of dt f1)
          = without_impact (HtmlToCsv.record_of dt f2).

(** The outcome of a run with [g] applied to its records. *)
Definition on_records {A B} (g : A -> B) (r : result (list A))
    : result (list B) :=
  match r with
  | Ok recs => Ok (g <$> recs)
  | Raise e => Raise e
  end.

(** A row with the text of the row and of every cell trimmed. *)
Definition trimmed (row : RawRow) : RawRow :=
  {| row_class := row_class row;
     get_text := strip (get_text row);
     find_all_td := strip <$> find_all_td row;
     data_event_id := data_event_id row |}.

(** The loop variables as the loop of loc_scraper.py keeps them. *)
Definition loc_invariant (year month : Z) (st : LocScraper.state) : Prop :=
  (∀ d, LocScraper.current_day st = Some d ->
        ∃ n, d = datetime.mk year month n 0 0 0 None
             ∧ 1 <= n <= datetime.days_in_month year month)
  ∧ (∀ t, LocScraper.last_clock_time st = Some t -> valid_time t).

(** A row of loc_scraper.py stamped on a day of the month, at a time of
    day, without offset. *)
Definition loc_row_of_month (year month : Z) (r : LocScraper.Row) : Prop :=
  (∃ n hh mm,
     1 <= n <= datetime.days_in_month year month
     ∧ valid_time (hh, mm)
     ∧ LocScraper.DateTime r
       = datetime.isoformat (datetime.mk year month n hh mm 0 None))
  ∧ length (LocScraper.DateTime r) = 19%nat.

(** The record extract_html_to_csv.py makes of an event: stamped on the
    base date of the event at the time its own label parses to, or at
    midnight, at UTC-8. *)
Definition record_of_event (fromtimestamp : Z -> result datetime.t)
    (ev : ExtractHtmlToCsv.event) (rec : EventRecord) : Prop :=
  let t := default (0, 0) (parsed_time (ExtractHtmlToCsv.time_label ev)) in
  (∃ base_date,
     fromtimestamp (ExtractHtmlToCsv.dateline ev) = Ok base_date
     ∧ DateTime rec
       = datetime.isoformat
           (datetime.replace_tzinfo
              (datetime.with_time base_date t.1 t.2 0) pst))
  ∧ Currency rec = ExtractHtmlToCsv.currency ev
  ∧ Impact rec = ExtractHtmlToCsv.impact ev
  ∧ Event rec = ExtractHtmlToCsv.name ev
  ∧ Actual rec = ExtractHtmlToCsv.actual ev
  ∧ Forecast rec = ExtractHtmlToCsv.forecast ev
  ∧ Previous rec = ExtractHtmlToCsv.previous ev
  ∧ Detail rec = [].

(** Whether [p] occurs in [s]. *)
Fixpoint occurs (p s : text) : bool :=
  match s with
  | [] => bool_decide (p = [])
  | _ :: s' => bool_decide (take (length p) s = p) || occurs p s'
  end.

(** ** [main]

    The loop of [main] over the files of the months, the same in
    html_to_csv.py and extract_html_to_csv.py, up to the frame that is
    handed to pandas. *)

(** [sorted(html_files.items())] *)
Definition html_files : list (Z * string) :=
  [(6, "June 2025.html"%string); (7, "July 2025.html"%string);
   (8, "Aug 2025.html"%string); (9, "Sept 2025.html"%string);
   (10, "Oct 2025.html"%string); (11, "Nov 2025.html"%string);
   (12, "Dec 2025.html"%string)].

(** What is under a path that exists: a file that cannot be read, or
    what is read from it. *)
Inductive file (page : Type) : Type :=
| Unreadable
| Contents (p : page).

Arguments Unreadable {page}.
Arguments Contents {page} p.

Section Main.
Context {page : Type}.
Variable parse : page -> Z -> Z -> result (list EventRecord).
Variable disk : string -> option (file page).

(** [parse_calendar_html(filepath, year, month)]: when the file cannot
    be read the [except] returns an empty frame. *)
Definition parse_path (f : file page) (year month : Z)
    : result (list EventRecord) :=
  match f with
  | Unreadable => Ok []
  | Contents p => parse p year month
  end.

Fixpoint for_files (year : Z) (files : list (Z * string))
    (all_dataframes : list (list EventRecord))
    : result (list (list EventRecord)) :=
  match files with
  | [] => Ok all_dataframes
  | (month, filename) :: files' =>
      match disk filename with
      | None => for_files year files' all_dataframes
      | Some f =>
          df ← parse_path f year month;
          match df with
          | [] => for_files year files' all_dataframes
          | _ :: _ => for_files year files' (all_dataframes ++ [df])
          end
      end
  end.

(** [combined_df] after [pd.concat], or [None] when [all_dataframes] is
    empty and nothing is written. *)
Definition combined_df : result (option (list EventRecord)) :=
  all_dataframes ← for_files 2025 html_files [];
  Ok (match all_dataframes with
      | [] => None
      | _ :: _ => Some (concat all_dataframes)
      end).

(** The frame of one month: empty when the file is missing. *)
Definition frame_of (year : Z) (entry : Z * string)
    : result (list EventRecord) :=
  match disk entry.2 with
  | None => Ok []
  | Some f => parse_path f year entry.1
  end.
End Main.

(** [combined_df] of html_to_csv.py: a page is the text of the file and
    the rows BeautifulSoup finds in it. *)
Definition html_to_csv_combined_df
    (disk : string -> option (file (text * list RawRow)))
    : result (option (list EventRecord)) :=
  combined_df (λ p, HtmlToCsv.parse_calendar_html p.1 p.2) disk.

(** [combined_df] of extract_html_to_csv.py, before duplicates are
    dropped. *)
Definition extract_html_to_csv_combined_df
    (fromtimestamp : Z -> result datetime.t)
    (disk : string -> option (file text))
    : result (option (list EventRecord)) :=
  combined_df (ExtractHtmlToCsv.parse_calendar_html fromtimestamp) disk.

(** A page of one row with the text [label] in its time cell, after a
    day-breaker for the fifth of the month. *)
Definition sample_page (day label : string) : file (text * list RawRow) :=
  Contents ([], [sample_breaker day; sample_row label "Payrolls"]).

(** An event of the embedded data, as the page writes it. *)
Definition sample_event_json (id label : string) : text :=
  str "{" ++ ExtractHtmlToCsv.key "id" ++ str id ++ str ","
  ++ ExtractHtmlToCsv.skey "name" ++ str "Payrolls" ++ [dq] ++ str ","
  ++ ExtractHtmlToCsv.skey "currency" ++ str "USD" ++ [dq] ++ str ","
  ++ ExtractHtmlToCsv.skey "impactTitle" ++ str "High Impact Expected"
  ++ [dq] ++ str ","
  ++ ExtractHtmlToCsv.skey "timeLabel" ++ str label ++ [dq] ++ str ","
  ++ ExtractHtmlToCsv.skey "actual" ++ str "1.0" ++ [dq] ++ str ","
  ++ ExtractHtmlToCsv.skey "previous" ++ str "3.0" ++ [dq] ++ str ","
  ++ ExtractHtmlToCsv.skey "revision" ++ [dq] ++ str ","
  ++ ExtractHtmlToCsv.skey "forecast" ++ str "2.0" ++ [dq] ++ str "}".

(** A page with the embedded data of one day. *)
Definition sample_json_page (events : list text) : text :=
  str "<script>window.calendarComponentStates[1] = {days:[{"
  ++ ExtractHtmlToCsv.skey "date" ++ str "Jun 5" ++ [dq] ++ str ","
  ++ ExtractHtmlToCsv.key "dateline" ++ str "1749110400,"
  ++ ExtractHtmlToCsv.skey "add" ++ [dq] ++ str ","
  ++ ExtractHtmlToCsv.key "events" ++ str "["
  ++ concat events ++ str "]}]};</script>".

(** * Properties *)

Example time_re_5pm :
  rmatch time_re (str "5:00pm") = Some [str "5"; str "00"; str "pm"].
Proof. reflexivity. Qed.

Example time_re_1230am_tail :
  rmatch time_re (str "12:30am (est)") = Some [str "12"; str "30"; str "am"].
Proof. reflexivity. Qed.

Example time_re_allday : rmatch time_re (str "all day") = None.
Proof. reflexivity. Qed.

Example day_re_jun5 :
  search (day_re (str "Jun")) (str "Thu Jun  5") = Some [str "5"].
Proof. reflexivity. Qed.

Example day_re_jun15 :
  search (day_re (str "Jun")) (str "Sun Jun 15 2025") = Some [str "15"].
Proof. reflexivity. Qed.

(** An eleven-cell row after a day-breaker is read in Layout A, and its
    identifier is looked up in the impact map of the page. *)
Example new_day_row :
  HtmlToCsv.parse_calendar_html
    (str "window.calendarComponentStates[1] = {days:[{events:[{"
     ++ HtmlToCsv.id_key ++ str "140001,"
     ++ HtmlToCsv.impact_key ++ str "High Impact Expected" ++ [dq]
     ++ str "}]}]};")
    [sample_breaker "Thu Jun 5";
     {| row_class := [str "calendar__row"];
        get_text := str "Payrolls";
        find_all_td := [str "Thu Jun 5"; str " 12:30AM "; str "USD"; [];
                        str "Payrolls"; []; str "d"; str "1.0"; str "2.0";
                        str "3.0"; []];
        data_event_id := Some (str "140001") |}] 2025 6
  = Ok [{| DateTime := str "2025-06-05T00:30:00-08:00";
           Currency := str "USD";
           Impact := str "High Impact Expected";
           Event := str "Payrolls";
           Actual := str "1.0";
           Forecast := str "2.0";
           Previous := str "3.0";
           Detail := str "d" |}].
Proof. vm_compute. reflexivity. Qed.

(** The other two scripts on the same day: loc_scraper.py reads cells 0..5
    whatever the row looks like and writes a timestamp without offset;
    extract_html_to_csv.py stamps each event on its own base date. *)
Example loc_scraper_day :
  LocScraper.parse_calendar_month_from_html_debug
    [sample_breaker "Thu Jun 5"; sample_row "5:00pm" "Payrolls"] 2025 6
  = Ok [{| LocScraper.DateTime := str "2025-06-05T17:00:00";
           LocScraper.Currency := str "USD";
           LocScraper.Event := [];
           LocScraper.Actual := str "Payrolls";
           LocScraper.Forecast := [];
           LocScraper.Previous := [] |}].
Proof. vm_compute. reflexivity. Qed.

Example extract_events_day :
  let event label :=
    {| ExtractHtmlToCsv.dateline := 1749110400;
       ExtractHtmlToCsv.event_id := str "140001";
       ExtractHtmlToCsv.name := str "Payrolls";
       ExtractHtmlToCsv.currency := str "USD";
       ExtractHtmlToCsv.impact := str "High Impact Expected";
       ExtractHtmlToCsv.time_label := str label;
       ExtractHtmlToCsv.actual := str "1.0";
       ExtractHtmlToCsv.previous := str "3.0";
       ExtractHtmlToCsv.forecast := str "2.0" |} in
  DateTime <$>
    default [] (match ExtractHtmlToCsv.for_events (λ _, Ok june5)
                        [event "5:00pm"; event "n/a"; event "Tentative"] []
                with Ok l => Some l | Raise _ => None end)
  = [str "2025-06-05T17:00:00-08:00"; str "2025-06-05T00:00:00-08:00";
     str "2025-06-05T00:00:00-08:00"].
Proof. vm_compute. reflexivity. Qed.

(** ** Text and the time pattern *)

Lemma lower_char_digit c : is_digit c = true -> lower_char c = c.
Proof.
  unfold is_digit, lower_char. intros H.
  apply andb_prop in H as [H1 H2].
  apply Z.leb_le in H1, H2.
  destruct (_ || _) eqn:E; [|done].
  apply orb_prop in E as [E|E].
  - apply andb_prop in E as [E1 E2]. apply Z.leb_le in E1, E2. lia.
  - apply andb_prop in E as [E1 E2]. apply andb_prop in E1 as [E0 E1].
    apply Z.leb_le in E0. lia.
Qed.

Lemma lower_digits s : all_digits s -> lower s = s.
Proof.
  induction 1 as [|c s Hc _ IH]; [done|].
  unfold lower in *. cbn. by rewrite lower_char_digit, IH.
Qed.

Lemma lower_app a b : lower (a ++ b) = lower a ++ lower b.
Proof. apply map_app. Qed.

Lemma time_re_valid hd md p :
  all_digits hd -> (length hd = 1 \/ length hd = 2)%nat ->
  all_digits md -> length md = 2%nat ->
  rmatch time_re (hd ++ str ":" ++ md ++ suffix_text p)
  = Some [hd; md; suffix_text p].
Proof.
  intros Hhd Hlen Hmd Hlm.
  destruct md as [|m1 [|m2 [|]]]; try discriminate.
  apply Forall_cons in Hmd as [Hm1 Hmd]. apply Forall_cons in Hmd as [Hm2 _].
  destruct hd as [|d1 [|d2 [|]]]; cbn in Hlen; try lia.
  - apply Forall_cons in Hhd as [Hd1 _].
    destruct p; unfold rmatch; cbn; rewrite Hd1; cbn; rewrite Hm1; cbn;
      rewrite Hm2; cbn; reflexivity.
  - apply Forall_cons in Hhd as [Hd1 Hhd]. apply Forall_cons in Hhd as [Hd2 _].
    destruct p; unfold rmatch; cbn; rewrite Hd1; cbn; rewrite Hd2; cbn;
      rewrite Hm1; cbn; rewrite Hm2; cbn; reflexivity.
Qed.

Lemma to_24h_hour24 h p : 1 <= h <= 12 -> to_24h h (suffix_text p) = hour24 h p.
Proof.
  intros Hh. unfold to_24h, hour24, text_eqb.
  destruct p; cbn [suffix_text]; repeat case_bool_decide;
    try discriminate; try congruence;
    cbn [andb]; destruct (Z.ltb_spec h 12), (Z.eqb_spec h 12);
    try lia; reflexivity.
Qed.

Lemma hour24_range h p : 1 <= h <= 12 -> 0 <= hour24 h p <= 23.
Proof. intros Hh. unfold hour24. destruct p, (Z.eqb_spec h 12); lia. Qed.

Lemma replace_ok d hh mm :
  0 <= hh <= 23 -> 0 <= mm <= 59 ->
  datetime.replace d hh mm 0 = Ok (datetime.with_time d hh mm 0).
Proof.
  intros Hh Hm. unfold datetime.replace.
  destruct (Z.leb_spec 0 hh), (Z.leb_spec hh 23), (Z.leb_spec 0 mm),
    (Z.leb_spec mm 59); try lia. reflexivity.
Qed.

(** A time label parses to the hour of the table and its minute. *)
Lemma parsed_time_label label h m p :
  is_time_label label h m p -> 1 <= h <= 12 ->
  parsed_time label = Some (hour24 h p, m).
Proof.
  intros (hd & md & sfx & -> & Hhd & Hlen & <- & Hmd & Hlm & <- & Hsfx) Hh.
  unfold parsed_time.
  rewrite !lower_app, (lower_digits hd), (lower_digits md), Hsfx by done.
  change (lower (str ":")) with (str ":").
  rewrite time_re_valid by done. cbn [time_groups].
  by rewrite to_24h_hour24.
Qed.

Lemma time_label_head label h m p :
  is_time_label label h m p -> ∃ c rest, label = c :: rest ∧ is_digit c = true.
Proof.
  intros (hd & md & sfx & -> & Hhd & Hlen & _).
  destruct hd as [|c hd]; [cbn in Hlen; lia|].
  apply Forall_cons in Hhd as [Hc _]. by exists c, (hd ++ str ":" ++ md ++ sfx).
Qed.

Lemma clock_parsed d lct label t :
  parsed_time label = Some t ->
  HtmlToCsv.clock d lct label
  = (event_dt ← datetime.replace d t.1 t.2 0; Ok (event_dt, t)).
Proof.
  unfold parsed_time, HtmlToCsv.clock. intros H.
  destruct (time_groups _) as [[[hh mm] ampm]|] eqn:E; [|done].
  injection H as <-. cbn [fst snd].
  destruct (negb (text_eqb label []) && _) eqn:Hc; [done|].
  exfalso. apply andb_false_iff in Hc as [Hc|Hc].
  - apply negb_false_iff, bool_decide_eq_true in Hc. subst label. discriminate E.
  - apply negb_false_iff, bool_decide_eq_true in Hc.
    rewrite !elem_of_cons, elem_of_nil in Hc.
    destruct Hc as [-> | [-> | []]]; discriminate E.
Qed.

(** ** One iteration of the loop of html_to_csv.py *)

Section Body.
Context (impact_map : gmap text text) (year month : Z) (month_str : text).

Local Abbreviation body := (HtmlToCsv.body impact_map year month month_str).

Lemma body_data_row st row d f dt t :
  HtmlToCsv.is_day_breaker row = false ->
  HtmlToCsv.current_day st = Some d ->
  HtmlToCsv.read_cells impact_map row = Ok (Some f) ->
  HtmlToCsv.clock d (HtmlToCsv.last_clock_time st) (HtmlToCsv.time_text f)
  = Ok (dt, t) ->
  body st row
  = Ok ({| HtmlToCsv.current_day := Some d;
           HtmlToCsv.last_clock_time := Some t |},
        Some (HtmlToCsv.record_of (datetime.replace_tzinfo dt pst) f)).
Proof.
  unfold HtmlToCsv.body, HtmlToCsv.is_day_breaker.
  intros -> Hd -> Hc. rewrite Hd. cbn. rewrite Hc. reflexivity.
Qed.

Lemma body_day_breaker st row :
  HtmlToCsv.is_day_breaker row = true ->
  body st row
  = Ok (HtmlToCsv.day_breaker year month month_str st row, None).
Proof.
  unfold HtmlToCsv.body, HtmlToCsv.is_day_breaker. by intros ->.
Qed.

(** What a row that appends a record went through. *)
Lemma body_emit_inv st row st' rec :
  body st row = Ok (st', Some rec) ->
  HtmlToCsv.is_day_breaker row = false
  ∧ ∃ d f dt t,
      HtmlToCsv.current_day st = Some d
      ∧ HtmlToCsv.read_cells impact_map row = Ok (Some f)
      ∧ HtmlToCsv.clock d (HtmlToCsv.last_clock_time st)
                        (HtmlToCsv.time_text f) = Ok (dt, t)
      ∧ st' = {| HtmlToCsv.current_day := Some d;
                 HtmlToCsv.last_clock_time := Some t |}
      ∧ rec = HtmlToCsv.record_of (datetime.replace_tzinfo dt pst) f.
Proof.
  unfold HtmlToCsv.body, HtmlToCsv.is_day_breaker.
  destruct (mem _ _); [discriminate|]. intros H. split; [done|].
  destruct (HtmlToCsv.current_day st) as [d|] eqn:Hd; [|discriminate].
  destruct (HtmlToCsv.read_cells impact_map row) as [[f|]|]; try discriminate.
  cbn in H.
  destruct (HtmlToCsv.clock d _ _) as [[dt t]|] eqn:Hc; cbn in H;
    [|discriminate].
  injection H as <- <-. by exists d, f, dt, t.
Qed.
End Body.

(** ** Time labels *)

(** C1. A label [H:MM] followed by am or pm in any case, with hour 1..12
    and minute 0..59, is converted by the table 12am->0, 1am->1, ...,
    11am->11, 12pm->12, 1pm->13, ..., 11pm->23 with the minute kept:
    in html_to_csv.py that time is the time of day of the row's record
    and the new [last_clock_time], in extract_html_to_csv.py it is the
    time of day [parse_time_label] returns. The table is one-to-one on
    the valid labels and reaches every hour 0..23. *)
Theorem time_label_conversion
    impact_map year month month_str st row d f label h m p :
  is_time_label label h m p ->
  1 <= h <= 12 ->
  0 <= m <= 59 ->
  HtmlToCsv.is_day_breaker row = false ->
  HtmlToCsv.current_day st = Some d ->
  HtmlToCsv.read_cells impact_map row = Ok (Some f) ->
  HtmlToCsv.time_text f = label ->
  HtmlToCsv.body impact_map year month month_str st row
  = Ok ({| HtmlToCsv.current_day := Some d;
           HtmlToCsv.last_clock_time := Some (hour24 h p, m) |},
        Some (HtmlToCsv.record_of
                (datetime.replace_tzinfo
                   (datetime.with_time d (hour24 h p) m 0) pst) f))
  ∧ (∀ base,
       ExtractHtmlToCsv.parse_time_label label base
       = Ok (datetime.replace_tzinfo
               (datetime.with_time base (hour24 h p) m 0) pst))
  ∧ (∀ h' p', 1 <= h' <= 12 -> hour24 h' p' = hour24 h p -> h' = h ∧ p' = p)
  ∧ (∀ H, 0 <= H <= 23 -> ∃ h' p', 1 <= h' <= 12 ∧ hour24 h' p' = H).
Proof.
  intros Hlabel Hh Hm Hrow Hd Hf Ht.
  pose proof (parsed_time_label _ _ _ _ Hlabel Hh) as Hp.
  pose proof (hour24_range h p Hh) as HH.
  repeat split.
  - apply body_data_row; try done.
    rewrite Ht, (clock_parsed _ _ _ _ Hp). cbn [fst snd].
    by rewrite replace_ok.
  - intros base. unfold ExtractHtmlToCsv.parse_time_label.
    destruct (time_label_head _ _ _ _ Hlabel) as (c & rest & Hl & Hc).
    unfold parsed_time in Hp.
    destruct (time_groups _) as [[[hh mm] ampm]|] eqn:E; [|done].
    injection Hp as Hp1 Hp2.
    destruct (_ || _) eqn:Hs.
    + exfalso. apply orb_prop in Hs as [Hs|Hs];
        apply bool_decide_eq_true in Hs.
      * by rewrite Hs in Hl.
      * rewrite !elem_of_cons, elem_of_nil in Hs.
        destruct Hs as [Hs|[Hs|[Hs|[Hs|[Hs|[]]]]]]; rewrite Hs in E;
          discriminate E.
    + rewrite Hp1, Hp2, replace_ok by done. reflexivity.
  - unfold hour24 in *. destruct p, p', (Z.eqb_spec h 12), (Z.eqb_spec h' 12);
      lia.
  - unfold hour24 in *. destruct p, p', (Z.eqb_spec h 12), (Z.eqb_spec h' 12);
      try lia; reflexivity.
  - intros H0 HH0.
    destruct (Z.eq_dec H0 0) as [->|]; [by exists 12, AM|].
    destruct (Z.eq_dec H0 12) as [->|]; [by exists 12, PM|].
    destruct (Z_lt_le_dec H0 12).
    + exists H0, AM. split; [lia|]. unfold hour24.
      destruct (Z.eqb_spec H0 12); [lia|done].
    + exists (H0 - 12), PM. split; [lia|]. unfold hour24.
      destruct (Z.eqb_spec (H0 - 12) 12); lia.
Qed.

Lemma is_time_label_5pm : is_time_label (str "5:00pm") 5 0 PM.
Proof.
  exists (str "5"), (str "00"), (str "pm").
  repeat split; try reflexivity; try (by left); repeat constructor.
Qed.

Lemma time_label_conversion_witness :
  HtmlToCsv.body ∅ 2025 6 (str "Jun") (on_june5 None)
                 (sample_row "5:00pm" "Payrolls")
  = Ok (on_june5 (Some (17, 0)),
        Some (sample_record "2025-06-05T17:00:00-08:00" "Payrolls")).
Proof.
  destruct (time_label_conversion ∅ 2025 6 (str "Jun") (on_june5 None)
              (sample_row "5:00pm" "Payrolls") june5
              (sample_fields "5:00pm" "Payrolls") (str "5:00pm") 5 0 PM)
    as [H _].
  - exact is_time_label_5pm.
  - lia.
  - lia.
  - reflexivity.
  - reflexivity.
  - vm_compute. reflexivity.
  - reflexivity.
  - rewrite H. vm_compute. reflexivity.
Defined.

(** ** The clock of a row *)

Lemma replace_inv d hh mm ss dt :
  datetime.replace d hh mm ss = Ok dt ->
  dt = datetime.with_time d hh mm ss
  ∧ 0 <= hh <= 23 ∧ 0 <= mm <= 59 ∧ 0 <= ss <= 59.
Proof.
  unfold datetime.replace.
  destruct (Z.leb_spec 0 hh), (Z.leb_spec hh 23), (Z.leb_spec 0 mm),
    (Z.leb_spec mm 59), (Z.leb_spec 0 ss), (Z.leb_spec ss 59);
    cbn; intros Hdt; try discriminate Hdt.
  injection Hdt as <-. repeat split; lia.
Qed.

Lemma parsed_time_untimed label :
  label ∈ untimed_labels -> parsed_time label = None.
Proof.
  unfold untimed_labels. rewrite !elem_of_cons, elem_of_nil.
  intros [->|[->|[->|[->|[->|[->|[]]]]]]]; reflexivity.
Qed.

(** [clock] in one line: the time the label sets, or else the time carried
    so far, or else midnight. *)
Lemma clock_cases d lct label :
  HtmlToCsv.clock d lct label
  = (let t := default (default (0, 0) lct) (clock_time label) in
     event_dt ← datetime.replace d t.1 t.2 0; Ok (event_dt, t)).
Proof.
  unfold HtmlToCsv.clock, clock_time.
  destruct (negb (text_eqb label []) && _) eqn:Hc.
  - apply andb_prop in Hc as [_ Hc].
    apply negb_true_iff, bool_decide_eq_false in Hc.
    assert (text_eqb label (str "All Day") = false) as ->.
    { apply bool_decide_eq_false_2. intros ->. apply Hc. set_solver. }
    unfold parsed_time.
    destruct (time_groups _) as [[[hh mm] ampm]|]; cbn; [done|].
    by destruct (default (0, 0) lct).
  - assert (label ∈ untimed_labels) as Hu.
    { unfold untimed_labels.
      apply andb_false_iff in Hc as [Hc|Hc];
        apply negb_false_iff, bool_decide_eq_true in Hc.
      - subst label. apply list_elem_of_here.
      - apply elem_of_cons in Hc as [->|Hc].
        + do 1 apply list_elem_of_further. apply list_elem_of_here.
        + apply list_elem_of_singleton in Hc as ->.
          do 2 apply list_elem_of_further. apply list_elem_of_here. }
    rewrite (parsed_time_untimed _ Hu).
    destruct (text_eqb label (str "All Day")); cbn; [done|].
    by destruct (default (0, 0) lct).
Qed.

Lemma clock_inv d lct label dt t :
  HtmlToCsv.clock d lct label = Ok (dt, t) ->
  dt = datetime.with_time d t.1 t.2 0 ∧ 0 <= t.1 <= 23 ∧ 0 <= t.2 <= 59.
Proof.
  rewrite clock_cases. cbn zeta.
  destruct (datetime.replace d _ _ 0) as [dt'|] eqn:Hr; cbn; [|discriminate].
  intros H. injection H as <- <-.
  apply replace_inv in Hr. tauto.
Qed.

Lemma isoformat_pst dt :
  datetime.isoformat (datetime.replace_tzinfo dt pst)
  = datetime.isoformat
      (datetime.mk (datetime.year dt) (datetime.month dt) (datetime.day dt)
         (datetime.hour dt) (datetime.minute dt) (datetime.second dt) None)
    ++ str "-08:00".
Proof.
  unfold datetime.isoformat. cbn [datetime.replace_tzinfo datetime.year
    datetime.month datetime.day datetime.hour datetime.minute
    datetime.second datetime.tzinfo].
  change (datetime.format_offset (Some pst)) with (str "-08:00").
  change (datetime.format_offset None) with (@nil ascii).
  by rewrite app_nil_r, <- !app_assoc.
Qed.

(** ** Layouts *)

Lemma has_date_col_layout row :
  HtmlToCsv.has_date_col row = true <-> layout_of row = LayoutA.
Proof.
  unfold HtmlToCsv.has_date_col, layout_of, mem.
  rewrite orb_true_iff, !bool_decide_eq_true.
  destruct (decide _) as [H|H]; split; intros; try done.
Qed.

Lemma read_cells_inv impact_map row f :
  HtmlToCsv.read_cells impact_map row = Ok (Some f) ->
  (5 <= length (find_all_td row))%nat
  ∧ HtmlToCsv.event_text f <> []
  ∧ HtmlToCsv.impact f
    = default (str "Low Impact Expected")
              (impact_map !! default [] (data_event_id row))
  ∧ field row ColTime = Some (HtmlToCsv.time_text f)
  ∧ field row ColCurrency = Some (HtmlToCsv.currency_text f)
  ∧ field row ColEvent = Some (HtmlToCsv.event_text f)
  ∧ field row ColDetail = Some (HtmlToCsv.detail_text f)
  ∧ field row ColActual = Some (HtmlToCsv.actual_text f)
  ∧ field row ColForecast = Some (HtmlToCsv.forecast_text f)
  ∧ field row ColPrevious = Some (HtmlToCsv.previous_text f).
Proof.
  unfold HtmlToCsv.read_cells, field.
  case_bool_decide as Hlen; [discriminate|].
  pose proof (has_date_col_layout row) as Hl.
  destruct (HtmlToCsv.has_date_col row);
    [rewrite (proj1 Hl eq_refl)
    |destruct (layout_of row); [discriminate (proj2 Hl eq_refl)|]];
    unfold HtmlToCsv.read_at, item; cbn [offset];
    repeat (match goal with
            | |- context [find_all_td row !! ?i] =>
                destruct (find_all_td row !! i); cbn; [|discriminate]
            end);
    case_bool_decide as He; intros H; try discriminate H;
    injection H as <-; cbn in He |- *; repeat split; try done; lia.
Qed.

(** ** Labels without a clock time *)

Lemma clock_time_untimed label :
  label ∈ untimed_labels -> label <> str "All Day" -> clock_time label = None.
Proof.
  intros Hu Hne. unfold clock_time, text_eqb.
  rewrite bool_decide_eq_false_2 by done. by apply parsed_time_untimed.
Qed.

Lemma parse_time_label_untimed label base :
  label ∈ untimed_labels ->
  ExtractHtmlToCsv.parse_time_label label base
  = Ok (datetime.replace_tzinfo (datetime.with_time base 0 0 0) pst).
Proof.
  unfold untimed_labels. rewrite !elem_of_cons, elem_of_nil.
  intros [->|[->|[->|[->|[->|[->|[]]]]]]]; reflexivity.
Qed.

(** C3, as the code has it. In extract_html_to_csv.py every label that is
    empty or one of All Day, Tentative, Day 1, Day 2, Day 3 gives the
    time of day 00:00:00 (that script carries no time from row to row).
    In html_to_csv.py the label All Day gives 00:00:00 and sets
    [last_clock_time] to (0,0); an empty, Tentative or Day-N label gives
    the time carried so far, (0,0) when none is, and leaves the carried
    value as it was. *)
Theorem untimed_label_time
    impact_map year month month_str st row d f hh mm :
  HtmlToCsv.is_day_breaker row = false ->
  HtmlToCsv.current_day st = Some d ->
  HtmlToCsv.read_cells impact_map row = Ok (Some f) ->
  HtmlToCsv.time_text f ∈ untimed_labels ->
  default (0, 0) (HtmlToCsv.last_clock_time st) = (hh, mm) ->
  0 <= hh <= 23 ->
  0 <= mm <= 59 ->
  (∀ base,
     ExtractHtmlToCsv.parse_time_label (HtmlToCsv.time_text f) base
     = Ok (datetime.replace_tzinfo (datetime.with_time base 0 0 0) pst))
  ∧ (HtmlToCsv.time_text f = str "All Day" ->
     HtmlToCsv.body impact_map year month month_str st row
     = Ok ({| HtmlToCsv.current_day := Some d;
              HtmlToCsv.last_clock_time := Some (0, 0) |},
           Some (HtmlToCsv.record_of
                   (datetime.replace_tzinfo
                      (datetime.with_time d 0 0 0) pst) f)))
  ∧ (HtmlToCsv.time_text f <> str "All Day" ->
     HtmlToCsv.body impact_map year month month_str st row
     = Ok ({| HtmlToCsv.current_day := Some d;
              HtmlToCsv.last_clock_time := Some (hh, mm) |},
           Some (HtmlToCsv.record_of
                   (datetime.replace_tzinfo
                      (datetime.with_time d hh mm 0) pst) f))).
Proof.
  intros Hrow Hd Hf Hu Hlct Hh Hm. split; [|split].
  - intros base. by apply parse_time_label_untimed.
  - intros Hall. apply body_data_row; try done.
    rewrite clock_cases, Hall. reflexivity.
  - intros Hne. apply body_data_row; try done.
    rewrite clock_cases, clock_time_untimed, Hlct by done.
    cbn. by rewrite replace_ok.
Qed.

Lemma untimed_label_time_witness :
  HtmlToCsv.body ∅ 2025 6 (str "Jun") (on_june5 (Some (17, 0)))
                 (sample_row "Tentative" "Speech")
  = Ok (on_june5 (Some (17, 0)),
        Some (sample_record "2025-06-05T17:00:00-08:00" "Speech")).
Proof.
  destruct (untimed_label_time ∅ 2025 6 (str "Jun") (on_june5 (Some (17, 0)))
              (sample_row "Tentative" "Speech") june5
              (sample_fields "Tentative" "Speech") 17 0)
    as (_ & _ & H).
  - reflexivity.
  - reflexivity.
  - vm_compute. reflexivity.
  - vm_compute. do 2 apply list_elem_of_further. apply list_elem_of_here.
  - reflexivity.
  - lia.
  - lia.
  - rewrite H by discriminate. vm_compute. reflexivity.
Defined.

(** C3, as it is worded, fails in html_to_csv.py: after a row at 5:00pm a
    Tentative row of the same day is stamped 17:00:00, not 00:00:00. *)
Lemma tentative_row_counterexample :
  str "Tentative" ∈ untimed_labels
  ∧ HtmlToCsv.parse_calendar_html []
      [sample_breaker "Thu Jun 5"; sample_row "5:00pm" "Payrolls";
       sample_row "Tentative" "Speech"] 2025 6
    = Ok [sample_record "2025-06-05T17:00:00-08:00" "Payrolls";
          sample_record "2025-06-05T17:00:00-08:00" "Speech"].
Proof.
  split.
  - do 2 apply list_elem_of_further. apply list_elem_of_here.
  - vm_compute. reflexivity.
Qed.

(** ** Layout and timestamp of an appended record *)

(** In html_to_csv.py the layout of a data row is A when the row has 11
    cells or the new-day tag and B otherwise, and every field of its
    record is the trimmed cell at the offset of that layout. The time
    cell is the label the clock of the row is computed from. *)
Lemma body_fields_by_layout
    impact_map year month month_str st row st' rec :
  HtmlToCsv.body impact_map year month month_str st row = Ok (st', Some rec) ->
  (HtmlToCsv.has_date_col row = true <-> layout_of row = LayoutA)
  ∧ field row ColCurrency = Some (Currency rec)
  ∧ field row ColEvent = Some (Event rec)
  ∧ field row ColDetail = Some (Detail rec)
  ∧ field row ColActual = Some (Actual rec)
  ∧ field row ColForecast = Some (Forecast rec)
  ∧ field row ColPrevious = Some (Previous rec)
  ∧ ∃ d label dt t,
      HtmlToCsv.current_day st = Some d
      ∧ field row ColTime = Some label
      ∧ HtmlToCsv.clock d (HtmlToCsv.last_clock_time st) label = Ok (dt, t)
      ∧ DateTime rec = datetime.isoformat (datetime.replace_tzinfo dt pst).
Proof.
  intros H.
  apply body_emit_inv in H as (_ & d & f & dt & t & Hd & Hf & Hc & -> & ->).
  apply read_cells_inv in Hf
    as (_ & _ & _ & Ht & Hcur & Hev & Hdet & Hact & Hfor & Hprev).
  split; [apply has_date_col_layout|].
  repeat (split; [done|]).
  by exists d, (HtmlToCsv.time_text f), dt, t.
Qed.

(** C5, as it is worded, fails in loc_scraper.py: a ten-cell row is in
    Layout B, with its event in cell 3 and its actual in cell 6, yet the
    row loc_scraper.py appends takes its event from cell 2 and its actual
    from cell 3. *)
Lemma loc_scraper_offsets_counterexample :
  layout_of (sample_row "5:00pm" "Payrolls") = LayoutB
  ∧ field (sample_row "5:00pm" "Payrolls") ColEvent = Some (str "Payrolls")
  ∧ field (sample_row "5:00pm" "Payrolls") ColActual = Some (str "1.0")
  ∧ ∃ r,
      LocScraper.parse_calendar_month_from_html_debug
        [sample_breaker "Thu Jun 5"; sample_row "5:00pm" "Payrolls"] 2025 6
      = Ok [r]
      ∧ Some (LocScraper.Event r)
        <> field (sample_row "5:00pm" "Payrolls") ColEvent
      ∧ Some (LocScraper.Actual r)
        <> field (sample_row "5:00pm" "Payrolls") ColActual.
Proof.
  split_and!; [vm_compute; reflexivity..|].
  eexists. split_and!;
    [vm_compute; reflexivity
    |intros H; vm_compute in H; discriminate H..].
Qed.

(** In html_to_csv.py the timestamp of every appended record is the date
    of [current_day] with the time of day the clock of the row resolved
    (which is also the new [last_clock_time]), at the fixed offset of
    -480 minutes whatever the date, and its text is the ISO-8601 text of
    that date and time followed by -08:00. *)
Lemma body_timestamp_at_utc_minus_8
    impact_map year month month_str st row st' rec :
  HtmlToCsv.body impact_map year month month_str st row = Ok (st', Some rec) ->
  ∃ d hh mm,
    HtmlToCsv.current_day st = Some d
    ∧ HtmlToCsv.last_clock_time st' = Some (hh, mm)
    ∧ 0 <= hh <= 23 ∧ 0 <= mm <= 59
    ∧ DateTime rec
      = datetime.isoformat
          (datetime.mk (datetime.year d) (datetime.month d) (datetime.day d)
                       hh mm 0 (Some (-480)))
    ∧ DateTime rec
      = datetime.isoformat
          (datetime.mk (datetime.year d) (datetime.month d) (datetime.day d)
                       hh mm 0 None)
        ++ str "-08:00".
Proof.
  intros H.
  apply body_emit_inv in H as (_ & d & f & dt & [hh mm] & Hd & _ & Hc & -> & ->).
  apply clock_inv in Hc as (-> & Hh & Hm). cbn [fst snd] in *.
  exists d, hh, mm. split_and!; try done; try lia.
Qed.

(** [parse_time_label] of extract_html_to_csv.py attaches the same offset
    to its base date. *)
Lemma parse_time_label_at_utc_minus_8 label base dt :
  ExtractHtmlToCsv.parse_time_label label base = Ok dt ->
  ∃ hh mm,
    dt = datetime.mk (datetime.year base) (datetime.month base)
           (datetime.day base) hh mm 0 (Some (-480))
    ∧ datetime.isoformat dt
      = datetime.isoformat
          (datetime.mk (datetime.year base) (datetime.month base)
             (datetime.day base) hh mm 0 None)
        ++ str "-08:00".
Proof.
  intros Hp.
  assert (∃ hh mm, datetime.replace base hh mm 0 ≫= (λ dt,
            Ok (datetime.replace_tzinfo dt pst)) = Ok dt) as (hh & mm & Hr).
  { unfold ExtractHtmlToCsv.parse_time_label in Hp.
    destruct (_ || _); [by exists 0, 0|].
    destruct (time_groups _) as [[[hh mm] ampm]|]; [|by exists 0, 0].
    by exists (to_24h hh ampm), mm. }
  destruct (datetime.replace base hh mm 0) as [dt'|] eqn:Hr';
    cbn in Hr; [|discriminate].
  injection Hr as <-. apply replace_inv in Hr' as (-> & _).
  exists hh, mm. split; [reflexivity|]. by rewrite isoformat_pst.
Qed.

(** C6, as it is worded, fails in loc_scraper.py: the timestamp of the
    row it appends carries no offset and does not end in -08:00. *)
Lemma loc_scraper_timestamp_counterexample :
  ∃ r,
    LocScraper.parse_calendar_month_from_html_debug
      [sample_breaker "Thu Jun 5"; sample_row "5:00pm" "Payrolls"] 2025 6
    = Ok [r]
    ∧ LocScraper.DateTime r = str "2025-06-05T17:00:00"
    ∧ ¬ (str "-08:00" `suffix_of` LocScraper.DateTime r).
Proof.
  eexists. split_and!; [vm_compute; reflexivity..|].
  intros [k Hk]. apply (f_equal (@rev ascii)) in Hk.
  rewrite rev_app_distr in Hk. vm_compute in Hk. discriminate Hk.
Qed.

(** ** The step relation and the loop body agree *)

Section Steps.
Context (impact_map : gmap text text) (year month : Z) (month_str : text).

Local Abbreviation body := (HtmlToCsv.body impact_map year month month_str).
Local Abbreviation step := (HtmlToCsv.step impact_map year month month_str).
Local Abbreviation run := (HtmlToCsv.run impact_map year month month_str).
Local Abbreviation for_rows :=
  (HtmlToCsv.for_rows impact_map year month month_str).

Lemma body_step st row : step st row (HtmlToCsv.outcome_of (body st row)).
Proof.
  unfold HtmlToCsv.body.
  destruct (mem _ (row_class row)) eqn:Hb.
  - unfold HtmlToCsv.day_breaker. cbn.
    destruct (search _ _) as [[|g gs]|] eqn:Hs.
    + apply HtmlToCsv.step_day_ignored; [done|].
      unfold HtmlToCsv.day_match. by rewrite Hs.
    + destruct (datetime.new year month (int g)) as [d|e] eqn:Hn.
      * by eapply HtmlToCsv.step_day_set.
      * by eapply HtmlToCsv.step_day_clear.
    + apply HtmlToCsv.step_day_ignored; [done|].
      unfold HtmlToCsv.day_match. by rewrite Hs.
  - destruct (HtmlToCsv.current_day st) as [d|] eqn:Hd.
    + destruct (HtmlToCsv.read_cells impact_map row) as [[f|]|e] eqn:Hf.
      * destruct (HtmlToCsv.clock d (HtmlToCsv.last_clock_time st)
                    (HtmlToCsv.time_text f)) as [[dt t]|e] eqn:Hc; cbn.
        -- by eapply HtmlToCsv.step_event.
        -- by eapply HtmlToCsv.step_raise.
      * by eapply HtmlToCsv.step_blank.
      * by eapply HtmlToCsv.step_bad_cells.
    + by apply HtmlToCsv.step_no_day.
Qed.

Lemma step_deterministic st row o1 o2 :
  step st row o1 -> step st row o2 -> o1 = o2.
Proof.
  intros H1 H2.
  destruct H1; destruct H2; try congruence;
    repeat match goal with
           | H : ∀ g gs, _ <> Some (g :: gs), E : _ = Some (_ :: _) |- _ =>
               destruct (H _ _ E)
           end.
  all: repeat match goal with
         | E1 : ?x = _, E2 : ?x = _ |- _ =>
             rewrite E1 in E2; (discriminate E2 || (injection E2 as ?; subst))
         end; try congruence.
Qed.

Lemma step_body st row o : step st row o <-> o = HtmlToCsv.outcome_of (body st row).
Proof.
  split.
  - intros H. exact (step_deterministic _ _ _ _ H (body_step st row)).
  - intros ->. apply body_step.
Qed.

Lemma for_rows_acc rows st acc :
  for_rows rows st acc
  = ('(st', recs) ← for_rows rows st []; Ok (st', acc ++ recs)).
Proof.
  revert st acc. induction rows as [|row rows IH]; intros st acc; cbn.
  - by rewrite app_nil_r.
  - destruct (body st row) as [[st1 out]|e]; cbn; [|done].
    rewrite IH. rewrite (IH st1 (option_list out)).
    destruct (for_rows rows st1 []) as [[st2 recs]|e]; cbn; [|done].
    by rewrite app_assoc.
Qed.

Lemma for_rows_app rows1 rows2 st acc :
  for_rows (rows1 ++ rows2) st acc
  = ('(st', acc') ← for_rows rows1 st acc; for_rows rows2 st' acc').
Proof.
  revert st acc. induction rows1 as [|row rows1 IH]; intros st acc; cbn.
  - done.
  - destruct (body st row) as [[st1 out]|e]; cbn; [|done]. apply IH.
Qed.

Lemma for_rows_run rows st :
  run st rows ('(_, recs) ← for_rows rows st []; Ok recs).
Proof.
  revert st. induction rows as [|row rows IH]; intros st; cbn.
  - constructor.
  - pose proof (body_step st row) as Hs.
    destruct (body st row) as [[st1 out]|e]; cbn in *.
    + rewrite for_rows_acc. specialize (IH st1).
      destruct (for_rows rows st1 []) as [[st2 recs]|e]; cbn in *.
      * by eapply HtmlToCsv.run_next.
      * by eapply HtmlToCsv.run_abort_later.
    + by apply HtmlToCsv.run_abort.
Qed.

Lemma run_deterministic st rows r1 r2 :
  run st rows r1 -> run st rows r2 -> r1 = r2.
Proof.
  intros H1. revert r2.
  induction H1 as [st|st row rows st' out recs Hs _ IH
                  |st row rows st' out e Hs _ IH|st row rows e Hs];
    intros r2 H2; inversion H2; subst; try done;
    match goal with
    | Hs' : HtmlToCsv.step _ _ _ _ st row _ |- _ =>
        pose proof (step_deterministic _ _ _ _ Hs Hs') as E;
        try discriminate E; injection E as ?; subst
    end;
    try match goal with
    | Hr : HtmlToCsv.run _ _ _ _ _ _ _ |- _ =>
        apply IH in Hr; try discriminate Hr; try (injection Hr as ?; subst)
    end; done.
Qed.
End Steps.

Lemma parse_calendar_html_parses html_content rows year month :
  HtmlToCsv.parses html_content rows year month
    (HtmlToCsv.parse_calendar_html html_content rows year month).
Proof.
  unfold HtmlToCsv.parse_calendar_html.
  destruct (datetime.new year month 1) as [first|e] eqn:Hn; cbn.
  - eapply HtmlToCsv.parses_rows; [done|].
    pose proof (for_rows_run (HtmlToCsv.extract_json_data html_content)
                  year month (datetime.strftime_b first) rows HtmlToCsv.fresh)
      as Hr.
    by destruct (HtmlToCsv.for_rows _ _ _ _ rows HtmlToCsv.fresh [])
      as [[st recs]|e].
  - by apply HtmlToCsv.parses_bad_month.
Qed.

(** The rules of the step relation exclude one another: a document has
    one run. *)
Lemma parses_deterministic html_content rows year month r1 r2 :
  HtmlToCsv.parses html_content rows year month r1 ->
  HtmlToCsv.parses html_content rows year month r2 ->
  r1 = r2.
Proof.
  intros H1 H2. destruct H1 as [first1 r1 Hn1 Hr1|e1 Hn1];
    destruct H2 as [first2 r2 Hn2 Hr2|e2 Hn2]; try congruence.
  rewrite Hn1 in Hn2. injection Hn2 as <-.
  exact (run_deterministic _ _ _ _ _ _ _ _ Hr1 Hr2).
Qed.

Lemma sample_day_parse :
  HtmlToCsv.parse_calendar_html []
    [sample_breaker "Thu Jun 5"; sample_row "5:00pm" "Payrolls";
     sample_row " " "Speech"] 2025 6
  = Ok [sample_record "2025-06-05T17:00:00-08:00" "Payrolls";
        sample_record "2025-06-05T17:00:00-08:00" "Speech"].
Proof. vm_compute. reflexivity. Qed.

(** ** Skipped rows and the day anchor *)

Section Skips.
Context (impact_map : gmap text text) (year month : Z) (month_str : text).

Local Abbreviation body := (HtmlToCsv.body impact_map year month month_str).
Local Abbreviation for_rows :=
  (HtmlToCsv.for_rows impact_map year month month_str).

Lemma body_skips st row :
  HtmlToCsv.current_day st = None
  ∨ (length (find_all_td row) < 5)%nat
  ∨ field row ColEvent = Some [] ->
  ∃ st', body st row = Ok (st', None).
Proof.
  intros H. unfold HtmlToCsv.body.
  destruct (mem _ _); [by eexists|].
  destruct (HtmlToCsv.current_day st) as [d|] eqn:Hd; [|by eexists].
  destruct (HtmlToCsv.read_cells impact_map row) as [[f|]|e] eqn:Hf;
    [|by eexists..].
  exfalso. destruct H as [H|[H|H]]; [done|..].
  - apply read_cells_inv in Hf as (Hlen & _). lia.
  - apply read_cells_inv in Hf as (_ & Hne & _ & _ & _ & Hev & _).
    rewrite H in Hev. congruence.
Qed.

Lemma body_bad_day st row :
  HtmlToCsv.bad_day year month month_str row = true ->
  ∃ st', body st row = Ok (st', None) ∧ HtmlToCsv.current_day st' = None.
Proof.
  unfold HtmlToCsv.bad_day. intros [Hb H]%andb_prop.
  rewrite body_day_breaker by done. eexists. split; [done|].
  unfold HtmlToCsv.day_breaker, HtmlToCsv.day_match in *.
  destruct (search _ _) as [[|g gs]|]; try discriminate.
  by destruct (datetime.new year month (int g)).
Qed.

(** A day-breaker row in which the pattern finds no day number changes
    nothing: the rows after it stay on the day before it. *)
Lemma body_day_without_number st row :
  HtmlToCsv.is_day_breaker row = true ->
  HtmlToCsv.day_match month_str row = None ->
  body st row = Ok (st, None).
Proof.
  intros Hb Hm. rewrite body_day_breaker by done.
  unfold HtmlToCsv.day_breaker. unfold HtmlToCsv.day_match in Hm.
  by rewrite Hm.
Qed.

Lemma body_no_day st row :
  HtmlToCsv.current_day st = None ->
  HtmlToCsv.opens_day year month month_str row = false ->
  ∃ st', body st row = Ok (st', None) ∧ HtmlToCsv.current_day st' = None.
Proof.
  intros Hd Ho. unfold HtmlToCsv.opens_day in Ho.
  destruct (HtmlToCsv.is_day_breaker row) eqn:Hb.
  - rewrite body_day_breaker by done. eexists. split; [done|].
    unfold HtmlToCsv.day_breaker, HtmlToCsv.day_match in *. cbn in Ho.
    destruct (search _ _) as [[|g gs]|]; try done.
    by destruct (datetime.new year month (int g)).
  - unfold HtmlToCsv.body. unfold HtmlToCsv.is_day_breaker in Hb.
    rewrite Hb, Hd. by eexists.
Qed.

Lemma for_rows_no_day rows st acc :
  HtmlToCsv.current_day st = None ->
  Forall (λ r, HtmlToCsv.opens_day year month month_str r = false) rows ->
  ∃ st', for_rows rows st acc = Ok (st', acc)
         ∧ HtmlToCsv.current_day st' = None.
Proof.
  intros Hd Hrows. revert st acc Hd.
  induction Hrows as [|row rows Ho _ IH]; intros st acc Hd; cbn.
  - by exists st.
  - destruct (body_no_day st row Hd Ho) as (st1 & -> & Hd1). cbn.
    rewrite app_nil_r. by apply IH.
Qed.
End Skips.




(** ** The carried time *)

Section Carry.
Context (impact_map : gmap text text) (year month : Z) (month_str : text).

Local Abbreviation body := (HtmlToCsv.body impact_map year month month_str).
Local Abbreviation for_rows :=
  (HtmlToCsv.for_rows impact_map year month month_str).
Local Abbreviation carried :=
  (nearest_time impact_map month_str clock_time).

(** After any rows, [last_clock_time] holds a time of day, and while
    [current_day] is set it is the nearest preceding time of that day. *)
Lemma carry_invariant pre st acc :
  for_rows pre HtmlToCsv.fresh [] = Ok (st, acc) ->
  (∀ t, HtmlToCsv.last_clock_time st = Some t ->
        0 <= t.1 <= 23 ∧ 0 <= t.2 <= 59)
  ∧ (is_Some (HtmlToCsv.current_day st) ->
     default (0, 0) (HtmlToCsv.last_clock_time st)
     = default (0, 0) (carried (reverse pre))).
Proof.
  revert st acc. induction pre as [|row pre IH] using rev_ind; intros st acc H.
  - cbn in H. injection H as <- <-. split; [done|]. by intros [? ?].
  - rewrite for_rows_app in H.
    destruct (for_rows pre HtmlToCsv.fresh []) as [[st1 acc1]|] eqn:E;
      cbn in H; [|discriminate].
    destruct (body st1 row) as [[st2 out]|] eqn:Eb; cbn in H; [|discriminate].
    injection H as <- <-. destruct (IH st1 acc1 eq_refl) as [IHv IHn].
    rewrite reverse_snoc. cbn [nearest_time].
    pose proof (body_step impact_map year month month_str st1 row) as Hs.
    rewrite Eb in Hs. cbn in Hs.
    inversion Hs as [g gs d Hb Hm Hn|g gs e Hb Hm Hn|Hb Hm|Hb Hd|d e Hb Hd Hf
                    |d Hb Hd Hf|d f dt t Hb Hd Hf Hc|]; subst; rewrite Hb.
    + rewrite Hm. split; [done|]. done.
    + cbn. split; [done|]. by intros [? ?].
    + split; [done|]. intros Hd.
      destruct (HtmlToCsv.day_match month_str row) as [[|g gs]|] eqn:Em;
        [by apply IHn| |by apply IHn].
      by destruct (Hm g gs).
    + split; [done|]. rewrite Hd. by intros [? ?].
    + rewrite Hf. split; [done|]. done.
    + rewrite Hf. split; [done|]. done.
    + rewrite Hf. pose proof Hc as Hi. apply clock_inv in Hi as (_ & Ht).
      cbn. split; [by intros ? [= <-]|]. intros _.
      rewrite clock_cases in Hc. cbn zeta in Hc.
      destruct (datetime.replace d _ _ 0) as [dt'|]; cbn in Hc;
        [|discriminate].
      injection Hc as _ <-.
      destruct (clock_time (HtmlToCsv.time_text f)); cbn; [done|].
      apply IHn. by rewrite Hd.
Qed.

Lemma clock_unparseable d lct label :
  label <> str "All Day" ->
  parsed_time label = None ->
  (∀ t, lct = Some t -> 0 <= t.1 <= 23 ∧ 0 <= t.2 <= 59) ->
  HtmlToCsv.clock d lct label
  = Ok (datetime.with_time d (default (0, 0) lct).1 (default (0, 0) lct).2 0,
        default (0, 0) lct).
Proof.
  intros Hne Hp Hv. rewrite clock_cases. unfold clock_time, text_eqb.
  rewrite bool_decide_eq_false_2, Hp by done. cbn.
  rewrite replace_ok; [done|..]; destruct lct as [t|]; cbn; try lia;
    by apply Hv.
Qed.
End Carry.




(** ** The matcher *)

Section Matcher.
Context {R : Type}.

(** A quantifier hands its continuation a suffix of its input. *)
Lemma rep_inv k g lo hi s (cont : text -> option R) r :
  rep k g lo hi s cont = Some r ->
  ∃ rest, rest `suffix_of` s ∧ cont rest = Some r.
Proof.
  revert lo hi. induction s as [|c s IH]; intros lo hi H; cbn in H.
  - exists []. split; [done|].
    destruct g, lo; try done. by destruct (cont []).
  - assert (rep k g (Nat.pred lo) (Nat.pred <$> hi) s cont = Some r
            ∨ cont (c :: s) = Some r) as [Hm|Hs].
    { destruct (cls_ok k c && room hi), g, lo;
        repeat match type of H with
               | match ?x with _ => _ end = _ => destruct x eqn:?
               end; try discriminate; auto; left; congruence. }
    + destruct (IH _ _ Hm) as (rest & Hsuf & Hc).
      exists rest. split; [by apply suffix_cons_r|done].
    + by exists (c :: s).
Qed.

Lemma alt_inv alts s (cont : text -> option R) r :
  alt alts s cont = Some r ->
  ∃ rest, rest `suffix_of` s ∧ cont rest = Some r.
Proof.
  induction alts as [|a alts IH]; cbn; [done|]. intros H.
  case_bool_decide.
  - destruct (cont (drop (length a) s)) eqn:Hc; [|by apply IH].
    exists (drop (length a) s). split; [apply suffix_drop|congruence].
  - by apply IH.
Qed.
End Matcher.

Lemma exec_lits L re s opens caps r :
  exec (lits L ++ re) s opens caps = Some r ->
  ∃ rest, s = L ++ rest ∧ exec re rest opens caps = Some r.
Proof.
  revert s. induction L as [|c L IH]; intros s H; cbn in H.
  - by exists s.
  - destruct s as [|c' s]; [done|].
    case_bool_decide as Hc; [|done]. subst c'.
    destruct (IH _ H) as (rest & -> & Hr). by exists rest.
Qed.

Lemma infix_prefix p rest : infix p (p ++ rest).
Proof. by exists [], rest. Qed.

Lemma infix_suffix p s s' : infix p s' -> s' `suffix_of` s -> infix p s.
Proof.
  intros (a & b & ->) [k ->]. exists (k ++ a), b. by rewrite <- app_assoc.
Qed.

Lemma infix_trans p s k : infix p s -> infix s k -> infix p k.
Proof.
  intros (a & b & ->) (a' & b' & ->). exists (a' ++ a), (b ++ b').
  by rewrite <- !app_assoc.
Qed.

Lemma infix_take s n k : s `suffix_of` k -> infix (take n s) k.
Proof.
  intros [a ->]. exists a, (drop n s). by rewrite take_drop.
Qed.

(** Every group of a match is a piece of the text that is searched. *)
Lemma exec_groups_infix html re s opens caps caps' rest :
  s `suffix_of` html ->
  Forall (λ o, o `suffix_of` html) opens ->
  Forall (λ c, infix c html) caps ->
  exec re s opens caps = Some (caps', rest) ->
  Forall (λ c, infix c html) caps'.
Proof.
  revert s opens caps.
  induction re as [|n re IH]; intros s opens caps Hs Ho Hc H; cbn in H.
  - by injection H as <- _.
  - destruct n as [k|k lo hi g| | |alts].
    + destruct s as [|c s]; [done|]. destruct (cls_ok k c); [|done].
      refine (IH _ _ _ _ Ho Hc H). by eapply suffix_cons_l.
    + apply rep_inv in H as (rest' & Hr & H).
      refine (IH _ _ _ _ Ho Hc H). by etrans.
    + refine (IH _ _ _ Hs _ Hc H). by constructor.
    + destruct opens as [|o os]; [done|].
      apply Forall_cons in Ho as [Ho Hos].
      refine (IH _ _ _ Hs Hos _ H).
      apply Forall_app. split; [done|].
      constructor; [|done]. by apply infix_take.
    + apply alt_inv in H as (rest' & Hr & H).
      refine (IH _ _ _ _ Ho Hc H). by etrans.
Qed.

Lemma search_inv re s caps :
  search re s = Some caps ->
  ∃ s' rest, s' `suffix_of` s ∧ exec re s' [] [] = Some (caps, rest).
Proof.
  induction s as [|c s IH]; cbn.
  - destruct (exec re [] [] []) as [[caps' rest]|] eqn:He; [|done].
    intros [= <-]. by exists [], rest.
  - destruct (exec re (c :: s) [] []) as [[caps' rest]|] eqn:He.
    + intros [= <-]. by exists (c :: s), rest.
    + intros H. destruct (IH H) as (s' & rest & Hs & Hr).
      exists s', rest. split; [by apply suffix_cons_r|done].
Qed.

Lemma findall_from_nil re skip s :
  (∀ s', s' `suffix_of` s -> exec re s' [] [] = None) ->
  findall_from re skip s = [].
Proof.
  revert skip. induction s as [|c s IH]; intros skip H.
  - destruct skip; cbn; [|done]. by rewrite (H []).
  - assert (∀ s', s' `suffix_of` s -> exec re s' [] [] = None) as H'.
    { intros s' Hs. apply H. by apply suffix_cons_r. }
    destruct skip; cbn.
    + rewrite (H (c :: s)) by done. by apply IH.
    + by apply IH.
Qed.

(** ** The impact map *)

Lemma blob_needs_prefix html_content caps :
  search HtmlToCsv.blob_re html_content = Some caps ->
  infix HtmlToCsv.blob_prefix html_content.
Proof.
  intros (s & rest & Hs & He)%search_inv.
  apply exec_lits in He as (rest' & -> & _).
  eapply infix_suffix; [apply infix_prefix|done].
Qed.

Lemma pair_needs_impact_key s r :
  exec HtmlToCsv.pair_re s [] [] = Some r -> infix HtmlToCsv.impact_key s.
Proof.
  unfold HtmlToCsv.pair_re. intros (s1 & -> & H)%exec_lits.
  cbn [app exec] in H.
  apply rep_inv in H as (s2 & Hs2 & H). cbn [exec] in H.
  apply rep_inv in H as (s3 & Hs3 & H).
  apply exec_lits in H as (s4 & -> & _).
  eapply infix_suffix; [apply infix_prefix|].
  apply suffix_app_r. by etrans.
Qed.

Lemma findall_pairs_nil js :
  ¬ infix HtmlToCsv.impact_key js -> findall HtmlToCsv.pair_re js = [].
Proof.
  intros Hn. apply findall_from_nil. intros s Hs.
  destruct (exec HtmlToCsv.pair_re s [] []) as [r|] eqn:He; [|done].
  destruct Hn. eapply infix_suffix; [|done].
  by eapply pair_needs_impact_key.
Qed.

Lemma blob_infix html_content js gs :
  search HtmlToCsv.blob_re html_content = Some (js :: gs) ->
  infix js html_content.
Proof.
  intros (s & rest & Hs & He)%search_inv.
  eapply exec_groups_infix in He; [|done..].
  by apply Forall_cons in He as [He _].
Qed.

(** C7. [extract_json_data] returns a mapping for every document text,
    and the empty one when the blob is absent (its assignment prefix
    occurs nowhere, or the search for it fails) and when the pairs are
    absent (the impact key occurs nowhere, or the blob holds no match of
    the pair pattern). A data row whose event identifier is not a key of
    the impact map gets the impact label Low Impact Expected. *)
Theorem missing_impact_data_defaults
    html_content impact_map year month month_str st row st' rec :
  (¬ infix HtmlToCsv.blob_prefix html_content
   ∨ search HtmlToCsv.blob_re html_content = None
   ∨ ¬ infix HtmlToCsv.impact_key html_content
   ∨ (∃ js gs, search HtmlToCsv.blob_re html_content = Some (js :: gs)
               ∧ findall HtmlToCsv.pair_re js = []) ->
   HtmlToCsv.extract_json_data html_content = ∅)
  ∧ (HtmlToCsv.body impact_map year month month_str st row
     = Ok (st', Some rec) ->
     impact_map !! default [] (data_event_id row) = None ->
     Impact rec = str "Low Impact Expected").
Proof.
  split.
  - unfold HtmlToCsv.extract_json_data.
    destruct (search HtmlToCsv.blob_re html_content) as [[|js gs]|] eqn:Hs;
      [done| |done].
    intros [H|[H|[H|(js' & gs' & [= <- <-] & H)]]].
    + destruct H. by eapply blob_needs_prefix.
    + done.
    + rewrite findall_pairs_nil; [done|].
      intros Hi. apply H. eapply infix_trans; [done|].
      by eapply blob_infix.
    + by rewrite H.
  - intros H Hm.
    apply body_emit_inv in H as (_ & d & f & dt & t & _ & Hf & _ & _ & ->).
    apply read_cells_inv in Hf as (_ & _ & Hi & _).
    cbn. by rewrite Hi, Hm.
Qed.

Example impact_map_of_blob :
  HtmlToCsv.extract_json_data
    (str "<script>window.calendarComponentStates[1] = {days:[{events:[{"
     ++ HtmlToCsv.id_key ++ str "140001,"
     ++ HtmlToCsv.impact_key ++ str "High Impact Expected" ++ [dq]
     ++ str "}]}]};</script>")
  !! str "140001"
  = Some (str "High Impact Expected").
Proof. vm_compute. reflexivity. Qed.

Lemma missing_impact_data_defaults_witness :
  HtmlToCsv.extract_json_data (str "<html><body>no calendar</body></html>")
  = ∅
  ∧ Impact (sample_record "2025-06-05T17:00:00-08:00" "Payrolls")
    = str "Low Impact Expected".
Proof.
  destruct (missing_impact_data_defaults
              (str "<html><body>no calendar</body></html>")
              ∅ 2025 6 (str "Jun") (on_june5 None)
              (sample_row "5:00pm" "Payrolls") (on_june5 (Some (17, 0)))
              (sample_record "2025-06-05T17:00:00-08:00" "Payrolls"))
    as [H1 H2].
  split.
  - apply H1. right. left. vm_compute. reflexivity.
  - apply H2.
    + vm_compute. reflexivity.
    + reflexivity.
Defined.

(** ** Times out of range *)

(** A label the time pattern matches raises exactly when its hour or
    minute is out of range; every other label resolves. *)
Lemma clock_raises_iff d lct label :
  (∀ t, lct = Some t -> 0 <= t.1 <= 23 ∧ 0 <= t.2 <= 59) ->
  (∃ e, HtmlToCsv.clock d lct label = Raise e)
  <-> ∃ hh mm, parsed_time label = Some (hh, mm)
               ∧ ¬ (0 <= hh <= 23 ∧ 0 <= mm <= 59).
Proof.
  intros Hv. rewrite clock_cases. cbn zeta. unfold clock_time.
  destruct (text_eqb label (str "All Day")) eqn:Ha.
  - apply bool_decide_eq_true in Ha as ->. cbn. split.
    + by intros [e He].
    + by intros (hh & mm & Hp & _).
  - destruct (parsed_time label) as [[hh mm]|] eqn:Hp; cbn.
    + split.
      * intros [e He]. exists hh, mm. split; [done|]. intros [Hh Hm].
        by rewrite replace_ok in He.
      * intros (hh' & mm' & [= <- <-] & Hn).
        destruct (datetime.replace d hh mm 0) as [dt|e] eqn:Hr; cbn;
          [|by eexists].
        apply replace_inv in Hr. tauto.
    + split; [|by intros (hh & mm & Hp' & _)].
      intros [e He]. exfalso.
      rewrite replace_ok in He; [done|..]; destruct lct as [t|]; cbn;
        try lia; by apply Hv.
Qed.

(** C10 fails on the code. A label the time pattern matches with a minute
    above 59 or an hour above 23 reaches [datetime.replace], whose
    [ValueError] nothing catches: the run over the document ends with
    the exception and no records, in each of the three scripts. *)
Theorem out_of_range_time_aborts_document :
  HtmlToCsv.parse_calendar_html []
    [sample_breaker "Thu Jun 5"; sample_row "5:00pm" "Payrolls";
     sample_row "9:75pm" "Speech"] 2025 6
  = Raise (ValueError "minute must be in 0..59")
  ∧ HtmlToCsv.parse_calendar_html []
      [sample_breaker "Thu Jun 5"; sample_row "5:00pm" "Payrolls";
       sample_row "99:00am" "Speech"] 2025 6
    = Raise (ValueError "hour must be in 0..23")
  ∧ ExtractHtmlToCsv.parse_time_label (str "9:75pm") june5
    = Raise (ValueError "minute must be in 0..59")
  ∧ ExtractHtmlToCsv.parse_time_label (str "99:00am") june5
    = Raise (ValueError "hour must be in 0..23")
  ∧ LocScraper.parse_calendar_month_from_html_debug
      [sample_breaker "Thu Jun 5"; sample_row "5:00pm" "Payrolls";
       sample_row "9:75pm" "Speech"] 2025 6
    = Raise (ValueError "minute must be in 0..59")
  ∧ LocScraper.parse_calendar_month_from_html_debug
      [sample_breaker "Thu Jun 5"; sample_row "5:00pm" "Payrolls";
       sample_row "99:00am" "Speech"] 2025 6
    = Raise (ValueError "hour must be in 0..23").
Proof. repeat split; vm_compute; reflexivity. Qed.


(** * Further properties *)

(** ** What the loop of html_to_csv.py keeps *)

Lemma as_c_int_ok n : datetime.fits_c_int n -> datetime.as_c_int n = Ok n.
Proof.
  unfold datetime.fits_c_int, datetime.as_c_int. intros Hn.
  destruct (Z.ltb_spec n (- 2 ^ 63)), (Z.leb_spec (2 ^ 63) n),
    (Z.leb_spec (2 ^ 31) n), (Z.ltb_spec n (- 2 ^ 31)); cbn; try lia.
  reflexivity.
Qed.

Lemma as_c_int_inv n k :
  datetime.as_c_int n = Ok k -> k = n ∧ datetime.fits_c_int n.
Proof.
  unfold datetime.fits_c_int, datetime.as_c_int.
  destruct (Z.ltb_spec n (- 2 ^ 63)), (Z.leb_spec (2 ^ 63) n),
    (Z.leb_spec (2 ^ 31) n), (Z.ltb_spec n (- 2 ^ 31)); cbn;
    intros [= <-]. split; [done|lia].
Qed.

Lemma as_c_int_raises n e :
  datetime.as_c_int n = Raise e ->
  (∃ msg, e = OverflowError msg) ∧ ¬ datetime.fits_c_int n.
Proof.
  unfold datetime.fits_c_int, datetime.as_c_int.
  destruct (Z.ltb_spec n (- 2 ^ 63)), (Z.leb_spec (2 ^ 63) n),
    (Z.leb_spec (2 ^ 31) n), (Z.ltb_spec n (- 2 ^ 31)); cbn;
    intros [= <-]; (split; [by eexists|lia]).
Qed.

Lemma new_inv y m d dt :
  datetime.new y m d = Ok dt ->
  dt = datetime.mk y m d 0 0 0 None
  ∧ 1 <= y <= 9999 ∧ 1 <= m <= 12 ∧ 1 <= d <= datetime.days_in_month y m.
Proof.
  unfold datetime.new.
  destruct (datetime.as_c_int y) as [y'|] eqn:Hy; cbn; [|discriminate].
  destruct (datetime.as_c_int m) as [m'|] eqn:Hm; cbn; [|discriminate].
  destruct (datetime.as_c_int d) as [d'|] eqn:Hd; cbn; [|discriminate].
  apply as_c_int_inv in Hy as [-> _], Hm as [-> _], Hd as [-> _].
  destruct (Z.leb_spec 1 y), (Z.leb_spec y 9999), (Z.leb_spec 1 m),
    (Z.leb_spec m 12), (Z.leb_spec 1 d),
    (Z.leb_spec d (datetime.days_in_month y m));
    cbn; intros Hdt; try discriminate Hdt.
  injection Hdt as <-. repeat split; lia.
Qed.

Lemma zfill_length w n : length (datetime.zfill w n) = w.
Proof.
  revert n. induction w as [|w IH]; intros n; cbn; [done|].
  rewrite length_app, IH. cbn. lia.
Qed.

Lemma isoformat_length y m d hh mm ss off :
  length (datetime.isoformat (datetime.mk y m d hh mm ss (Some off)))
  = 25%nat.
Proof.
  unfold datetime.isoformat, datetime.format_offset. cbn -[datetime.zfill].
  destruct (off <? 0); rewrite !length_app, !zfill_length; reflexivity.
Qed.

Section Keeps.
Context (impact_map : gmap text text) (year month : Z) (month_str : text).

Local Abbreviation body := (HtmlToCsv.body impact_map year month month_str).
Local Abbreviation for_rows :=
  (HtmlToCsv.for_rows impact_map year month month_str).

Lemma loop_invariant_fresh : loop_invariant year month HtmlToCsv.fresh.
Proof. split; intros ? [=]. Qed.

Lemma body_keeps st row st' out :
  loop_invariant year month st ->
  body st row = Ok (st', out) ->
  loop_invariant year month st'
  ∧ ∀ rec, out = Some rec -> record_of_month year month rec.
Proof.
  intros [Hday Hclock] Hb.
  pose proof (body_step impact_map year month month_str st row) as Hs.
  rewrite Hb in Hs. cbn in Hs.
  inversion Hs as [g gs d Hbr Hm Hn|g gs e Hbr Hm Hn|Hbr Hm|Hbr Hd
                  |d e Hbr Hd Hf|d Hbr Hd Hf|d f dt t Hbr Hd Hf Hc|]; subst;
    try (split; [by split|by intros ? [=]]).
  - split; [|by intros ? [=]]. split; [|by intros ? [=]].
    intros ? [= <-]. apply new_inv in Hn as (-> & _ & _ & Hr).
    by exists (int g).
  - apply clock_inv in Hc as (-> & Ht).
    destruct (Hday d Hd) as (n & -> & Hn). split.
    + split; [by intros ? [= <-]; exists n|by intros ? [= <-]].
    + intros ? [= <-]. destruct t as [hh mm].
      apply read_cells_inv in Hf as (_ & Hev & _).
      split; [by exists n, hh, mm|]. split; [|done].
      exact (isoformat_length year month n hh mm 0 pst).
Qed.

(** The loop keeps its invariant, only appends to [data_list], appends
    at most one record per row, and every record it appends is a record
    of the month. *)
Lemma for_rows_keeps rows st acc st' res :
  loop_invariant year month st ->
  for_rows rows st acc = Ok (st', res) ->
  loop_invariant year month st'
  ∧ ∃ new, res = acc ++ new
           ∧ (length new <= length rows)%nat
           ∧ Forall (record_of_month year month) new.
Proof.
  revert st acc. induction rows as [|row rows IH]; intros st acc Hi H; cbn in H.
  - injection H as <- <-. split; [done|]. exists []. by rewrite app_nil_r.
  - destruct (body st row) as [[st1 out]|] eqn:Hb; cbn in H; [|discriminate].
    destruct (body_keeps _ _ _ _ Hi Hb) as [Hi1 Hout].
    destruct (IH _ _ Hi1 H) as (Hi' & new & -> & Hlen & Hnew).
    split; [done|]. exists (option_list out ++ new).
    rewrite app_assoc. split; [done|]. split.
    + rewrite length_app. destruct out; cbn; lia.
    + apply Forall_app. split; [|done].
      destruct out as [rec|]; cbn; [|done]. constructor; [by apply Hout|done].
Qed.
End Keeps.

(** X1. Every record [parse_calendar_html] of html_to_csv.py returns is
    stamped on a day of the year and month of the call, at a time of day
    and at UTC-8, in 25 characters, and has an event name; and there are
    at most as many records as rows. *)
Theorem records_are_of_the_month html_content rows year month recs :
  HtmlToCsv.parse_calendar_html html_content rows year month = Ok recs ->
  Forall (record_of_month year month) recs
  ∧ (length recs <= length rows)%nat.
Proof.
  unfold HtmlToCsv.parse_calendar_html.
  destruct (datetime.new year month 1) as [first|]; cbn; [|discriminate].
  destruct (HtmlToCsv.for_rows _ _ _ _ rows _ _) as [[st res]|] eqn:Hr;
    cbn; [|discriminate].
  intros [= <-].
  apply for_rows_keeps in Hr as (_ & new & -> & Hlen & Hnew);
    [|apply loop_invariant_fresh].
  done.
Qed.

Lemma records_are_of_the_month_witness :
  Forall (record_of_month 2025 6)
    [sample_record "2025-06-05T17:00:00-08:00" "Payrolls";
     sample_record "2025-06-05T17:00:00-08:00" "Speech"]
  ∧ (2 <= 3)%nat.
Proof.
  apply (records_are_of_the_month []
           [sample_breaker "Thu Jun 5"; sample_row "5:00pm" "Payrolls";
            sample_row " " "Speech"] 2025 6).
  vm_compute. reflexivity.
Defined.

(** ** When the run over a document ends with an exception *)

(** The constructor raises an [OverflowError] when an argument does not
    fit a C [int], and a [ValueError] otherwise. *)
Lemma new_raises y m d e :
  datetime.new y m d = Raise e ->
  (∃ msg, e = ValueError msg)
  ∨ ((∃ msg, e = OverflowError msg)
     ∧ ¬ (datetime.fits_c_int y ∧ datetime.fits_c_int m
          ∧ datetime.fits_c_int d)).
Proof.
  unfold datetime.new.
  destruct (datetime.as_c_int y) as [y'|ey] eqn:Hy; cbn;
    [|intros [= <-]; apply as_c_int_raises in Hy as [? ?]; right; tauto].
  destruct (datetime.as_c_int m) as [m'|em] eqn:Hm; cbn;
    [|intros [= <-]; apply as_c_int_raises in Hm as [? ?]; right; tauto].
  destruct (datetime.as_c_int d) as [d'|ed] eqn:Hd; cbn;
    [|intros [= <-]; apply as_c_int_raises in Hd as [? ?]; right; tauto].
  repeat match goal with
         | |- context [if ?b then _ else _] => destruct b
         end; intros [= <-]; left; by eexists.
Qed.

Lemma replace_raises dt hh mm ss e :
  datetime.replace dt hh mm ss = Raise e -> ∃ msg, e = ValueError msg.
Proof.
  unfold datetime.replace.
  repeat match goal with
         | |- context [if ?b then _ else _] => destruct b
         end; intros [= <-]; by eexists.
Qed.

Lemma clock_raises d lct label e :
  HtmlToCsv.clock d lct label = Raise e -> ∃ msg, e = ValueError msg.
Proof.
  rewrite clock_cases. cbn zeta.
  destruct (datetime.replace d _ _ 0) as [dt|e'] eqn:Hr; cbn; [done|].
  intros [= <-]. by eapply replace_raises.
Qed.

Lemma time_ok_valid label hh mm :
  time_ok label = true -> parsed_time label = Some (hh, mm) ->
  0 <= hh <= 23 ∧ 0 <= mm <= 59.
Proof.
  unfold time_ok. intros H Hp. rewrite Hp in H.
  repeat (apply andb_prop in H as [H ?]). lia.
Qed.

Lemma time_text_is_cell impact_map row f :
  HtmlToCsv.read_cells impact_map row = Ok (Some f) ->
  ∃ c, c ∈ find_all_td row ∧ strip c = HtmlToCsv.time_text f.
Proof.
  intros (_ & _ & _ & Ht & _)%read_cells_inv. unfold field in Ht.
  destruct (find_all_td row !! _) as [c|] eqn:Hc; [|done].
  injection Ht as Ht. exists c. split; [|done].
  by eapply list_elem_of_lookup_2.
Qed.

Section Aborts.
Context (impact_map : gmap text text) (year month : Z) (month_str : text).

Local Abbreviation body := (HtmlToCsv.body impact_map year month month_str).
Local Abbreviation for_rows :=
  (HtmlToCsv.for_rows impact_map year month month_str).

Lemma body_raise_inv st row e :
  body st row = Raise e ->
  ∃ d f,
    HtmlToCsv.current_day st = Some d
    ∧ HtmlToCsv.read_cells impact_map row = Ok (Some f)
    ∧ HtmlToCsv.clock d (HtmlToCsv.last_clock_time st)
                      (HtmlToCsv.time_text f) = Raise e.
Proof.
  intros Hb.
  pose proof (body_step impact_map year month month_str st row) as Hs.
  rewrite Hb in Hs. cbn in Hs. inversion Hs; subst. by eexists _, _.
Qed.

Lemma body_runs st row :
  loop_invariant year month st ->
  Forall (λ c, time_ok (strip c) = true) (find_all_td row) ->
  ∃ st' out, body st row = Ok (st', out).
Proof.
  intros [_ Hclock] Hrow.
  destruct (body st row) as [[st' out]|e] eqn:Hb; [by eexists _, _|].
  exfalso. apply body_raise_inv in Hb as (d & f & Hd & Hf & Hc).
  assert (∃ e, HtmlToCsv.clock d (HtmlToCsv.last_clock_time st)
                 (HtmlToCsv.time_text f) = Raise e) as He by by eexists.
  apply clock_raises_iff in He as (hh & mm & Hp & Hbad); [|apply Hclock].
  apply time_text_is_cell in Hf as (c & Hin & Hc').
  rewrite Forall_forall in Hrow. specialize (Hrow c Hin).
  rewrite Hc' in Hrow. apply Hbad. by eapply time_ok_valid.
Qed.

Lemma for_rows_runs rows st acc :
  loop_invariant year month st ->
  Forall (λ row, Forall (λ c, time_ok (strip c) = true) (find_all_td row))
    rows ->
  ∃ st' res, for_rows rows st acc = Ok (st', res).
Proof.
  intros Hi Hrows. revert st acc Hi.
  induction Hrows as [|row rows Hrow _ IH]; intros st acc Hi; cbn.
  - by eexists _, _.
  - destruct (body_runs st row Hi Hrow) as (st1 & out & Hb). rewrite Hb. cbn.
    apply IH. by eapply body_keeps.
Qed.

Lemma for_rows_raises rows st acc e :
  for_rows rows st acc = Raise e -> ∃ msg, e = ValueError msg.
Proof.
  revert st acc. induction rows as [|row rows IH]; intros st acc; cbn;
    [done|].
  destruct (body st row) as [[st1 out]|e'] eqn:Hb; cbn.
  - apply IH.
  - intros [= <-]. apply body_raise_inv in Hb as (d & f & _ & _ & Hc).
    by eapply clock_raises.
Qed.
End Aborts.

(** X2. For a year in 1..9999 and a month in 1..12,
    [parse_calendar_html] of html_to_csv.py returns its records, whatever
    the rows are, as long as no cell of any row holds, after trimming, a
    text the time pattern matches with an hour above 23 or a minute above
    59. *)
Theorem in_range_times_never_abort html_content rows year month :
  1 <= year <= 9999 ->
  1 <= month <= 12 ->
  Forall (λ row, Forall (λ c, time_ok (strip c) = true) (find_all_td row))
    rows ->
  ∃ recs,
    HtmlToCsv.parse_calendar_html html_content rows year month = Ok recs.
Proof.
  intros Hy Hm Hrows. unfold HtmlToCsv.parse_calendar_html.
  destruct (datetime.new year month 1) as [first|e] eqn:Hn; cbn.
  - destruct (for_rows_runs (HtmlToCsv.extract_json_data html_content)
                year month (datetime.strftime_b first) rows HtmlToCsv.fresh
                [] (loop_invariant_fresh year month) Hrows)
      as (st & res & ->).
    by eexists.
  - exfalso. unfold datetime.new, datetime.fits_c_int in Hn.
    rewrite !as_c_int_ok in Hn by (unfold datetime.fits_c_int; lia).
    cbn [mbind result_bind] in Hn.
    assert (1 <= datetime.days_in_month year month).
    { unfold datetime.days_in_month.
      repeat match goal with
             | |- context [if ?b then _ else _] => destruct b
             end; lia. }
    destruct (Z.leb_spec 1 year), (Z.leb_spec year 9999), (Z.leb_spec 1 month),
      (Z.leb_spec month 12), (Z.leb_spec 1 1),
      (Z.leb_spec 1 (datetime.days_in_month year month));
      cbn in Hn; try discriminate Hn; lia.
Qed.

Lemma in_range_times_never_abort_witness :
  ∃ recs,
    HtmlToCsv.parse_calendar_html []
      [sample_breaker "Thu Jun 5"; sample_row "5:00pm" "Payrolls";
       sample_row "n/a" "Speech"] 2025 6
    = Ok recs.
Proof.
  apply in_range_times_never_abort.
  - lia.
  - lia.
  - repeat constructor.
Defined.

(** X3. The exceptions that leave [parse_calendar_html] of
    html_to_csv.py are those of [datetime]: an [OverflowError], from the
    constructor before the loop and only when the year or the month of
    the call does not fit a C [int], and a [ValueError] otherwise. The
    [IndexError] of a row with too few cells never leaves it. *)
Theorem only_datetime_errors_escape html_content rows year month e :
  HtmlToCsv.parse_calendar_html html_content rows year month = Raise e ->
  (∃ msg, e = ValueError msg)
  ∨ ((∃ msg, e = OverflowError msg)
     ∧ ¬ (datetime.fits_c_int year ∧ datetime.fits_c_int month)).
Proof.
  unfold HtmlToCsv.parse_calendar_html.
  destruct (datetime.new year month 1) as [first|e'] eqn:Hn; cbn.
  - destruct (HtmlToCsv.for_rows _ _ _ _ rows _ _) as [[st res]|e'] eqn:Hr;
      cbn; [done|].
    intros [= <-]. left. by eapply for_rows_raises.
  - intros [= <-]. apply new_raises in Hn as [Hn|[Hn Hfit]]; [by left|].
    right. split; [done|]. intros [Hy Hm]. apply Hfit.
    split_and!; [done|done|]. unfold datetime.fits_c_int. lia.
Qed.

Lemma only_datetime_errors_escape_witness :
  (∃ msg, OverflowError "signed integer is greater than maximum"
          = ValueError msg)
  ∨ ((∃ msg, OverflowError "signed integer is greater than maximum"
             = OverflowError msg)
     ∧ ¬ (datetime.fits_c_int (2 ^ 31) ∧ datetime.fits_c_int 6)).
Proof.
  apply (only_datetime_errors_escape []
           [{| row_class := []; get_text := []; find_all_td := [[]; []; []; []; []];
               data_event_id := None |}] (2 ^ 31) 6).
  vm_compute. reflexivity.
Defined.

Example year_zero_message :
  HtmlToCsv.parse_calendar_html [] [] 0 13
  = Raise (ValueError "year 0 is out of range").
Proof. vm_compute. reflexivity. Qed.


(** ** Rows too short for their layout *)

(** X4. A row passes the test on 5 cells and is still skipped when a
    cell of its layout is missing: every row that appends a record has
    at least 9 cells, and at least 10 in Layout A. *)
Theorem short_rows_append_nothing
    impact_map year month month_str st row st' rec :
  HtmlToCsv.body impact_map year month month_str st row = Ok (st', Some rec) ->
  (9 <= length (find_all_td row))%nat
  ∧ (layout_of row = LayoutA -> (10 <= length (find_all_td row))%nat).
Proof.
  intros (_ & d & f & dt & t & _ & Hf & _)%body_emit_inv.
  apply read_cells_inv in Hf as (_ & _ & _ & _ & _ & _ & _ & _ & _ & Hp).
  unfold field in Hp.
  destruct (find_all_td row !! _) as [c|] eqn:Hc; [|done].
  apply lookup_lt_Some in Hc. destruct (layout_of row); cbn in Hc.
  - split; [lia|]. intros _. lia.
  - split; [lia|done].
Qed.

Lemma short_rows_append_nothing_witness :
  (9 <= length (find_all_td (sample_row "5:00pm" "Payrolls")))%nat
  ∧ (layout_of (sample_row "5:00pm" "Payrolls") = LayoutA ->
     (10 <= length (find_all_td (sample_row "5:00pm" "Payrolls")))%nat).
Proof.
  apply (short_rows_append_nothing ∅ 2025 6 (str "Jun") (on_june5 None)
           (sample_row "5:00pm" "Payrolls") (on_june5 (Some (17, 0)))
           (sample_record "2025-06-05T17:00:00-08:00" "Payrolls")).
  vm_compute. reflexivity.
Defined.

(** ** The first row of a day *)

(** X5. A day-breaker row that sets the day forgets the time carried from
    the day before: the data row right after it, when its label sets no
    time, is stamped 00:00:00 on the new day, whatever was carried. *)
Theorem new_day_forgets_carried_time
    impact_map year month month_str st acc breaker row f :
  HtmlToCsv.opens_day year month month_str breaker = true ->
  HtmlToCsv.is_day_breaker row = false ->
  HtmlToCsv.read_cells impact_map row = Ok (Some f) ->
  clock_time (HtmlToCsv.time_text f) = None ->
  ∃ g gs,
    HtmlToCsv.day_match month_str breaker = Some (g :: gs)
    ∧ 1 <= int g <= datetime.days_in_month year month
    ∧ HtmlToCsv.for_rows impact_map year month month_str [breaker; row] st acc
      = Ok ({| HtmlToCsv.current_day :=
                 Some (datetime.mk year month (int g) 0 0 0 None);
               HtmlToCsv.last_clock_time := Some (0, 0) |},
            acc ++ [HtmlToCsv.record_of
                      (datetime.mk year month (int g) 0 0 0 (Some (-480)))
                      f]).
Proof.
  unfold HtmlToCsv.opens_day. intros [Hb Ho]%andb_prop Hrow Hf Hc.
  destruct (HtmlToCsv.day_match month_str breaker) as [[|g gs]|] eqn:Hm;
    try discriminate.
  destruct (datetime.new year month (int g)) as [d|] eqn:Hn; [|discriminate].
  exists g, gs. split; [done|].
  pose proof Hn as (-> & _ & _ & Hr)%new_inv. split; [done|].
  cbn [HtmlToCsv.for_rows]. rewrite body_day_breaker by done.
  unfold HtmlToCsv.day_breaker. unfold HtmlToCsv.day_match in Hm.
  rewrite Hm, Hn. cbn.
  erewrite body_data_row; [| done | reflexivity | done |].
  2:{ rewrite clock_cases, Hc. cbn. reflexivity. }
  cbn. by rewrite app_nil_r.
Qed.

Lemma new_day_forgets_carried_time_witness :
  ∃ g gs,
    HtmlToCsv.day_match (str "Jun") (sample_breaker "Fri Jun 6")
    = Some (g :: gs)
    ∧ 1 <= int g <= datetime.days_in_month 2025 6
    ∧ HtmlToCsv.for_rows ∅ 2025 6 (str "Jun")
        [sample_breaker "Fri Jun 6"; sample_row "Tentative" "Speech"]
        (on_june5 (Some (17, 0))) []
      = Ok ({| HtmlToCsv.current_day :=
                 Some (datetime.mk 2025 6 (int g) 0 0 0 None);
               HtmlToCsv.last_clock_time := Some (0, 0) |},
            [] ++ [HtmlToCsv.record_of
                     (datetime.mk 2025 6 (int g) 0 0 0 (Some (-480)))
                     (sample_fields "Tentative" "Speech")]).
Proof.
  apply new_day_forgets_carried_time.
  - vm_compute. reflexivity.
  - reflexivity.
  - vm_compute. reflexivity.
  - reflexivity.
Defined.

(** ** What the impact map can change *)

Section Impact.
Context (m1 m2 : gmap text text) (year month : Z) (month_str : text).

Lemma read_cells_impact row :
  match HtmlToCsv.read_cells m1 row, HtmlToCsv.read_cells m2 row with
  | Ok (Some f1), Ok (Some f2) => same_but_impact f1 f2
  | Ok None, Ok None => True
  | Raise e1, Raise e2 => e1 = e2
  | _, _ => False
  end.
Proof.
  unfold HtmlToCsv.read_cells.
  case_bool_decide; [done|].
  destruct (HtmlToCsv.has_date_col row); unfold HtmlToCsv.read_at, item;
    repeat (match goal with
            | |- context [find_all_td row !! ?i] =>
                destruct (find_all_td row !! i); cbn; [|done]
            end);
    case_bool_decide; done.
Qed.

Lemma body_impact st row :
  match HtmlToCsv.body m1 year month month_str st row,
        HtmlToCsv.body m2 year month month_str st row with
  | Ok (s1, o1), Ok (s2, o2) =>
      s1 = s2 ∧ without_impact <$> o1 = without_impact <$> o2
  | Raise e1, Raise e2 => e1 = e2
  | _, _ => False
  end.
Proof.
  unfold HtmlToCsv.body.
  destruct (mem _ _); [done|].
  destruct (HtmlToCsv.current_day st) as [d|]; [|done].
  pose proof (read_cells_impact row) as Hr.
  destruct (HtmlToCsv.read_cells m1 row) as [[f1|]|],
    (HtmlToCsv.read_cells m2 row) as [[f2|]|]; try done.
  destruct Hr as [Ht Hr]. rewrite <- Ht.
  destruct (HtmlToCsv.clock d _ _) as [[dt t]|]; cbn; [|done].
  split; [done|]. f_equal. apply Hr.
Qed.

Lemma for_rows_impact rows st acc1 acc2 :
  without_impact <$> acc1 = without_impact <$> acc2 ->
  match HtmlToCsv.for_rows m1 year month month_str rows st acc1,
        HtmlToCsv.for_rows m2 year month month_str rows st acc2 with
  | Ok (s1, l1), Ok (s2, l2) =>
      s1 = s2 ∧ without_impact <$> l1 = without_impact <$> l2
  | Raise e1, Raise e2 => e1 = e2
  | _, _ => False
  end.
Proof.
  revert st acc1 acc2. induction rows as [|row rows IH];
    intros st acc1 acc2 Hacc; cbn; [done|].
  pose proof (body_impact st row) as Hb.
  destruct (HtmlToCsv.body m1 _ _ _ st row) as [[s1 o1]|],
    (HtmlToCsv.body m2 _ _ _ st row) as [[s2 o2]|]; try done; cbn.
  destruct Hb as [<- Ho]. apply IH.
  rewrite !fmap_app, Hacc. f_equal.
  destruct o1, o2; cbn in *; congruence.
Qed.
End Impact.

(** X6. The text of the page outside its rows reaches the records of
    html_to_csv.py through the impact label only: for two page texts and
    the same rows, the run ends with the same exception, or with the same
    records up to their impact labels. *)
Theorem page_text_changes_impact_only html1 html2 rows year month :
  on_records without_impact
    (HtmlToCsv.parse_calendar_html html1 rows year month)
  = on_records without_impact
      (HtmlToCsv.parse_calendar_html html2 rows year month).
Proof.
  unfold HtmlToCsv.parse_calendar_html.
  destruct (datetime.new year month 1) as [first|]; cbn; [|done].
  pose proof (for_rows_impact (HtmlToCsv.extract_json_data html1)
                (HtmlToCsv.extract_json_data html2) year month
                (datetime.strftime_b first) rows HtmlToCsv.fresh [] []
                eq_refl) as H.
  destruct (HtmlToCsv.for_rows (HtmlToCsv.extract_json_data html1) _ _ _ _ _ _)
    as [[s1 l1]|],
    (HtmlToCsv.for_rows (HtmlToCsv.extract_json_data html2) _ _ _ _ _ _)
    as [[s2 l2]|]; try done; cbn.
  - destruct H as [_ H]. by rewrite H.
  - by rewrite H.
Qed.

(** ** Whitespace around texts *)

Lemma lstrip_idem s : lstrip (lstrip s) = lstrip s.
Proof.
  induction s as [|c s IH]; cbn; [done|].
  destruct (is_space c) eqn:Hc; [done|]. cbn. by rewrite Hc.
Qed.

Lemma lstrip_app a b :
  lstrip (a ++ b) = if bool_decide (lstrip a = []) then lstrip b
                    else lstrip a ++ b.
Proof.
  induction a as [|c a IH]; cbn; [done|].
  destruct (is_space c); [done|]. by rewrite bool_decide_eq_false_2.
Qed.

Lemma rstrip_cons c t :
  rstrip (c :: t)
  = if bool_decide (rstrip t = []) then (if is_space c then [] else [c])
    else c :: rstrip t.
Proof.
  unfold rstrip. cbn [rev]. rewrite lstrip_app.
  destruct (lstrip (rev t)) as [|x l] eqn:Hl; cbn.
  - by destruct (is_space c).
  - rewrite bool_decide_eq_false_2; cycle 1.
    { intros H. apply (f_equal (@length ascii)) in H.
      rewrite length_app in H. cbn in H. lia. }
    by rewrite rev_app_distr.
Qed.

Lemma rstrip_idem s : rstrip (rstrip s) = rstrip s.
Proof.
  unfold rstrip. by rewrite rev_involutive, lstrip_idem.
Qed.

Lemma lstrip_rstrip_lstrip s : lstrip (rstrip (lstrip s)) = rstrip (lstrip s).
Proof.
  assert (∀ x, lstrip x = x -> lstrip (rstrip x) = rstrip x) as H.
  { intros [|c t] Hx; [done|]. rewrite rstrip_cons.
    cbn in Hx. destruct (is_space c) eqn:Hc.
    - exfalso. assert (lstrip t `suffix_of` t) as Hs.
      { clear. induction t as [|c t IH]; cbn; [done|].
        destruct (is_space c); [by apply suffix_cons_r|done]. }
      rewrite Hx in Hs. by apply suffix_cons_not in Hs.
    - case_bool_decide; cbn; by rewrite Hc. }
  apply H, lstrip_idem.
Qed.

Lemma strip_idem s : strip (strip s) = strip s.
Proof.
  unfold strip. by rewrite lstrip_rstrip_lstrip, rstrip_idem.
Qed.

Section Trimmed.
Context (impact_map : gmap text text) (year month : Z) (month_str : text).

Lemma read_cells_trimmed row :
  HtmlToCsv.read_cells impact_map (trimmed row)
  = HtmlToCsv.read_cells impact_map row.
Proof.
  unfold HtmlToCsv.read_cells, HtmlToCsv.has_date_col, trimmed. cbn.
  rewrite length_fmap.
  case_bool_decide; [done|].
  destruct (_ || _); unfold HtmlToCsv.read_at, item;
    rewrite !list_lookup_fmap;
    repeat (match goal with
            | |- context [find_all_td row !! ?i] =>
                destruct (find_all_td row !! i); cbn; [|done]
            end);
    by rewrite !strip_idem.
Qed.

Lemma body_trimmed st row :
  HtmlToCsv.body impact_map year month month_str st (trimmed row)
  = HtmlToCsv.body impact_map year month month_str st row.
Proof.
  unfold HtmlToCsv.body. rewrite read_cells_trimmed.
  unfold HtmlToCsv.day_breaker, trimmed. cbn [get_text row_class].
  by rewrite strip_idem.
Qed.

Lemma for_rows_trimmed rows st acc :
  HtmlToCsv.for_rows impact_map year month month_str (trimmed <$> rows) st acc
  = HtmlToCsv.for_rows impact_map year month month_str rows st acc.
Proof.
  revert st acc. induction rows as [|row rows IH]; intros st acc; cbn;
    [done|].
  rewrite body_trimmed.
  destruct (HtmlToCsv.body _ _ _ _ st row) as [[st1 out]|]; cbn; [|done].
  apply IH.
Qed.
End Trimmed.

(** X7. Whitespace around the text of a row and of its cells changes
    nothing: [parse_calendar_html] of html_to_csv.py gives the same
    outcome on the rows and on the rows with these texts trimmed. *)
Theorem surrounding_whitespace_is_ignored html_content rows year month :
  HtmlToCsv.parse_calendar_html html_content (trimmed <$> rows) year month
  = HtmlToCsv.parse_calendar_html html_content rows year month.
Proof.
  unfold HtmlToCsv.parse_calendar_html.
  destruct (datetime.new year month 1) as [first|]; cbn; [|done].
  by rewrite for_rows_trimmed.
Qed.

(** ** What a quantifier consumes *)

Lemma rep_consumed {R} k g lo hi s (cont : text -> option R) r :
  rep k g lo hi s cont = Some r ->
  ∃ pre rest,
    s = pre ++ rest
    ∧ Forall (λ c, cls_ok k c = true) pre
    ∧ (lo <= length pre)%nat
    ∧ cont rest = Some r.
Proof.
  revert lo hi. induction s as [|c s IH]; intros lo hi H; cbn in H.
  - exists [], []. destruct lo.
    + repeat split; [done|lia|]. destruct g; [done|]. by destruct (cont []).
    + by destruct g.
  - assert ((cls_ok k c = true
             ∧ rep k g (Nat.pred lo) (Nat.pred <$> hi) s cont = Some r)
            ∨ (lo = 0%nat ∧ cont (c :: s) = Some r)) as [[Hc Hm]|[-> Hs]].
    { destruct (cls_ok k c) eqn:Hc, (room hi), g, lo; cbn in H;
        repeat match type of H with
               | match ?x with _ => _ end = _ => destruct x eqn:?
               end; try discriminate;
        cbn [Nat.pred] in *;
        first [left; split; congruence | right; split; congruence]. }
    + destruct (IH _ _ Hm) as (pre & rest & -> & Hpre & Hlo & Hcont).
      exists (c :: pre), rest. repeat split; [by constructor|cbn; lia|done].
    + exists [], (c :: s). repeat split; [done|cbn; lia|done].
Qed.

Lemma take_consumed (pre rest : text) :
  take (length (pre ++ rest) - length rest) (pre ++ rest) = pre.
Proof.
  rewrite length_app.
  replace (length pre + length rest - length rest)%nat with (length pre)
    by lia.
  by rewrite take_app_length.
Qed.

(** The two groups of a match of the pair pattern: digits, and a title
    without double quote, neither empty. *)
Lemma pair_groups s caps rest :
  exec HtmlToCsv.pair_re s [] [] = Some (caps, rest) ->
  ∃ event_id impact_title,
    caps = [event_id; impact_title]
    ∧ event_id <> [] ∧ all_digits event_id
    ∧ impact_title <> [] ∧ dq ∉ impact_title.
Proof.
  unfold HtmlToCsv.pair_re. intros (s1 & -> & H)%exec_lits.
  cbn [app exec] in H.
  apply rep_consumed in H as (g1 & s2 & -> & Hg1 & Hl1 & H). cbn [exec] in H.
  rewrite take_consumed in H.
  apply rep_consumed in H as (skip & s3 & -> & _ & _ & H).
  apply exec_lits in H as (s4 & -> & H). cbn [exec] in H.
  apply rep_consumed in H as (g2 & s5 & -> & Hg2 & Hl2 & H). cbn [exec] in H.
  rewrite take_consumed in H.
  destruct s5 as [|c s5]; [done|]. destruct (cls_ok _ c); [|done].
  injection H as <- _. exists g1, g2. repeat split.
  - intros ->. cbn in Hl1. lia.
  - done.
  - intros ->. cbn in Hl2. lia.
  - intros Hin. rewrite Forall_forall in Hg2. specialize (Hg2 _ Hin).
    cbn in Hg2. by rewrite bool_decide_eq_true_2 in Hg2.
Qed.

Lemma findall_from_elem re skip s caps :
  caps ∈ findall_from re skip s ->
  ∃ s' rest, s' `suffix_of` s ∧ exec re s' [] [] = Some (caps, rest).
Proof.
  revert skip. induction s as [|c s IH]; intros skip.
  - destruct skip; cbn; [|by intros ?%elem_of_nil].
    destruct (exec re [] [] []) as [[caps' rest]|] eqn:He;
      [|by intros ?%elem_of_nil].
    intros ->%list_elem_of_singleton. by exists [], rest.
  - assert (∀ n, caps ∈ findall_from re n s ->
            ∃ s' rest, s' `suffix_of` c :: s
                       ∧ exec re s' [] [] = Some (caps, rest)) as Htail.
    { intros n (s' & rest & Hs & He)%IH. exists s', rest.
      split; [by apply suffix_cons_r|done]. }
    destruct skip; cbn; [|apply Htail].
    destruct (exec re (c :: s) [] []) as [[caps' rest]|] eqn:He;
      [|apply Htail].
    intros [->|Hin]%elem_of_cons; [by exists (c :: s), rest|].
    by eapply Htail.
Qed.

Lemma add_pairs_lookup (pairs : list (list text)) (m : gmap text text)
    (k v : text) :
  foldl HtmlToCsv.add_pair m pairs !! k = Some v ->
  m !! k = Some v ∨ [k; v] ∈ pairs.
Proof.
  revert m. induction pairs as [|ev pairs IH]; intros m; cbn; [by left|].
  intros [H|H]%IH; [|right; by apply list_elem_of_further].
  unfold HtmlToCsv.add_pair in H.
  destruct ev as [|i [|t [|]]]; try (by left).
  destruct (decide (i = k)) as [->|Hne].
  - rewrite lookup_insert_eq in H. injection H as ->.
    right. apply list_elem_of_here.
  - rewrite lookup_insert_ne in H by done. by left.
Qed.

(** X8. Every key of the impact map [extract_json_data] builds is a
    non-empty string of digits, and every label in it is non-empty and
    holds no double quote. *)
Theorem impact_map_entries html_content event_id impact_title :
  HtmlToCsv.extract_json_data html_content !! event_id = Some impact_title ->
  event_id <> [] ∧ all_digits event_id
  ∧ impact_title <> [] ∧ dq ∉ impact_title.
Proof.
  unfold HtmlToCsv.extract_json_data.
  destruct (search HtmlToCsv.blob_re html_content) as [[|js gs]|];
    try by rewrite lookup_empty.
  intros [H|H]%add_pairs_lookup; [by rewrite lookup_empty in H|].
  apply findall_from_elem in H as (s & rest & _ & He).
  apply pair_groups in He as (i & t & [= <- <-] & ?). done.
Qed.

Lemma impact_map_entries_witness :
  str "140001" <> [] ∧ all_digits (str "140001")
  ∧ str "High Impact Expected" <> [] ∧ dq ∉ str "High Impact Expected".
Proof.
  apply (impact_map_entries
           (str "<script>window.calendarComponentStates[1] = {days:[{events:[{"
            ++ HtmlToCsv.id_key ++ str "140001,"
            ++ HtmlToCsv.impact_key ++ str "High Impact Expected" ++ [dq]
            ++ str "}]}]};</script>")).
  vm_compute. reflexivity.
Defined.

(** X9. A row without the data-event-id attribute is looked up under the
    empty identifier, which is never a key: whatever the page holds, its
    record has the label Low Impact Expected. *)
Theorem row_without_id_gets_default
    html_content year month month_str st row st' rec :
  HtmlToCsv.body (HtmlToCsv.extract_json_data html_content)
                 year month month_str st row = Ok (st', Some rec) ->
  data_event_id row = None ->
  Impact rec = str "Low Impact Expected".
Proof.
  intros H Hid.
  apply body_emit_inv in H as (_ & d & f & dt & t & _ & Hf & _ & _ & ->).
  apply read_cells_inv in Hf as (_ & _ & Hi & _).
  cbn. rewrite Hi, Hid. cbn.
  destruct (HtmlToCsv.extract_json_data html_content !! []) as [v|] eqn:Hv;
    [|done].
  by apply impact_map_entries in Hv as [? _].
Qed.

Lemma row_without_id_gets_default_witness :
  Impact (sample_record "2025-06-05T17:00:00-08:00" "Payrolls")
  = str "Low Impact Expected".
Proof.
  apply (row_without_id_gets_default
           (str "window.calendarComponentStates[1] = {"
            ++ HtmlToCsv.id_key ++ str "140001,"
            ++ HtmlToCsv.impact_key ++ str "High Impact Expected" ++ [dq]
            ++ str "};")
           2025 6 (str "Jun") (on_june5 None)
           {| row_class := [str "calendar__row"];
              get_text := str "Payrolls";
              find_all_td := find_all_td (sample_row "5:00pm" "Payrolls");
              data_event_id := None |}
           (on_june5 (Some (17, 0)))).
  - vm_compute. reflexivity.
  - reflexivity.
Defined.


(** ** Labels with text after the time, and times out of range *)

Lemma rep_greedy_exact {R} k pre rest lo hi (cont : text -> option R) r :
  Forall (λ c, cls_ok k c = true) pre ->
  (lo <= length pre)%nat ->
  (∀ n, hi = Some n -> (length pre <= n)%nat) ->
  (hi = Some (length pre)
   ∨ match rest with c :: _ => cls_ok k c = false | [] => True end) ->
  cont rest = Some r ->
  rep k Greedy lo hi (pre ++ rest) cont = Some r.
Proof.
  intros Hpre. revert lo hi.
  induction Hpre as [|c pre Hc _ IH]; intros lo hi Hlo Hhi Hend Hcont.
  - cbn in Hlo. assert (lo = 0%nat) as -> by lia.
    destruct rest as [|c s]; cbn; [done|].
    destruct Hend as [->|Hc]; cbn.
    + rewrite andb_false_r. done.
    + by rewrite Hc.
  - cbn [app rep]. rewrite Hc. cbn [andb].
    assert (room hi = true) as ->.
    { destruct hi as [[|n]|]; try done. specialize (Hhi _ eq_refl). cbn in Hhi. lia. }
    rewrite (IH (Nat.pred lo) (Nat.pred <$> hi)); [done|..].
    + cbn in Hlo. lia.
    + intros n Hn. destruct hi as [h|]; [|done]. injection Hn as <-.
      specialize (Hhi _ eq_refl). cbn in Hhi. lia.
    + destruct Hend as [->|He]; [left|by right]. done.
    + done.
Qed.

Lemma time_re_exec hd md p rest :
  all_digits hd -> (length hd = 1 \/ length hd = 2)%nat ->
  all_digits md -> length md = 2%nat ->
  exec time_re (hd ++ str ":" ++ md ++ suffix_text p ++ rest) [] []
  = Some ([hd; md; suffix_text p], rest).
Proof.
  intros Hhd Hlen Hmd Hlm. unfold time_re. cbn [exec].
  apply rep_greedy_exact; try done.
  - lia.
  - intros n [= <-]. lia.
  - by right.
  - cbn [exec]. rewrite take_consumed.
    change (str ":" ++ md ++ suffix_text p ++ rest)
      with (":"%char :: md ++ suffix_text p ++ rest).
    cbn [exec cls_ok]. rewrite bool_decide_eq_true_2 by done.
    apply rep_greedy_exact; try done.
    + lia.
    + intros n [= <-]. lia.
    + left. by rewrite Hlm.
    + cbn [exec]. rewrite take_consumed.
      destruct p; cbn [exec alt suffix_text];
        cbn [app str list_ascii_of_string length take drop];
        rewrite ?bool_decide_eq_true_2 by done;
        rewrite ?bool_decide_eq_false_2 by done;
        rewrite ?bool_decide_eq_true_2 by done;
        change (drop 0 rest) with rest;
        replace (S (S (length rest)) - length rest)%nat with 2%nat by lia;
        reflexivity.
Qed.

Lemma int_digits_nonneg s : all_digits s -> 0 <= int s.
Proof.
  unfold int. intros Hs.
  assert (∀ acc, 0 <= acc ->
            0 <= fold_left (λ a c, 10 * a + digit_val c) s acc) as H;
    [|by apply H].
  induction Hs as [|c s Hc _ IH]; intros acc Hacc; cbn; [done|].
  apply IH. unfold is_digit in Hc. apply andb_prop in Hc as [Hc _].
  apply Z.leb_le in Hc. unfold digit_val. lia.
Qed.

Lemma parsed_time_with_tail label h m p junk :
  is_time_label label h m p ->
  parsed_time (label ++ junk) = Some (to_24h h (suffix_text p), m).
Proof.
  intros (hd & md & sfx & -> & Hhd & Hlen & <- & Hmd & Hlm & <- & Hsfx).
  unfold parsed_time, rmatch.
  rewrite <- !app_assoc, !lower_app, (lower_digits hd), (lower_digits md), Hsfx
    by done.
  change (lower (str ":")) with (str ":").
  by rewrite time_re_exec.
Qed.

Lemma parse_time_label_parsed label base t :
  parsed_time label = Some t ->
  ExtractHtmlToCsv.parse_time_label label base
  = (dt ← datetime.replace base t.1 t.2 0;
     Ok (datetime.replace_tzinfo dt pst)).
Proof.
  intros Hp. unfold ExtractHtmlToCsv.parse_time_label.
  destruct (_ || _) eqn:Hu.
  - assert (label ∈ untimed_labels) as Hin.
    { unfold untimed_labels. apply orb_prop in Hu as [Hu|Hu];
        apply bool_decide_eq_true in Hu.
      - subst. apply list_elem_of_here.
      - by apply list_elem_of_further. }
    apply parsed_time_untimed in Hin. congruence.
  - unfold parsed_time in Hp.
    destruct (time_groups _) as [[[hh mm] ampm]|]; [|done].
    by injection Hp as <-.
Qed.

(** X10. The time pattern is matched at the start of the label only: text
    after a label H:MM(am|pm), as in a time followed by a zone name,
    changes neither what [parse_calendar_html] of html_to_csv.py nor
    what [parse_time_label] of extract_html_to_csv.py makes of it. *)
Theorem text_after_time_is_ignored label h m p junk d lct base :
  is_time_label label h m p ->
  HtmlToCsv.clock d lct (label ++ junk) = HtmlToCsv.clock d lct label
  ∧ ExtractHtmlToCsv.parse_time_label (label ++ junk) base
    = ExtractHtmlToCsv.parse_time_label label base.
Proof.
  intros Hl.
  pose proof (parsed_time_with_tail _ _ _ _ junk Hl) as H1.
  pose proof (parsed_time_with_tail _ _ _ _ [] Hl) as H2.
  rewrite app_nil_r in H2. split.
  - by rewrite (clock_parsed _ _ _ _ H1), (clock_parsed _ _ _ _ H2).
  - by rewrite (parse_time_label_parsed _ _ _ H1),
      (parse_time_label_parsed _ _ _ H2).
Qed.

Lemma text_after_time_is_ignored_witness :
  HtmlToCsv.clock june5 None (str "5:00pm" ++ str " ET")
  = HtmlToCsv.clock june5 None (str "5:00pm")
  ∧ ExtractHtmlToCsv.parse_time_label (str "5:00pm" ++ str " ET") june5
    = ExtractHtmlToCsv.parse_time_label (str "5:00pm") june5.
Proof.
  apply (text_after_time_is_ignored (str "5:00pm") 5 0 PM).
  exact is_time_label_5pm.
Defined.

Lemma to_24h_in_range h ampm :
  0 <= h -> (0 <= to_24h h ampm <= 23 <-> h <= 23).
Proof.
  intros Hh. unfold to_24h.
  destruct (text_eqb ampm (str "pm")), (text_eqb ampm (str "am")),
    (Z.ltb_spec h 12), (Z.eqb_spec h 12); cbn; lia.
Qed.

(** X11. A label of the form H:MM(am|pm), with one or two digits for H
    and two for MM, is accepted exactly when H is at most 23 and MM at
    most 59 (so 0:30am and 13:00pm are times of day, 12 hours are added
    to a pm hour below 12 and 12am is hour 0); otherwise the
    [ValueError] of [datetime.replace] ends the run of
    [parse_calendar_html] and of [parse_time_label]. *)
Theorem time_label_accepted_iff_in_range label h m p d lct base :
  is_time_label label h m p ->
  let hh := to_24h h (suffix_text p) in
  (h <= 23 ∧ m <= 59 ->
   HtmlToCsv.clock d lct label = Ok (datetime.with_time d hh m 0, (hh, m))
   ∧ ExtractHtmlToCsv.parse_time_label label base
     = Ok (datetime.replace_tzinfo (datetime.with_time base hh m 0) pst))
  ∧ (24 <= h ∨ 60 <= m ->
     ∃ msg,
       HtmlToCsv.clock d lct label = Raise (ValueError msg)
       ∧ ExtractHtmlToCsv.parse_time_label label base
         = Raise (ValueError msg)).
Proof.
  intros Hl hh.
  pose proof (parsed_time_with_tail _ _ _ _ [] Hl) as Hp.
  rewrite app_nil_r in Hp. fold hh in Hp.
  rewrite (clock_parsed _ _ _ _ Hp), (parse_time_label_parsed _ _ _ Hp).
  cbn [fst snd].
  destruct Hl as (hd & md & sfx & _ & Hhd & _ & Hh & Hmd & _ & Hm & _).
  pose proof (int_digits_nonneg _ Hhd) as Hh0.
  pose proof (int_digits_nonneg _ Hmd) as Hm0.
  rewrite Hh in Hh0. rewrite Hm in Hm0.
  pose proof (to_24h_in_range h (suffix_text p) Hh0) as Hr. fold hh in Hr.
  split.
  - intros [Hh' Hm']. by rewrite !replace_ok by (try apply Hr; lia).
  - intros Hbad. unfold datetime.replace.
    destruct (Z.leb_spec 0 hh), (Z.leb_spec hh 23), (Z.leb_spec 0 m),
      (Z.leb_spec m 59); cbn; try (by eexists); lia.
Qed.

Lemma time_label_accepted_iff_in_range_witness :
  HtmlToCsv.clock june5 None (str "5:00pm")
  = Ok (datetime.with_time june5 17 0 0, (17, 0))
  ∧ ExtractHtmlToCsv.parse_time_label (str "5:00pm") june5
    = Ok (datetime.replace_tzinfo (datetime.with_time june5 17 0 0) pst).
Proof.
  apply (time_label_accepted_iff_in_range (str "5:00pm") 5 0 PM june5 None
           june5 is_time_label_5pm).
  lia.
Defined.


(** ** loc_scraper.py beside html_to_csv.py *)

Lemma loc_to_24h hh ampm : LocScraper.to_24h hh ampm = to_24h hh ampm.
Proof.
  unfold LocScraper.to_24h, to_24h, text_eqb.
  repeat case_bool_decide; subst; try discriminate; cbn;
    destruct (Z.ltb_spec hh 12); cbn; try done.
Qed.

Lemma loc_clock_cases d lct label :
  LocScraper.clock d lct label
  = (let t := default (default (0, 0) lct) (parsed_time label) in
     event_dt ← datetime.replace d t.1 t.2 (datetime.second d);
     Ok (event_dt, t)).
Proof.
  unfold LocScraper.clock, parsed_time.
  destruct (negb (text_eqb label [])) eqn:He.
  - destruct (time_groups _) as [[[hh mm] ampm]|]; cbn.
    + by rewrite loc_to_24h.
    + by destruct (default (0, 0) lct).
  - apply negb_false_iff, bool_decide_eq_true in He as ->. cbn.
    by destruct (default (0, 0) lct).
Qed.

(** X12. loc_scraper.py converts and resolves a time label as
    html_to_csv.py does, its two separate tests on am and pm giving the
    hour of the if/elif of the other script, except for the label All
    Day, which it treats like an empty label: the row takes the time
    carried so far. *)
Theorem loc_scraper_clock_agrees d lct label :
  datetime.second d = 0 ->
  (∀ hh ampm, LocScraper.to_24h hh ampm = to_24h hh ampm)
  ∧ (label <> str "All Day" ->
     LocScraper.clock d lct label = HtmlToCsv.clock d lct label)
  ∧ LocScraper.clock d lct (str "All Day") = HtmlToCsv.clock d lct [].
Proof.
  intros Hs. split; [apply loc_to_24h|].
  rewrite !loc_clock_cases, !clock_cases, Hs. unfold clock_time, text_eqb.
  split.
  - intros Hne. by rewrite bool_decide_eq_false_2.
  - reflexivity.
Qed.

Lemma loc_scraper_clock_agrees_witness :
  LocScraper.clock june5 (Some (17, 0)) (str "All Day")
  = HtmlToCsv.clock june5 (Some (17, 0)) [].
Proof.
  apply (loc_scraper_clock_agrees june5 (Some (17, 0)) (str "n/a")).
  reflexivity.
Defined.

Lemma isoformat_naive_length y m d hh mm ss :
  length (datetime.isoformat (datetime.mk y m d hh mm ss None)) = 19%nat.
Proof.
  unfold datetime.isoformat, datetime.format_offset. cbn -[datetime.zfill].
  rewrite !length_app, !zfill_length. reflexivity.
Qed.

Section Loc.
Context (year month : Z) (month_str : text).

Local Abbreviation body := (LocScraper.body year month month_str).

(** What a row of loc_scraper.py that appends went through. *)
Lemma loc_body_emit_inv st row st' r :
  body st row = Ok (st', Some r) ->
  LocScraper.contains (str "day-breaker") (concat (row_class row)) = false
  ∧ search (day_re month_str) (strip (get_text row)) = None
  ∧ ∃ d time_text cells_row dt t,
      LocScraper.current_day st = Some d
      ∧ LocScraper.read_cells row = Ok (Some (time_text, cells_row))
      ∧ LocScraper.clock d (LocScraper.last_clock_time st) time_text
        = Ok (dt, t)
      ∧ st' = {| LocScraper.current_day := Some d;
                 LocScraper.last_clock_time := Some t |}
      ∧ r = {| LocScraper.DateTime := datetime.isoformat dt;
               LocScraper.Currency := LocScraper.Currency cells_row;
               LocScraper.Event := LocScraper.Event cells_row;
               LocScraper.Actual := LocScraper.Actual cells_row;
               LocScraper.Forecast := LocScraper.Forecast cells_row;
               LocScraper.Previous := LocScraper.Previous cells_row |}.
Proof.
  unfold LocScraper.body.
  destruct (LocScraper.contains _ _); [discriminate|].
  destruct (search _ _) as [caps|] eqn:Hs.
  { rewrite bool_decide_eq_true_2 by done. discriminate. }
  rewrite bool_decide_eq_false_2 by by intros [? ?]. cbn [orb].
  destruct (LocScraper.current_day st) as [d|] eqn:Hd; [|discriminate].
  destruct (LocScraper.read_cells row) as [[[tt cr]|]|]; try discriminate.
  destruct (LocScraper.clock d _ tt) as [[dt t]|] eqn:Hc; cbn;
    [|discriminate].
  intros [= <- <-]. repeat split. by exists d, tt, cr, dt, t.
Qed.

Lemma loc_body_keeps st row st' out :
  loc_invariant year month st ->
  body st row = Ok (st', out) ->
  loc_invariant year month st'
  ∧ ∀ r, out = Some r -> loc_row_of_month year month r.
Proof.
  intros Hi Hb. pose proof Hi as [Hday Hclock]. destruct out as [r|].
  - apply loc_body_emit_inv in Hb
      as (_ & _ & d & tt & cr & dt & t & Hd & _ & Hc & -> & ->).
    destruct (Hday d Hd) as (n & -> & Hn).
    rewrite loc_clock_cases in Hc. cbn zeta in Hc.
    destruct (datetime.replace _ _ _ _) as [dt'|] eqn:Hr; cbn in Hc;
      [|discriminate].
    injection Hc as <- <-. apply replace_inv in Hr as (-> & Hh & Hm & _).
    split.
    + split; [by intros ? [= <-]; exists n|by intros ? [= <-]].
    + intros ? [= <-]. split.
      * by eexists n, _, _.
      * apply isoformat_naive_length.
  - split; [|by intros ? [=]].
    unfold LocScraper.body in Hb.
    destruct (_ || _).
    + injection Hb as <-. unfold LocScraper.day_row.
      destruct (_ ≫= _) as [d|] eqn:Hn; (split; [|done || by intros ? [=]]).
      * intros ? [= <-].
        destruct (LocScraper.day_num _ _) as [n|]; cbn in Hn; [|done].
        apply new_inv in Hn as (-> & _ & _ & Hr). by exists n.
      * by intros ? [=].
    + destruct (LocScraper.current_day st) as [d|] eqn:Hd;
        [|by injection Hb as <-].
      destruct (LocScraper.read_cells row) as [[[tt cr]|]|];
        try by injection Hb as <-.
      destruct (LocScraper.clock d _ tt) as [[dt t]|]; cbn in Hb;
        discriminate.
Qed.

Lemma loc_for_rows_keeps rows st acc st' res :
  loc_invariant year month st ->
  LocScraper.for_rows year month month_str rows st acc = Ok (st', res) ->
  ∃ new, res = acc ++ new
         ∧ (length new <= length rows)%nat
         ∧ Forall (loc_row_of_month year month) new.
Proof.
  revert st acc. induction rows as [|row rows IH]; intros st acc Hi H; cbn in H.
  - injection H as <- <-. exists []. by rewrite app_nil_r.
  - destruct (body st row) as [[st1 out]|] eqn:Hb; cbn in H; [|discriminate].
    destruct (loc_body_keeps _ _ _ _ Hi Hb) as [Hi1 Hout].
    destruct (IH _ _ Hi1 H) as (new & -> & Hlen & Hnew).
    exists (option_list out ++ new).
    rewrite app_assoc. split; [done|]. split.
    + rewrite length_app. destruct out; cbn; lia.
    + apply Forall_app. split; [|done].
      destruct out as [r|]; cbn; [|done]. constructor; [by apply Hout|done].
Qed.
End Loc.

(** ** Layout and timestamp in the two scripts that read rows *)

(** What [read_cells] of loc_scraper.py read. *)
Lemma loc_read_cells_inv row time_text r :
  LocScraper.read_cells row = Ok (Some (time_text, r)) ->
  (5 <= length (find_all_td row))%nat
  ∧ strip <$> find_all_td row !! 0%nat = Some time_text
  ∧ strip <$> find_all_td row !! 1%nat = Some (LocScraper.Currency r)
  ∧ strip <$> find_all_td row !! 2%nat = Some (LocScraper.Event r)
  ∧ strip <$> find_all_td row !! 3%nat = Some (LocScraper.Actual r)
  ∧ strip <$> find_all_td row !! 4%nat = Some (LocScraper.Forecast r)
  ∧ LocScraper.Previous r = default [] (strip <$> find_all_td row !! 5%nat).
Proof.
  unfold LocScraper.read_cells, item. intros Hf.
  case_bool_decide as Hlen; [discriminate|].
  repeat (match type of Hf with
          | context [find_all_td row !! ?i] =>
              destruct (find_all_td row !! i) eqn:?; cbn in Hf;
                [|discriminate]
          end).
  case_bool_decide as H5; cbn in Hf.
  - destruct (find_all_td row !! 5%nat) eqn:E5; cbn in Hf; [|discriminate].
    injection Hf as <- <-. cbn. repeat split; try done. lia.
  - injection Hf as <- <-. cbn. repeat split; try done; [lia|].
    rewrite lookup_ge_None_2; [done|lia].
Qed.

(** An ISO-8601 text without offset does not end in -08:00: its sixth
    character from the end is the colon after the hour. *)
Lemma isoformat_naive_no_offset y m d hh mm ss :
  ¬ (str "-08:00"
       `suffix_of` datetime.isoformat (datetime.mk y m d hh mm ss None)).
Proof.
  intros [k Hk].
  assert (length k = 13%nat) as Hlen.
  { apply (f_equal length) in Hk.
    rewrite isoformat_naive_length, length_app in Hk. cbn in Hk. lia. }
  unfold datetime.isoformat, datetime.format_offset in Hk.
  cbn [datetime.year datetime.month datetime.day datetime.hour
       datetime.minute datetime.second datetime.tzinfo] in Hk.
  rewrite app_nil_r in Hk.
  rewrite 6!(app_assoc _ _ (_ ++ _)) in Hk.
  apply app_inj_1 in Hk as [_ Hk]; [discriminate Hk|].
  rewrite !length_app, !zfill_length, Hlen. reflexivity.
Qed.

(** C5. In html_to_csv.py the layout of a data row is A when the row has
    11 cells or the new-day tag and B otherwise, and every field of its
    record is the trimmed cell at the offset of that layout: time 1,
    currency 2, event 4, detail 6, actual 7, forecast 8, previous 9 for
    A, and time 0, currency 1, event 3, detail 5, actual 6, forecast 7,
    previous 8 for B. loc_scraper.py chooses no layout: whatever the
    cells and the tags of the row, the row it appends has the trimmed
    cells 1 to 4 as currency, event, actual and forecast, the trimmed
    cell 5 as previous (empty when there are five cells), no detail, and
    the trimmed cell 0 as time label. In both scripts the time cell is
    the label the clock of the row is computed from. *)
Theorem record_fields_by_layout
    impact_map year month month_str row st st' rec lst lst' r :
  (HtmlToCsv.body impact_map year month month_str st row
   = Ok (st', Some rec) ->
   (HtmlToCsv.has_date_col row = true <-> layout_of row = LayoutA)
   ∧ field row ColCurrency = Some (Currency rec)
   ∧ field row ColEvent = Some (Event rec)
   ∧ field row ColDetail = Some (Detail rec)
   ∧ field row ColActual = Some (Actual rec)
   ∧ field row ColForecast = Some (Forecast rec)
   ∧ field row ColPrevious = Some (Previous rec)
   ∧ ∃ d label dt t,
       HtmlToCsv.current_day st = Some d
       ∧ field row ColTime = Some label
       ∧ HtmlToCsv.clock d (HtmlToCsv.last_clock_time st) label = Ok (dt, t)
       ∧ DateTime rec = datetime.isoformat (datetime.replace_tzinfo dt pst))
  ∧ (LocScraper.body year month month_str lst row = Ok (lst', Some r) ->
     strip <$> find_all_td row !! 1%nat = Some (LocScraper.Currency r)
     ∧ strip <$> find_all_td row !! 2%nat = Some (LocScraper.Event r)
     ∧ strip <$> find_all_td row !! 3%nat = Some (LocScraper.Actual r)
     ∧ strip <$> find_all_td row !! 4%nat = Some (LocScraper.Forecast r)
     ∧ LocScraper.Previous r
       = default [] (strip <$> find_all_td row !! 5%nat)
     ∧ ∃ d label dt t,
         LocScraper.current_day lst = Some d
         ∧ strip <$> find_all_td row !! 0%nat = Some label
         ∧ LocScraper.clock d (LocScraper.last_clock_time lst) label
           = Ok (dt, t)
         ∧ LocScraper.DateTime r = datetime.isoformat dt).
Proof.
  split; [apply body_fields_by_layout|].
  intros (_ & _ & d & tt & cr & dt & t & Hd & Hf & Hc & _ & ->)
    %loc_body_emit_inv.
  apply loc_read_cells_inv in Hf as (_ & H0 & H1 & H2 & H3 & H4 & H5).
  cbn. split_and!; try done. by exists d, tt, dt, t.
Qed.

Lemma record_fields_by_layout_witness :
  (field (sample_row "5:00pm" "Payrolls") ColEvent = Some (str "Payrolls")
   ∧ field (sample_row "5:00pm" "Payrolls") ColActual = Some (str "1.0"))
  ∧ (strip <$> find_all_td (sample_row "5:00pm" "Payrolls") !! 2%nat
     = Some []
     ∧ strip <$> find_all_td (sample_row "5:00pm" "Payrolls") !! 3%nat
       = Some (str "Payrolls")).
Proof.
  destruct (record_fields_by_layout ∅ 2025 6 (str "Jun")
              (sample_row "5:00pm" "Payrolls")
              (on_june5 None) (on_june5 (Some (17, 0)))
              (sample_record "2025-06-05T17:00:00-08:00" "Payrolls")
              {| LocScraper.current_day := Some june5;
                 LocScraper.last_clock_time := None |}
              {| LocScraper.current_day := Some june5;
                 LocScraper.last_clock_time := Some (17, 0) |}
              {| LocScraper.DateTime := str "2025-06-05T17:00:00";
                 LocScraper.Currency := str "USD";
                 LocScraper.Event := [];
                 LocScraper.Actual := str "Payrolls";
                 LocScraper.Forecast := [];
                 LocScraper.Previous := [] |})
    as [Hhtml Hloc].
  split.
  - destruct Hhtml as (_ & _ & Hev & _ & Hact & _);
      [vm_compute; reflexivity|].
    exact (conj Hev Hact).
  - destruct Hloc as (_ & Hev & Hact & _); [vm_compute; reflexivity|].
    exact (conj Hev Hact).
Defined.

(** C6. In html_to_csv.py the timestamp of every appended record is the
    date of [current_day] with the time of day the clock of the row
    resolved (which is also the new [last_clock_time]), at the fixed
    offset of -480 minutes whatever the date, and its text is the
    ISO-8601 text of that date and time followed by -08:00;
    [parse_time_label] of extract_html_to_csv.py attaches the same offset
    to its base date. In loc_scraper.py the timestamp is the same date
    and time of day without any offset: 19 characters that do not end in
    -08:00. *)
Theorem timestamp_is_day_and_time_at_utc_minus_8
    impact_map year month month_str row st st' rec lst lst' r :
  (HtmlToCsv.body impact_map year month month_str st row
   = Ok (st', Some rec) ->
   ∃ d hh mm,
     HtmlToCsv.current_day st = Some d
     ∧ HtmlToCsv.last_clock_time st' = Some (hh, mm)
     ∧ 0 <= hh <= 23 ∧ 0 <= mm <= 59
     ∧ DateTime rec
       = datetime.isoformat
           (datetime.mk (datetime.year d) (datetime.month d) (datetime.day d)
                        hh mm 0 (Some (-480)))
     ∧ DateTime rec
       = datetime.isoformat
           (datetime.mk (datetime.year d) (datetime.month d) (datetime.day d)
                        hh mm 0 None)
         ++ str "-08:00")
  ∧ (∀ label base dt,
       ExtractHtmlToCsv.parse_time_label label base = Ok dt ->
       ∃ hh mm,
         dt = datetime.mk (datetime.year base) (datetime.month base)
                (datetime.day base) hh mm 0 (Some (-480))
         ∧ datetime.isoformat dt
           = datetime.isoformat
               (datetime.mk (datetime.year base) (datetime.month base)
                  (datetime.day base) hh mm 0 None)
             ++ str "-08:00")
  ∧ (loc_invariant year month lst ->
     LocScraper.body year month month_str lst row = Ok (lst', Some r) ->
     ∃ d hh mm,
       LocScraper.current_day lst = Some d
       ∧ LocScraper.last_clock_time lst' = Some (hh, mm)
       ∧ 0 <= hh <= 23 ∧ 0 <= mm <= 59
       ∧ LocScraper.DateTime r
         = datetime.isoformat
             (datetime.mk (datetime.year d) (datetime.month d)
                (datetime.day d) hh mm 0 None)
       ∧ length (LocScraper.DateTime r) = 19%nat
       ∧ ¬ (str "-08:00" `suffix_of` LocScraper.DateTime r)).
Proof.
  split_and!.
  - apply body_timestamp_at_utc_minus_8.
  - apply parse_time_label_at_utc_minus_8.
  - intros [Hday _]
      (_ & _ & d & tt & cr & dt & t & Hd & _ & Hc & -> & ->)
      %loc_body_emit_inv.
    destruct (Hday d Hd) as (n & -> & _).
    rewrite loc_clock_cases in Hc. cbn zeta in Hc.
    destruct (datetime.replace _ _ _ _) as [dt'|] eqn:Hr; cbn in Hc;
      [|discriminate].
    injection Hc as <- <-. apply replace_inv in Hr as (-> & Hh & Hm & _).
    destruct (default _ _) as [hh mm]. cbn [fst snd] in *.
    exists (datetime.mk year month n 0 0 0 None), hh, mm.
    split_and!; try done; try lia.
    apply isoformat_naive_no_offset.
Qed.

Lemma timestamp_is_day_and_time_at_utc_minus_8_witness :
  (∃ d hh mm,
     HtmlToCsv.current_day (on_june5 None) = Some d
     ∧ HtmlToCsv.last_clock_time (on_june5 (Some (17, 0))) = Some (hh, mm)
     ∧ 0 <= hh <= 23 ∧ 0 <= mm <= 59
     ∧ str "2025-06-05T17:00:00-08:00"
       = datetime.isoformat
           (datetime.mk (datetime.year d) (datetime.month d) (datetime.day d)
                        hh mm 0 (Some (-480)))
     ∧ str "2025-06-05T17:00:00-08:00"
       = datetime.isoformat
           (datetime.mk (datetime.year d) (datetime.month d) (datetime.day d)
                        hh mm 0 None)
         ++ str "-08:00")
  ∧ length (str "2025-06-05T17:00:00") = 19%nat
  ∧ ¬ (str "-08:00" `suffix_of` str "2025-06-05T17:00:00").
Proof.
  destruct (timestamp_is_day_and_time_at_utc_minus_8 ∅ 2025 6 (str "Jun")
              (sample_row "5:00pm" "Payrolls")
              (on_june5 None) (on_june5 (Some (17, 0)))
              (sample_record "2025-06-05T17:00:00-08:00" "Payrolls")
              {| LocScraper.current_day := Some june5;
                 LocScraper.last_clock_time := None |}
              {| LocScraper.current_day := Some june5;
                 LocScraper.last_clock_time := Some (17, 0) |}
              {| LocScraper.DateTime := str "2025-06-05T17:00:00";
                 LocScraper.Currency := str "USD";
                 LocScraper.Event := [];
                 LocScraper.Actual := str "Payrolls";
                 LocScraper.Forecast := [];
                 LocScraper.Previous := [] |})
    as (Hhtml & _ & Hloc).
  split.
  - apply Hhtml. vm_compute. reflexivity.
  - destruct Hloc as (d & hh & mm & _ & _ & _ & _ & _ & Hlen & Hno).
    + split.
      * intros d [= <-]. exists 5. split; [reflexivity|].
        vm_compute. split; discriminate.
      * intros t [=].
    + vm_compute. reflexivity.
    + exact (conj Hlen Hno).
Defined.

(** X13. Every row [parse_calendar_month_from_html_debug] of
    loc_scraper.py returns is stamped on a day of the year and month of
    the call at a time of day, in the 19 characters of an ISO-8601 text
    without offset, and there are at most as many of them as table
    rows. *)
Theorem loc_scraper_rows_are_naive rows year month recs :
  LocScraper.parse_calendar_month_from_html_debug rows year month = Ok recs ->
  Forall (loc_row_of_month year month) recs
  ∧ (length recs <= length rows)%nat.
Proof.
  unfold LocScraper.parse_calendar_month_from_html_debug.
  destruct (datetime.new year month 1) as [first|]; cbn; [|discriminate].
  destruct (LocScraper.for_rows _ _ _ rows _ _) as [[st res]|] eqn:Hr;
    cbn; [|discriminate].
  intros [= <-].
  apply loc_for_rows_keeps in Hr as (new & -> & Hlen & Hnew); [done|].
  split; intros ? [=].
Qed.

Lemma loc_scraper_rows_are_naive_witness :
  Forall (loc_row_of_month 2025 6)
    [{| LocScraper.DateTime := str "2025-06-05T17:00:00";
        LocScraper.Currency := str "USD";
        LocScraper.Event := [];
        LocScraper.Actual := str "Payrolls";
        LocScraper.Forecast := [];
        LocScraper.Previous := [] |}]
  ∧ (1 <= 2)%nat.
Proof.
  apply (loc_scraper_rows_are_naive
           [sample_breaker "Thu Jun 5"; sample_row "5:00pm" "Payrolls"]
           2025 6).
  vm_compute. reflexivity.
Defined.

(** X14. A row of loc_scraper.py that appends is no day row (its classes,
    joined, do not contain day-breaker and its text has no month and day)
    and has at least 5 cells; its fields are the trimmed cells 1 to 4,
    and the trimmed cell 5 when there is one, the empty text otherwise.
    The event name is not tested: it may be empty. *)
Theorem loc_scraper_fields year month month_str st row st' r :
  LocScraper.body year month month_str st row = Ok (st', Some r) ->
  LocScraper.contains (str "day-breaker") (concat (row_class row)) = false
  ∧ search (day_re month_str) (strip (get_text row)) = None
  ∧ (5 <= length (find_all_td row))%nat
  ∧ strip <$> find_all_td row !! 1%nat = Some (LocScraper.Currency r)
  ∧ strip <$> find_all_td row !! 2%nat = Some (LocScraper.Event r)
  ∧ strip <$> find_all_td row !! 3%nat = Some (LocScraper.Actual r)
  ∧ strip <$> find_all_td row !! 4%nat = Some (LocScraper.Forecast r)
  ∧ LocScraper.Previous r
    = default [] (strip <$> find_all_td row !! 5%nat).
Proof.
  intros (Hc & Hs & d & tt & cr & dt & t & _ & Hf & _ & _ & ->)%loc_body_emit_inv.
  split; [done|]. split; [done|].
  unfold LocScraper.read_cells, item in Hf.
  case_bool_decide as Hlen; [discriminate|].
  repeat (match type of Hf with
          | context [find_all_td row !! ?i] =>
              destruct (find_all_td row !! i) eqn:?; cbn in Hf;
                [|discriminate]
          end).
  case_bool_decide as H5; cbn in Hf.
  - destruct (find_all_td row !! 5%nat) eqn:E5; cbn in Hf; [|discriminate].
    injection Hf as _ <-. cbn. repeat split; try done. lia.
  - injection Hf as _ <-. cbn. repeat split; try done; [lia|].
    rewrite lookup_ge_None_2; [done|lia].
Qed.

Lemma loc_scraper_fields_witness :
  LocScraper.contains (str "day-breaker")
    (concat (row_class (sample_row "5:00pm" "Payrolls"))) = false
  ∧ search (day_re (str "Jun"))
           (strip (get_text (sample_row "5:00pm" "Payrolls"))) = None
  ∧ (5 <= length (find_all_td (sample_row "5:00pm" "Payrolls")))%nat
  ∧ strip <$> find_all_td (sample_row "5:00pm" "Payrolls") !! 1%nat
    = Some (str "USD")
  ∧ strip <$> find_all_td (sample_row "5:00pm" "Payrolls") !! 2%nat
    = Some []
  ∧ strip <$> find_all_td (sample_row "5:00pm" "Payrolls") !! 3%nat
    = Some (str "Payrolls")
  ∧ strip <$> find_all_td (sample_row "5:00pm" "Payrolls") !! 4%nat
    = Some []
  ∧ [] = default [] (strip <$> find_all_td (sample_row "5:00pm" "Payrolls")
                                 !! 5%nat).
Proof.
  apply (loc_scraper_fields 2025 6 (str "Jun")
           {| LocScraper.current_day := Some june5;
              LocScraper.last_clock_time := None |}
           (sample_row "5:00pm" "Payrolls")
           {| LocScraper.current_day := Some june5;
              LocScraper.last_clock_time := Some (17, 0) |}
           {| LocScraper.DateTime := str "2025-06-05T17:00:00";
              LocScraper.Currency := str "USD";
              LocScraper.Event := [];
              LocScraper.Actual := str "Payrolls";
              LocScraper.Forecast := [];
              LocScraper.Previous := [] |}).
  vm_compute. reflexivity.
Defined.

(** ** The events of extract_html_to_csv.py *)

Lemma parse_time_label_cases label base :
  ExtractHtmlToCsv.parse_time_label label base
  = (let t := default (0, 0) (parsed_time label) in
     dt ← datetime.replace base t.1 t.2 0;
     Ok (datetime.replace_tzinfo dt pst)).
Proof.
  destruct (parsed_time label) as [t|] eqn:Hp.
  - by apply parse_time_label_parsed.
  - unfold ExtractHtmlToCsv.parse_time_label. unfold parsed_time in Hp.
    destruct (_ || _); [done|].
    by destruct (time_groups _) as [[[hh mm] ampm]|].
Qed.

Lemma for_events_shape fromtimestamp events acc recs :
  ExtractHtmlToCsv.for_events fromtimestamp events acc = Ok recs ->
  ∃ new, recs = acc ++ new
         ∧ Forall2 (record_of_event fromtimestamp) events new.
Proof.
  revert acc. induction events as [|ev events IH]; intros acc; cbn.
  - intros [= <-]. exists []. by rewrite app_nil_r.
  - destruct (fromtimestamp _) as [base_date|] eqn:Hb; cbn; [|discriminate].
    rewrite parse_time_label_cases. cbn zeta.
    destruct (datetime.replace _ _ _ 0) as [dt|] eqn:Hr; cbn; [|discriminate].
    intros (new & -> & Hnew)%IH. eexists (_ :: new).
    rewrite <- app_assoc. split; [done|]. constructor; [|done].
    apply replace_inv in Hr as (-> & _).
    split; [by exists base_date|]. by repeat split.
Qed.

(** X15. The loop of [parse_calendar_html] of extract_html_to_csv.py
    makes one record per event, in the order of the events: each is
    stamped on the base date of its own event, at the time its own label
    parses to and at midnight when the label does not parse (no time is
    carried from one event to the next), copies the currency, impact,
    name, actual, forecast and previous of the event, and has an empty
    detail. *)
Theorem one_record_per_event fromtimestamp events recs :
  ExtractHtmlToCsv.for_events fromtimestamp events [] = Ok recs ->
  Forall2 (record_of_event fromtimestamp) events recs.
Proof.
  intros (new & -> & H)%for_events_shape. done.
Qed.

Lemma one_record_per_event_witness :
  let ev :=
    {| ExtractHtmlToCsv.dateline := 1749110400;
       ExtractHtmlToCsv.event_id := str "140001";
       ExtractHtmlToCsv.name := str "Payrolls";
       ExtractHtmlToCsv.currency := str "USD";
       ExtractHtmlToCsv.impact := str "High Impact Expected";
       ExtractHtmlToCsv.time_label := str "n/a";
       ExtractHtmlToCsv.actual := str "1.0";
       ExtractHtmlToCsv.previous := str "3.0";
       ExtractHtmlToCsv.forecast := str "2.0" |} in
  Forall2 (record_of_event (λ _, Ok june5)) [ev]
    [{| DateTime := str "2025-06-05T00:00:00-08:00";
        Currency := str "USD";
        Impact := str "High Impact Expected";
        Event := str "Payrolls";
        Actual := str "1.0";
        Forecast := str "2.0";
        Previous := str "3.0";
        Detail := [] |}].
Proof.
  intros ev. apply one_record_per_event. vm_compute. reflexivity.
Defined.

(** ** The repeated group *)

Section Repeated.
Context {R : Type}.

Lemma rep_ext k g lo hi s (c1 c2 : text -> option R) :
  (∀ rest, c1 rest = c2 rest) ->
  rep k g lo hi s c1 = rep k g lo hi s c2.
Proof.
  intros H. revert lo hi. induction s as [|c s IH]; intros lo hi; cbn.
  - by rewrite H.
  - by rewrite (IH (Nat.pred lo) (Nat.pred <$> hi)), H.
Qed.

Lemma alt_ext alts s (c1 c2 : text -> option R) :
  (∀ rest, c1 rest = c2 rest) -> alt alts s c1 = alt alts s c2.
Proof.
  intros H. induction alts as [|a alts IH]; cbn; [done|].
  by rewrite IH, H.
Qed.

Lemma run_ext re s (c1 c2 : text -> option R) :
  (∀ rest, c1 rest = c2 rest) -> ReStar.run re s c1 = ReStar.run re s c2.
Proof.
  intros H. revert s. induction re as [|n re IH]; intros s; cbn; [done|].
  destruct n as [k|k lo hi g| | |alts]; try done.
  - destruct s as [|c s]; [done|]. by destruct (cls_ok k c).
  - by apply rep_ext.
  - by apply alt_ext.
Qed.

(** A sequence of nodes hands its continuation a suffix of its input. *)
Lemma run_inv re s (cont : text -> option R) r :
  ReStar.run re s cont = Some r ->
  ∃ rest, rest `suffix_of` s ∧ cont rest = Some r.
Proof.
  revert s. induction re as [|n re IH]; intros s H; cbn in H.
  - by exists s.
  - destruct n as [k|k lo hi g| | |alts]; try done.
    + destruct s as [|c s]; [done|]. destruct (cls_ok k c); [|done].
      apply IH in H as (rest & Hs & H). exists rest.
      split; [by apply suffix_cons_r|done].
    + apply rep_inv in H as (s1 & Hs1 & H).
      apply IH in H as (rest & Hs & H). exists rest.
      split; [by etrans|done].
    + apply alt_inv in H as (s1 & Hs1 & H).
      apply IH in H as (rest & Hs & H). exists rest.
      split; [by etrans|done].
Qed.

Lemma star_inv n body s (cont : text -> option R) r :
  ReStar.star n body s cont = Some r ->
  ∃ rest, rest `suffix_of` s ∧ cont rest = Some r.
Proof.
  revert s. induction n as [|n IH]; intros s H; cbn in H.
  - by exists s.
  - destruct (ReStar.run body s _) as [r'|] eqn:Hr.
    + injection H as ->. apply run_inv in Hr as (s1 & Hs1 & Hr).
      case_bool_decide; [|done].
      apply IH in Hr as (rest & Hs & Hr). exists rest.
      split; [by etrans|done].
    + by exists s.
Qed.

(** The bound on the iterations is never what stops a repeated group:
    any two bounds that are at least the length of the input give the
    same result. *)
Lemma star_bound n m body s (cont : text -> option R) :
  (length s <= n)%nat -> (length s <= m)%nat ->
  ReStar.star n body s cont = ReStar.star m body s cont.
Proof.
  assert (∀ k, ReStar.star k body [] cont = cont []) as Hnil.
  { intros [|k]; cbn; [done|].
    destruct (ReStar.run body [] _) as [r|] eqn:Hr; [|done].
    apply run_inv in Hr as (rest & _ & Hr).
    case_bool_decide; [cbn in *; lia|done]. }
  revert m s. induction n as [|n IH]; intros m s Hn Hm.
  - destruct s; [|cbn in Hn; lia]. by rewrite !Hnil.
  - destruct m as [|m].
    { destruct s; [|cbn in Hm; lia]. by rewrite !Hnil. }
    cbn. erewrite run_ext; [done|]. intros rest. cbn.
    case_bool_decide; [|done]. apply IH; lia.
Qed.
End Repeated.

(** Without a repeated group the two matchers agree. *)
Lemma exec_nodes re s opens caps :
  ReStar.exec (ReStar.Node <$> re) s opens caps = exec re s opens caps.
Proof.
  revert s opens caps.
  induction re as [|n re IH]; intros s opens caps; cbn; [done|].
  destruct n as [k|k lo hi g| | |alts].
  - destruct s as [|c s]; [done|]. by destruct (cls_ok k c).
  - by apply rep_ext.
  - done.
  - by destruct opens.
  - by apply alt_ext.
Qed.

Lemma restar_exec_lits L re s opens caps r :
  ReStar.exec ((ReStar.Node <$> lits L) ++ re) s opens caps = Some r ->
  ∃ rest, s = L ++ rest ∧ ReStar.exec re rest opens caps = Some r.
Proof.
  revert s. induction L as [|c L IH]; intros s H; cbn in H.
  - by exists s.
  - destruct s as [|c' s]; [done|].
    case_bool_decide as Hc; [|done]. subst c'.
    destruct (IH _ H) as (rest & -> & Hr). by exists rest.
Qed.

Lemma restar_exec_groups_infix html re s opens caps caps' rest :
  s `suffix_of` html ->
  Forall (λ o, o `suffix_of` html) opens ->
  Forall (λ c, infix c html) caps ->
  ReStar.exec re s opens caps = Some (caps', rest) ->
  Forall (λ c, infix c html) caps'.
Proof.
  revert s opens caps.
  induction re as [|n re IH]; intros s opens caps Hs Ho Hc H; cbn in H.
  - by injection H as <- _.
  - destruct n as [[k|k lo hi g| | |alts]|body].
    + destruct s as [|c s]; [done|]. destruct (cls_ok k c); [|done].
      refine (IH _ _ _ _ Ho Hc H). by eapply suffix_cons_l.
    + apply rep_inv in H as (rest' & Hr & H).
      refine (IH _ _ _ _ Ho Hc H). by etrans.
    + refine (IH _ _ _ Hs _ Hc H). by constructor.
    + destruct opens as [|o os]; [done|].
      apply Forall_cons in Ho as [Ho Hos].
      refine (IH _ _ _ Hs Hos _ H).
      apply Forall_app. split; [done|].
      constructor; [|done]. by apply infix_take.
    + apply alt_inv in H as (rest' & Hr & H).
      refine (IH _ _ _ _ Ho Hc H). by etrans.
    + apply star_inv in H as (rest' & Hr & H).
      refine (IH _ _ _ _ Ho Hc H). by etrans.
Qed.

Lemma finditer_from_elem re skip s caps :
  caps ∈ ReStar.finditer_from re skip s ->
  ∃ s' rest, s' `suffix_of` s ∧ ReStar.exec re s' [] [] = Some (caps, rest).
Proof.
  revert skip. induction s as [|c s IH]; intros skip.
  - destruct skip; cbn; [|by intros ?%elem_of_nil].
    destruct (ReStar.exec re [] [] []) as [[caps' rest]|] eqn:He;
      [|by intros ?%elem_of_nil].
    intros ->%list_elem_of_singleton. by exists [], rest.
  - assert (∀ n, caps ∈ ReStar.finditer_from re n s ->
            ∃ s' rest, s' `suffix_of` c :: s
                       ∧ ReStar.exec re s' [] [] = Some (caps, rest))
      as Htail.
    { intros n (s' & rest & Hs & He)%IH. exists s', rest.
      split; [by apply suffix_cons_r|done]. }
    destruct skip; cbn; [|apply Htail].
    destruct (ReStar.exec re (c :: s) [] []) as [[caps' rest]|] eqn:He;
      [|apply Htail].
    intros [->|Hin]%elem_of_cons; [by exists (c :: s), rest|].
    by eapply Htail.
Qed.

Lemma occurs_infix p s : infix p s -> occurs p s = true.
Proof.
  intros (a & b & ->). induction a as [|x a IH]; cbn.
  - destruct p as [|c p]; cbn; [by destruct b|].
    rewrite bool_decide_eq_true_2; [done|].
    f_equal. by rewrite take_app_length.
  - rewrite IH. apply orb_true_r.
Qed.

(** ** The embedded events of extract_html_to_csv.py *)

(** The two groups of a match of the day pattern: digits, not empty, and
    the block of the events; the match holds the key [dateline]. *)
Lemma day_groups s caps rest :
  ReStar.exec ExtractHtmlToCsv.day_pattern s [] [] = Some (caps, rest) ->
  ∃ g1 events_block,
    caps = [g1; events_block]
    ∧ g1 <> [] ∧ all_digits g1
    ∧ infix (ExtractHtmlToCsv.key "dateline") s.
Proof.
  unfold ExtractHtmlToCsv.day_pattern.
  rewrite !fmap_app, <- !app_assoc.
  intros (s1 & -> & H)%restar_exec_lits.
  cbn [fmap list_fmap app ReStar.exec] in H.
  apply rep_consumed in H as (v & s2 & -> & _ & _ & H).
  apply restar_exec_lits in H as (s4 & -> & H). cbn [ReStar.exec] in H.
  apply rep_consumed in H as (g1 & s5 & -> & Hg1 & Hl1 & H).
  cbn [ReStar.exec] in H. rewrite take_consumed in H.
  apply restar_exec_lits in H as (s6 & -> & H). cbn [ReStar.exec] in H.
  apply rep_inv in H as (s7 & _ & H). cbn [ReStar.exec] in H.
  apply star_inv in H as (s8 & _ & H). cbn [ReStar.exec] in H.
  apply rep_inv in H as (s9 & _ & H). cbn [ReStar.exec] in H.
  destruct s9 as [|c s9]; [done|]. destruct (cls_ok _ c); [|done].
  injection H as <- _. eexists g1, _. split; [done|].
  split; [|split].
  - intros ->. cbn in Hl1. lia.
  - done.
  - exists (ExtractHtmlToCsv.skey "date" ++ v ++ dq :: str ",").
    match goal with |- context [?k ++ g1 ++ ?r] => exists (g1 ++ r) end.
    rewrite <- !app_assoc. reflexivity.
Qed.

(** A field of the event pattern closes one group, without double
    quote, and holds its key. *)
Lemma field_groups name re s opens caps r :
  exec (ExtractHtmlToCsv.field_re name ++ re) s opens caps = Some r ->
  ∃ v rest,
    (dq ∉ v)
    ∧ infix (ExtractHtmlToCsv.skey name) s
    ∧ rest `suffix_of` s
    ∧ exec re rest opens (caps ++ [v]) = Some r.
Proof.
  unfold ExtractHtmlToCsv.field_re. rewrite <- !app_assoc.
  cbn [app exec]. intros (s1 & Hs1 & H)%rep_inv.
  apply exec_lits in H as (s2 & -> & H). cbn [exec] in H.
  apply rep_consumed in H as (v & s3 & -> & Hv & _ & H). cbn [exec] in H.
  rewrite take_consumed in H.
  destruct s3 as [|c s3]; [done|]. destruct (cls_ok _ c); [|done].
  exists v, s3. split_and!.
  - intros Hin. rewrite Forall_forall in Hv. specialize (Hv _ Hin).
    cbn in Hv. by rewrite bool_decide_eq_true_2 in Hv.
  - eapply infix_suffix; [apply infix_prefix|done].
  - etrans; [|done]. apply suffix_app_r, suffix_app_r.
    by apply suffix_cons_r.
  - done.
Qed.

(** The nine groups of a match of the event pattern: digits, not empty,
    and eight values without double quote. *)
Lemma event_groups s caps rest :
  exec ExtractHtmlToCsv.event_pattern s [] [] = Some (caps, rest) ->
  ∃ event_id values,
    caps = event_id :: values
    ∧ length values = 8%nat
    ∧ event_id <> [] ∧ all_digits event_id
    ∧ Forall (λ v, dq ∉ v) values
    ∧ infix (ExtractHtmlToCsv.skey "timeLabel") s.
Proof.
  unfold ExtractHtmlToCsv.event_pattern.
  rewrite <- (app_nil_r (ExtractHtmlToCsv.field_re "forecast")).
  intros (s1 & -> & H)%exec_lits. cbn [app exec] in H.
  apply rep_consumed in H as (g1 & s2 & -> & Hg1 & Hl1 & H).
  cbn [exec] in H. rewrite take_consumed in H. cbn [app] in H.
  apply field_groups in H as (v1 & r1 & H1 & _ & S1 & H).
  apply field_groups in H as (v2 & r2 & H2 & _ & S2 & H).
  apply field_groups in H as (v3 & r3 & H3 & _ & S3 & H).
  apply field_groups in H as (v4 & r4 & H4 & K4 & S4 & H).
  apply field_groups in H as (v5 & r5 & H5 & _ & S5 & H).
  apply field_groups in H as (v6 & r6 & H6 & _ & S6 & H).
  apply field_groups in H as (v7 & r7 & H7 & _ & S7 & H).
  apply field_groups in H as (v8 & r8 & H8 & _ & S8 & H).
  cbn in H. injection H as <- _.
  exists g1, [v1; v2; v3; v4; v5; v6; v7; v8]. split_and!.
  - done.
  - done.
  - intros ->. cbn in Hl1. lia.
  - done.
  - by repeat constructor.
  - eapply infix_suffix; [done|].
    do 2 apply suffix_app_r. do 2 (etrans; [|done]). done.
Qed.

Lemma replace_from_elem old new skip s c :
  c ∈ replace_from old new skip s -> c ∈ s ∨ c ∈ new.
Proof.
  revert skip. induction s as [|x s IH]; intros skip.
  - destruct skip; cbn; by left.
  - destruct skip as [|n]; cbn.
    + case_bool_decide.
      * intros [Hin|Hin]%elem_of_app; [by right|].
        apply IH in Hin as [Hin|Hin]; [left|by right].
        by apply list_elem_of_further.
      * intros [->|Hin]%elem_of_cons; [left; apply list_elem_of_here|].
        apply IH in Hin as [Hin|Hin]; [left|by right].
        by apply list_elem_of_further.
    + intros Hin. apply IH in Hin as [Hin|Hin]; [left|by right].
      by apply list_elem_of_further.
Qed.

Lemma unescape_no_quote name :
  dq ∉ name -> dq ∉ ExtractHtmlToCsv.unescape name.
Proof.
  unfold ExtractHtmlToCsv.unescape, replace. intros Hn Hin.
  apply replace_from_elem in Hin as [Hin|Hin].
  - apply replace_from_elem in Hin as [Hin|Hin]; [done|].
    by apply list_elem_of_singleton in Hin.
  - by apply list_elem_of_singleton in Hin.
Qed.

(** Where an event of [extract_events_from_json] comes from: a match of
    the event pattern in the block of a match of the day pattern in the
    blob. *)
Lemma json_event_inv html_content ev :
  ev ∈ ExtractHtmlToCsv.extract_events_from_json html_content ->
  ∃ js gs s1 r1 g1 events_block s2 r2 event_id n c i t a p r f,
    search ExtractHtmlToCsv.blob_re html_content = Some (js :: gs)
    ∧ s1 `suffix_of` js
    ∧ ReStar.exec ExtractHtmlToCsv.day_pattern s1 [] []
      = Some ([g1; events_block], r1)
    ∧ s2 `suffix_of` events_block
    ∧ exec ExtractHtmlToCsv.event_pattern s2 [] []
      = Some ([event_id; n; c; i; t; a; p; r; f], r2)
    ∧ ev = {| ExtractHtmlToCsv.dateline := int g1;
              ExtractHtmlToCsv.event_id := event_id;
              ExtractHtmlToCsv.name := ExtractHtmlToCsv.unescape n;
              ExtractHtmlToCsv.currency := c;
              ExtractHtmlToCsv.impact := i;
              ExtractHtmlToCsv.time_label := t;
              ExtractHtmlToCsv.actual := a;
              ExtractHtmlToCsv.previous := p;
              ExtractHtmlToCsv.forecast := f |}.
Proof.
  unfold ExtractHtmlToCsv.extract_events_from_json.
  destruct (search _ html_content) as [[|js gs]|] eqn:Hs;
    try by intros ?%elem_of_nil.
  intros (day & Hev & Hday)%list_elem_of_bind.
  apply finditer_from_elem in Hday as (s1 & r1 & Hs1 & He1).
  destruct (day_groups _ _ _ He1) as (g1 & block & -> & _).
  cbn [ExtractHtmlToCsv.events_of_day] in Hev.
  apply list_elem_of_bind in Hev as (groups & Hev & Hg).
  apply findall_from_elem in Hg as (s2 & r2 & Hs2 & He2).
  destruct (event_groups _ _ _ He2) as (event_id & values & -> & Hlen & _).
  destruct values as [|n [|c [|i [|t [|a [|p [|r [|f [|]]]]]]]]];
    try discriminate Hlen.
  cbn in Hev. apply list_elem_of_singleton in Hev as ->.
  by eexists js, gs, s1, r1, g1, block, s2, r2, event_id, n, c, i, t, a, p,
    r, f.
Qed.

(** X16. Every event [extract_events_from_json] returns has an
    identifier that is a non-empty string of digits and a base date that
    is not negative; its name, currency, impact, time label, actual,
    previous and forecast hold no double quote; and its identifier and
    every field but the name, which is unescaped, are pieces of the text
    of the page. *)
Theorem json_event_fields html_content ev :
  ev ∈ ExtractHtmlToCsv.extract_events_from_json html_content ->
  ExtractHtmlToCsv.event_id ev <> []
  ∧ all_digits (ExtractHtmlToCsv.event_id ev)
  ∧ 0 <= ExtractHtmlToCsv.dateline ev
  ∧ Forall (λ v, dq ∉ v)
      [ExtractHtmlToCsv.name ev; ExtractHtmlToCsv.currency ev;
       ExtractHtmlToCsv.impact ev; ExtractHtmlToCsv.time_label ev;
       ExtractHtmlToCsv.actual ev; ExtractHtmlToCsv.previous ev;
       ExtractHtmlToCsv.forecast ev]
  ∧ Forall (λ v, infix v html_content)
      [ExtractHtmlToCsv.event_id ev; ExtractHtmlToCsv.currency ev;
       ExtractHtmlToCsv.impact ev; ExtractHtmlToCsv.time_label ev;
       ExtractHtmlToCsv.actual ev; ExtractHtmlToCsv.previous ev;
       ExtractHtmlToCsv.forecast ev].
Proof.
  intros (js & gs & s1 & r1 & g1 & block & s2 & r2 & event_id & n & c & i
          & t & a & p & r & f & Hs & Hs1 & He1 & Hs2 & He2 & ->)
    %json_event_inv.
  cbn.
  assert (infix block html_content) as Hblock.
  { apply (restar_exec_groups_infix js) in He1; [|done..].
    apply Forall_cons in He1 as [_ [He1 _]%Forall_cons].
    eapply infix_trans; [done|]. by eapply blob_infix. }
  pose proof He2 as Hin. apply (exec_groups_infix block) in Hin; [|done..].
  apply day_groups in He1 as (g1' & block' & [= <- <-] & _ & Hd & _).
  apply event_groups in He2
    as (id' & values & [= <- <-] & _ & Hne & Hid & Hq & _).
  split_and!; [done|done|by apply int_digits_nonneg| |].
  - apply Forall_cons in Hq as [Hn Hq].
    constructor; [by apply unescape_no_quote|].
    apply Forall_cons in Hq as [Hc Hq]. constructor; [done|].
    apply Forall_cons in Hq as [Hi Hq]. constructor; [done|].
    apply Forall_cons in Hq as [Ht Hq]. constructor; [done|].
    apply Forall_cons in Hq as [Ha Hq]. constructor; [done|].
    apply Forall_cons in Hq as [Hp Hq]. constructor; [done|].
    apply Forall_cons in Hq as [_ Hq].
    apply Forall_cons in Hq as [Hf Hq]. by constructor.
  - assert (∀ v, infix v block -> infix v html_content) as Hup.
    { intros v Hv. by eapply infix_trans. }
    apply Forall_cons in Hin as [H0 Hin]. constructor; [by apply Hup|].
    apply Forall_cons in Hin as [_ Hin].
    apply Forall_cons in Hin as [H2 Hin]. constructor; [by apply Hup|].
    apply Forall_cons in Hin as [H3 Hin]. constructor; [by apply Hup|].
    apply Forall_cons in Hin as [H4 Hin]. constructor; [by apply Hup|].
    apply Forall_cons in Hin as [H5 Hin]. constructor; [by apply Hup|].
    apply Forall_cons in Hin as [H6 Hin]. constructor; [by apply Hup|].
    apply Forall_cons in Hin as [_ Hin].
    apply Forall_cons in Hin as [H8 Hin]. constructor; [by apply Hup|done].
Qed.

Lemma json_event_fields_witness :
  str "140001" <> []
  ∧ all_digits (str "140001")
  ∧ 0 <= 1749110400
  ∧ Forall (λ v, dq ∉ v)
      [str "Payrolls"; str "USD"; str "High Impact Expected"; str "5:00pm";
       str "1.0"; str "3.0"; str "2.0"]
  ∧ Forall (λ v, infix v (sample_json_page
                            [sample_event_json "140001" "5:00pm"]))
      [str "140001"; str "USD"; str "High Impact Expected"; str "5:00pm";
       str "1.0"; str "3.0"; str "2.0"].
Proof.
  apply (json_event_fields
           (sample_json_page [sample_event_json "140001" "5:00pm"])
           {| ExtractHtmlToCsv.dateline := 1749110400;
              ExtractHtmlToCsv.event_id := str "140001";
              ExtractHtmlToCsv.name := str "Payrolls";
              ExtractHtmlToCsv.currency := str "USD";
              ExtractHtmlToCsv.impact := str "High Impact Expected";
              ExtractHtmlToCsv.time_label := str "5:00pm";
              ExtractHtmlToCsv.actual := str "1.0";
              ExtractHtmlToCsv.previous := str "3.0";
              ExtractHtmlToCsv.forecast := str "2.0" |}).
  vm_compute. apply list_elem_of_here.
Defined.

Lemma json_event_keys html_content ev :
  ev ∈ ExtractHtmlToCsv.extract_events_from_json html_content ->
  infix HtmlToCsv.blob_prefix html_content
  ∧ infix (ExtractHtmlToCsv.key "dateline") html_content
  ∧ infix (ExtractHtmlToCsv.skey "timeLabel") html_content.
Proof.
  intros (js & gs & s1 & r1 & g1 & block & s2 & r2 & event_id & n & c & i
          & t & a & p & r & f & Hs & Hs1 & He1 & Hs2 & He2 & _)
    %json_event_inv.
  assert (infix js html_content) as Hjs by by eapply blob_infix.
  assert (infix block js) as Hblock.
  { apply (restar_exec_groups_infix js) in He1; [|done..].
    by apply Forall_cons in He1 as [_ [He1 _]%Forall_cons]. }
  apply day_groups in He1 as (_ & _ & _ & _ & _ & Hk).
  apply event_groups in He2 as (_ & _ & _ & _ & _ & _ & _ & Ht).
  split_and!.
  - by eapply blob_needs_prefix.
  - eapply infix_trans; [|done]. by eapply infix_suffix.
  - eapply infix_trans; [|done]. eapply infix_trans; [|done].
    by eapply infix_suffix.
Qed.



(** ** When the loop over the events ends with an exception *)

Lemma parse_time_label_ok label base :
  time_ok label = true ->
  ∃ dt, ExtractHtmlToCsv.parse_time_label label base = Ok dt.
Proof.
  intros Hok. rewrite parse_time_label_cases. cbn zeta.
  destruct (parsed_time label) as [[hh mm]|] eqn:Hp; cbn.
  - destruct (time_ok_valid _ _ _ Hok Hp) as [Hh Hm].
    rewrite replace_ok by done. by eexists.
  - by eexists.
Qed.

Lemma parse_time_label_raises label base :
  time_ok label = false ->
  ∃ msg, ExtractHtmlToCsv.parse_time_label label base
         = Raise (ValueError msg).
Proof.
  intros Hbad. rewrite parse_time_label_cases. cbn zeta.
  unfold time_ok in Hbad.
  destruct (parsed_time label) as [[hh mm]|] eqn:Hp; [|done]. cbn.
  destruct (datetime.replace base hh mm 0) as [dt|e] eqn:Hr; cbn.
  - apply replace_inv in Hr as (_ & Hh & Hm & _).
    apply andb_false_iff in Hbad as [Hbad|Hbad]; [|lia].
    apply andb_false_iff in Hbad as [Hbad|Hbad]; [|lia].
    apply andb_false_iff in Hbad as [Hbad|Hbad]; lia.
  - apply replace_raises in Hr as [msg ->]. by exists msg.
Qed.

Lemma for_events_raise_iff fromtimestamp events acc :
  (∃ e, ExtractHtmlToCsv.for_events fromtimestamp events acc = Raise e)
  <-> Exists (λ ev,
                (∃ e, fromtimestamp (ExtractHtmlToCsv.dateline ev) = Raise e)
                ∨ time_ok (ExtractHtmlToCsv.time_label ev) = false) events.
Proof.
  revert acc. induction events as [|ev events IH]; intros acc.
  - cbn. split; [by intros [e H]|by intros H%Exists_nil].
  - rewrite Exists_cons. cbn [ExtractHtmlToCsv.for_events].
    destruct (fromtimestamp (ExtractHtmlToCsv.dateline ev))
      as [base_date|e] eqn:Hb; cbn [mbind result_bind].
    + destruct (time_ok (ExtractHtmlToCsv.time_label ev)) eqn:Hok.
      * destruct (parse_time_label_ok _ base_date Hok) as [dt ->].
        cbn. rewrite IH.
        split; [by right|by intros [[[? ?]|?]|?]].
      * destruct (parse_time_label_raises _ base_date Hok) as [msg ->].
        cbn. split; [by left; right|by eexists].
    + split; [left; left; by eexists|by eexists].
Qed.

(** X18. The loop of [parse_calendar_html] of extract_html_to_csv.py
    over the events ends with an exception exactly when one of the events
    has a base date [datetime.fromtimestamp] rejects, or a time label the
    time pattern matches with an hour or a minute out of range: neither
    the call of [fromtimestamp] nor the [replace] of [parse_time_label]
    is guarded, and one such event loses the records of the whole
    page. *)
Theorem events_abort_iff_date_or_time_out_of_range fromtimestamp events :
  (∃ e, ExtractHtmlToCsv.for_events fromtimestamp events [] = Raise e)
  <-> Exists (λ ev,
                (∃ e, fromtimestamp (ExtractHtmlToCsv.dateline ev) = Raise e)
                ∨ time_ok (ExtractHtmlToCsv.time_label ev) = false) events.
Proof. apply for_events_raise_iff. Qed.

(** A millisecond timestamp is a date of the year 57397, which
    [fromtimestamp] rejects: the event aborts the loop though its label
    is in range. *)
Example event_with_millisecond_dateline :
  ExtractHtmlToCsv.for_events
    (λ ts, if ts <? 253402300800 then Ok june5
           else Raise (ValueError "year is out of range"))
    [{| ExtractHtmlToCsv.dateline := 1749110400000;
        ExtractHtmlToCsv.event_id := str "140001";
        ExtractHtmlToCsv.name := str "Payrolls";
        ExtractHtmlToCsv.currency := str "USD";
        ExtractHtmlToCsv.impact := str "High Impact Expected";
        ExtractHtmlToCsv.time_label := str "5:00pm";
        ExtractHtmlToCsv.actual := str "1.0";
        ExtractHtmlToCsv.previous := str "3.0";
        ExtractHtmlToCsv.forecast := str "2.0" |}] []
  = Raise (ValueError "year is out of range").
Proof. vm_compute. reflexivity. Qed.

(** ** The loop of [main] *)

Section MainLoop.
Context {page : Type}.
Context (parse : page -> Z -> Z -> result (list EventRecord)).
Context (disk : string -> option (file page)).

(** The loop appends the frames of the files that are not empty, in the
    order of the files. *)
Lemma for_files_inv year files acc all :
  for_files parse disk year files acc = Ok all ->
  ∃ frames,
    Forall2 (λ entry df, frame_of parse disk year entry = Ok df) files frames
    ∧ all = acc ++ filter (λ df, df <> []) frames.
Proof.
  revert acc. induction files as [|[month filename] files IH]; intros acc;
    cbn.
  - intros [= <-]. exists []. by rewrite app_nil_r.
  - assert (∀ df frames,
              frame_of parse disk year (month, filename) = Ok df ->
              Forall2 (λ entry df, frame_of parse disk year entry = Ok df) files frames ->
              Forall2 (λ entry df, frame_of parse disk year entry = Ok df)
                ((month, filename) :: files) (df :: frames)) as Hcons
      by by constructor.
    unfold frame_of in Hcons at 1. cbn in Hcons.
    destruct (disk filename) as [f|].
    + destruct (parse_path parse f year month) as [[|rec df]|] eqn:Hp; cbn;
        [| |done].
      * intros (frames & Hf & ->)%IH. exists ([] :: frames).
        split; [by apply Hcons|done].
      * intros (frames & Hf & ->)%IH. exists ((rec :: df) :: frames).
        split; [by apply Hcons|].
        rewrite filter_cons_True by done. by rewrite <- app_assoc.
    + intros (frames & Hf & ->)%IH. exists ([] :: frames).
      split; [by apply Hcons|done].
Qed.

Lemma for_files_raises year files acc entry e :
  entry ∈ files -> frame_of parse disk year entry = Raise e ->
  ∃ e', for_files parse disk year files acc = Raise e'.
Proof.
  intros Hin He. revert acc.
  induction files as [|[month filename] files IH]; intros acc;
    [by apply elem_of_nil in Hin|].
  apply elem_of_cons in Hin as [->|Hin]; cbn.
  - unfold frame_of in He. cbn in He.
    destruct (disk filename) as [f|]; [|done]. rewrite He. by eexists.
  - destruct (disk filename) as [f|]; [|by apply IH].
    destruct (parse_path parse f year month) as [[|rec df]|e1]; cbn;
      [by apply IH|by apply IH|by eexists].
Qed.

Lemma for_files_empty year files acc :
  Forall (λ entry, frame_of parse disk year entry = Ok []) files ->
  for_files parse disk year files acc = Ok acc.
Proof.
  induction 1 as [|[month filename] files Hf _ IH]; cbn; [done|].
  unfold frame_of in Hf. cbn in Hf.
  destruct (disk filename) as [f|]; [|done]. by rewrite Hf.
Qed.

Lemma filter_nonempty_nil (frames : list (list EventRecord)) :
  filter (λ df, df <> []) frames = [] -> Forall (λ df, df = []) frames.
Proof.
  induction frames as [|[|rec df] frames IH]; [done| |].
  - rewrite filter_cons_False by (by intros ?). intros H.
    constructor; [done|by apply IH].
  - by rewrite filter_cons_True.
Qed.

Lemma concat_filter_nonempty (frames : list (list EventRecord)) :
  concat (filter (λ df, df <> []) frames) = concat frames.
Proof.
  induction frames as [|[|rec df] frames IH]; [done| |].
  - by rewrite filter_cons_False by (by intros ?).
  - rewrite filter_cons_True by done. cbn. by rewrite IH.
Qed.

Lemma combined_df_none_iff :
  combined_df parse disk = Ok None
  <-> Forall (λ entry, frame_of parse disk 2025 entry = Ok []) html_files.
Proof.
  unfold combined_df. split.
  - destruct (for_files parse disk 2025 html_files []) as [all|] eqn:Hf; cbn; [|done].
    apply for_files_inv in Hf as (frames & Hfr & ->).
    destruct (filter _ frames) as [|df dfs] eqn:Hnil; cbn; [|done].
    intros _. apply filter_nonempty_nil in Hnil.
    clear -Hfr Hnil. induction Hfr as [|entry df files frames H _ IH];
      [done|].
    apply Forall_cons in Hnil as [-> Hnil]. constructor; [done|by apply IH].
  - intros H. by rewrite for_files_empty.
Qed.

Lemma combined_df_raises month filename p e :
  (month, filename) ∈ html_files ->
  disk filename = Some (Contents p) ->
  parse p 2025 month = Raise e ->
  ∃ e', combined_df parse disk = Raise e'.
Proof.
  intros Hin Hd Hp. unfold combined_df.
  destruct (for_files_raises 2025 html_files [] (month, filename) e Hin)
    as [e' ->]; [|by eexists].
  unfold frame_of. cbn. by rewrite Hd.
Qed.

(** The frame handed to pandas is the frames of the months one after
    the other. *)
Lemma combined_df_inv l :
  combined_df parse disk = Ok (Some l) ->
  l <> []
  ∧ ∃ frames,
      Forall2 (λ entry df, frame_of parse disk 2025 entry = Ok df) html_files frames
      ∧ l = concat frames.
Proof.
  unfold combined_df.
  destruct (for_files parse disk 2025 html_files []) as [all|] eqn:Hf; cbn; [|done].
  apply for_files_inv in Hf as (frames & Hfr & ->). cbn [app].
  destruct (filter _ frames) as [|df dfs] eqn:Hfl; [done|].
  intros [= <-]. split.
  - assert (df ∈ filter (λ df, df <> []) frames) as Hin
      by (rewrite Hfl; apply list_elem_of_here).
    apply list_elem_of_filter in Hin as [Hne _].
    cbn. by destruct df.
  - exists frames. split; [done|].
    by rewrite <- (concat_filter_nonempty frames), Hfl.
Qed.
End MainLoop.

(** X19. [main] has no handler around [parse_calendar_html]: when the
    page of one of the seven files raises, the run ends with an exception
    and no frame is combined, whatever the other files hold. *)
Theorem one_bad_file_aborts_main
    {page} (parse : page -> Z -> Z -> result (list EventRecord)) disk
    month filename p e :
  (month, filename) ∈ html_files ->
  disk filename = Some (Contents p) ->
  parse p 2025 month = Raise e ->
  ∃ e', combined_df parse disk = Raise e'.
Proof. apply combined_df_raises. Qed.

Lemma one_bad_file_aborts_main_witness :
  ∃ e', html_to_csv_combined_df
          (λ filename,
             if String.eqb filename "June 2025.html"
             then Some (sample_page "Thu Jun 5" "5:00pm")
             else if String.eqb filename "Aug 2025.html"
             then Some (sample_page "Tue Aug 5" "9:75pm")
             else None)
        = Raise e'.
Proof.
  apply (one_bad_file_aborts_main
           (λ p, HtmlToCsv.parse_calendar_html p.1 p.2)
           (λ filename,
              if String.eqb filename "June 2025.html"
              then Some (sample_page "Thu Jun 5" "5:00pm")
              else if String.eqb filename "Aug 2025.html"
              then Some (sample_page "Tue Aug 5" "9:75pm")
              else None)
           8 "Aug 2025.html"
           ([], [sample_breaker "Tue Aug 5"; sample_row "9:75pm" "Payrolls"])
           (ValueError "minute must be in 0..59")).
  - do 2 apply list_elem_of_further. apply list_elem_of_here.
  - reflexivity.
  - vm_compute. reflexivity.
Defined.

(** X20. [main] combines nothing, and writes no file, exactly when the
    frame of every month is empty: the file is missing, cannot be read, or
    parses to no record. *)
Theorem nothing_is_written_iff_every_frame_is_empty
    {page} (parse : page -> Z -> Z -> result (list EventRecord)) disk :
  combined_df parse disk = Ok None
  <-> Forall (λ entry, frame_of parse disk 2025 entry = Ok []) html_files.
Proof. apply combined_df_none_iff. Qed.

Lemma parse_frame_of_month html_content rows year month recs :
  HtmlToCsv.parse_calendar_html html_content rows year month = Ok recs ->
  Forall (record_of_month year month) recs.
Proof.
  unfold HtmlToCsv.parse_calendar_html.
  destruct (datetime.new year month 1) as [first|]; cbn; [|discriminate].
  destruct (HtmlToCsv.for_rows _ _ _ _ rows _ _) as [[st res]|] eqn:Hr;
    cbn; [|discriminate].
  intros [= <-].
  apply for_rows_keeps in Hr as (_ & new & -> & _ & Hnew);
    [|apply loop_invariant_fresh].
  done.
Qed.



(** X22. When no file that is read holds the assignment of the calendar
    states, [main] of extract_html_to_csv.py combines nothing and writes
    no file. *)
Theorem pages_without_blob_write_nothing fromtimestamp disk :
  (∀ filename html_content,
     disk filename = Some (Contents html_content) ->
     ¬ infix HtmlToCsv.blob_prefix html_content) ->
  extract_html_to_csv_combined_df fromtimestamp disk = Ok None.
Proof.
  intros Hno. apply combined_df_none_iff.
  apply Forall_forall. intros [month filename] _.
  unfold frame_of. cbn.
  destruct (disk filename) as [[|html]|] eqn:Hd; cbn; [done| |done].
  unfold ExtractHtmlToCsv.parse_calendar_html,
    ExtractHtmlToCsv.extract_events_from_json.
  destruct (search _ html) as [[|js gs]|] eqn:Hs; [done| |done].
  destruct (Hno _ _ Hd). by eapply blob_needs_prefix.
Qed.

Lemma pages_without_blob_write_nothing_witness :
  extract_html_to_csv_combined_df (λ _, Ok june5)
    (λ _, Some (Contents (str "<html><body>no calendar</body></html>")))
  = Ok None.
Proof.
  apply (pages_without_blob_write_nothing (λ _, Ok june5)
           (λ _, Some (Contents (str "<html><body>no calendar</body></html>")))).
  intros filename html [= <-] H%occurs_infix. vm_compute in H.
  discriminate H.
Defined.

Example extract_page_day :
  ExtractHtmlToCsv.parse_calendar_html (λ _, Ok june5)
    (sample_json_page [sample_event_json "140001" "5:00pm"; str ",";
                       sample_event_json "140002" "All Day"]) 2025 6
  = Ok [{| DateTime := str "2025-06-05T17:00:00-08:00";
           Currency := str "USD";
           Impact := str "High Impact Expected";
           Event := str "Payrolls";
           Actual := str "1.0";
           Forecast := str "2.0";
           Previous := str "3.0";
           Detail := [] |};
        {| DateTime := str "2025-06-05T00:00:00-08:00";
           Currency := str "USD";
           Impact := str "High Impact Expected";
           Event := str "Payrolls";
           Actual := str "1.0";
           Forecast := str "2.0";
           Previous := str "3.0";
           Detail := [] |}].
Proof. vm_compute. reflexivity. Qed.

Example extract_page_out_of_range :
  ExtractHtmlToCsv.parse_calendar_html (λ _, Ok june5)
    (sample_json_page [sample_event_json "140001" "5:00pm"; str ",";
                       sample_event_json "140002" "9:75pm"]) 2025 6
  = Raise (ValueError "minute must be in 0..59").
Proof. vm_compute. reflexivity. Qed.
